(** * RF Online add-on: MSH and ANI codecs

    A shallow embedding of the import and export operators of
    [cbb_rf_online_addon/msh.py] and [cbb_rf_online_addon/ani.py], and the
    properties of the two file formats that the operators establish.

    Conventions of the embedding.
    - Python [int] is [Z]; list lengths and list positions are [nat].
    - Python [float] is modelled by exact rationals [Q].  The operators only
      copy, negate, add, subtract and compare floats; where rounding could
      matter (a sum of three weights, the quotient of a tick by 160) the
      comment of the definition says so.
    - A [dict] is a [gmap]; a [list] indexed with [l[i]] is a list with
      stdpp's lookup, and the [IndexError]/[KeyError] of Python is [None].
    - The [Utils.Serializer] calls made on the output file are logged as
      values of [WriteOp]; the content of a file is the log of the calls
      that succeeded on it, in order. *)

From Stdlib Require Import ZArith QArith Lia Lqa.
From stdpp Require Import gmap strings list fin_maps pretty sorting.

Local Open Scope Z_scope.

(** ** Values carried by the formats *)

Definition Vector3 : Type := Q * Q * Q.
Definition Vector2 : Type := Q * Q.
Definition Matrix : Type := list Q.

Record Quaternion : Type := mkQuaternion { qw : Q; qx : Q; qy : Q; qz : Q }.

(** [Quaternion.conjugated()] of mathutils. *)
Definition conjugated (q : Quaternion) : Quaternion :=
  mkQuaternion (qw q) (- qx q)%Q (- qy q)%Q (- qz q)%Q.

(** [Quaternion((-q.w, q.x, q.y, q.z))], the sign convention of the file. *)
Definition flip_w (q : Quaternion) : Quaternion :=
  mkQuaternion (- qw q)%Q (qx q) (qy q) (qz q).

(** Python's [int(x)] on a float: truncation towards zero. *)
Definition int_of_float (x : Q) : Z := Z.quot (Qnum x) (Zpos (Qden x)).

(** Python's builtin [sum]: a left fold starting from [0]. *)
Definition sum (l : list Q) : Q := fold_left Qplus l 0%Q.

(** ** The serializer calls *)

Module Serializer.

(** One constructor per call the operators make on the output stream.
    [file_write_zeros n] is [file.write(bytearray(n))]. *)
Inductive WriteOp : Type :=
| write_ushort (v : Z)
| write_uint (v : Z)
| write_int (v : Z)
| write_float (v : Q)
| write_fixed_string (width : nat) (encoding : string) (s : string)
| write_vector3f (v : Vector3)
| write_converted_vector3f (v : Vector3)
| write_converted_quaternion (q : Quaternion)
| write_matrix (m : Matrix)
| write_converted_matrix (m : Matrix)
| write_values_f (fmt : string) (vs : list Q)
| write_values_i (fmt : string) (vs : list Z)
| file_write_zeros (n : nat).

(** Modelled from the spec: [Utils.Serializer] (utils.py) is not part of
    the sources.  A [uint16]/[uint32]/[int32] field holds a value of its
    range only (the serializer packs with [struct]), and a fixed-width
    text field of [N] bytes holds at most [N-1] bytes of text; the other
    calls always succeed.  Text is measured in characters, one byte each. *)
Definition accepts (op : WriteOp) : bool :=
  match op with
  | write_ushort v => (0 <=? v) && (v <=? 65535)
  | write_uint v => (0 <=? v) && (v <=? 4294967295)
  | write_int v => (-2147483648 <=? v) && (v <=? 2147483647)
  | write_fixed_string width _ s => (String.length s <? width)%nat
  | write_values_i fmt vs =>
      if String.eqb fmt "4h"
      then forallb (fun v => (-32768 <=? v) && (v <=? 32767)) vs
      else forallb (fun v => (0 <=? v) && (v <=? 4294967295)) vs
  | _ => true
  end.

(** The writes of [ops] performed in order on a file that already holds
    [written]: the content reached, and whether a call raised. *)
Fixpoint run (ok : WriteOp -> bool) (ops written : list WriteOp)
  : list WriteOp * bool :=
  match ops with
  | [] => (written, true)
  | op :: rest =>
      if ok op then run ok rest (written ++ [op]) else (written, false)
  end.

End Serializer.
Export Serializer.

(** ** MSH import: vertex weights of the MESH08 variant *)

Module MshWeights.

Definition WEIGHT_TOLERANCE : Q := 1 # 100000.

(** Lines 570-577 of msh.py, the body of [if weight_amount > 0].  The sums
    are exact here; in Python each addition rounds to a double, so that the
    two agree where the sums of the stored weights are doubles, as for
    weights that are small multiples of a power of two, and can differ for
    weights of very different magnitudes. *)
Definition final_weights (read_weights : list Q) : list Q :=
  let final_weights := read_weights in
  let s := sum final_weights in
  let final_weights :=
    if Qlt_le_dec s (1 - WEIGHT_TOLERANCE)
    then final_weights ++ [(1 - s)%Q] else final_weights in
  let final_weights :=
    final_weights ++ replicate (4 - length final_weights)%nat 0%Q in
  if Qlt_le_dec (sum final_weights) (1 # 1000000)
  then [1%Q; 0%Q; 0%Q; 0%Q] else final_weights.

(** Lines 1027-1032 of msh.py: the weights of one vertex in the standard
    format, [current_exporting_weights] being the stored explicit ones. *)
Definition exported_weights (current_exporting_weights : Q * Q * Q)
  : Q * Q * Q * Q :=
  let '(w0, w1, w2) := current_exporting_weights in
  let weight_sum := (w0 + w1 + w2)%Q in
  if Qlt_le_dec weight_sum (1 - WEIGHT_TOLERANCE)
  then (w0, w1, w2, (1 - weight_sum)%Q)
  else (w0, w1, w2, 0%Q).

End MshWeights.

(** ** MSH import *)

Module MshImport.

Section WithSentinel.

(** [SkeletonData.INVALID_NAME] of bn_skeleton.py, the name that stands
    for "no parent" and "no bone"; its value is not part of the sources. *)
Variable INVALID_NAME : string.

(** *** What the reader returns for one object record

    The fields are the results of the reader calls of lines 496-550, in
    file order; [rec_reserved] is the 31 bytes stepped over by the last
    [seek]. *)

Record Mesh08Vertex : Type := {
  v_position : Vector3;
  v_read_weights : list Q;
  v_bone_indices : list nat;
  v_normal : Vector3;
  v_uv : Vector2
}.

Record Mesh08Block : Type := {
  m8_vertices : list Mesh08Vertex;
  m8_triangles : list (nat * nat * nat);
  m8_bone_groups : list (list string)
}.

(** One triangle record of the legacy variant: three base vertex
    indices, then one normal and one UV per corner. *)
Record TriangleRecord : Type := {
  tri_indices : nat * nat * nat;
  tri_normals : Vector3 * Vector3 * Vector3;
  tri_uvs : Vector2 * Vector2 * Vector2
}.

(** One weight record of the legacy variant.  With weight model 1 the
    bones are indices into a name table, otherwise four names. *)
Record WeightRecord : Type := {
  wr_vertex_index : nat;
  wr_bone_indices : list Z;
  wr_bone_names : list string;
  wr_read_weights : list Q
}.

Record LegacyBlock : Type := {
  lg_base_vertices : list (Vector3 * Vector3);
  lg_triangles : list TriangleRecord;
  lg_bone_names_for_assignment : list string;
  lg_weights : list WeightRecord
}.

Inductive GeometryBlock : Type :=
| Mesh08Geometry (b : Mesh08Block)
| LegacyGeometry (b : LegacyBlock).

Record ObjectRecord : Type := {
  rec_object_name : string;
  rec_parent_name : string;
  rec_object_world_matrix : Matrix;
  rec_vertex_amount : Z;
  rec_triangle_amount : Z;
  rec_weight_amount : Z;
  rec_texture_path : string;
  rec_effect_path : string;
  rec_bounding_box_max : Vector3;
  rec_bounding_box_min : Vector3;
  rec_unknown_float3_1 : Vector3;
  rec_unknown_flags_1 : Z * Z;
  rec_weight_model_type : Z;
  rec_unknown_float3_2 : Vector3;
  rec_unknown_float_1 : Q;
  rec_reserved : list Z;
  rec_geometry : GeometryBlock
}.

(** A record with other values in the fields that the importer reads into
    [unknown_float3_1], [unknown_flags_1], [unknown_float3_2] and
    [unknown_float_1] and in the 31 bytes it steps over. *)
Definition with_reserved (float3_1 : Vector3) (flags_1 : Z * Z)
    (float3_2 : Vector3) (float_1 : Q) (reserved : list Z) (r : ObjectRecord)
  : ObjectRecord :=
  {| rec_object_name := rec_object_name r;
     rec_parent_name := rec_parent_name r;
     rec_object_world_matrix := rec_object_world_matrix r;
     rec_vertex_amount := rec_vertex_amount r;
     rec_triangle_amount := rec_triangle_amount r;
     rec_weight_amount := rec_weight_amount r;
     rec_texture_path := rec_texture_path r;
     rec_effect_path := rec_effect_path r;
     rec_bounding_box_max := rec_bounding_box_max r;
     rec_bounding_box_min := rec_bounding_box_min r;
     rec_unknown_float3_1 := float3_1;
     rec_unknown_flags_1 := flags_1;
     rec_weight_model_type := rec_weight_model_type r;
     rec_unknown_float3_2 := float3_2;
     rec_unknown_float_1 := float_1;
     rec_reserved := reserved;
     rec_geometry := rec_geometry r |}.

(** The lists the importer fills for one object (lines 552-557). *)
Record Geometry : Type := {
  vertices : list Vector3;
  normals : list Vector3;
  uvs : list Vector2;
  weights : list (list Q);
  weight_bones : list (list string);
  triangles : list (nat * nat * nat)
}.

Definition empty_geometry : Geometry :=
  {| vertices := []; normals := []; uvs := []; weights := [];
     weight_bones := []; triangles := [] |}.

(** *** MESH08 geometry (lines 559-616) *)

(** Lines 604-606: names are collected in file order, once each. *)
Definition add_unique (unique_bone_names bone_names : list string)
  : list string :=
  fold_left
    (fun acc bone_name =>
       if bool_decide (bone_name ∈ acc) then acc else acc ++ [bone_name])
    bone_names unique_bone_names.

Definition unique_bone_names_of (groups : list (list string)) : list string :=
  fold_left add_unique groups [].

(** Lines 612-616: the bone names of one weighted vertex. *)
Definition bone_names_of (unique_bone_names : list string)
    (bone_indices : list nat) (weight_data : list Q)
  : option (list string) :=
  mapM (fun weight_count =>
          bone_indices !! weight_count ≫= fun i => unique_bone_names !! i)
       (seq 0 (length weight_data)).

Definition read_mesh08 (weight_amount : Z) (b : Mesh08Block)
  : option Geometry :=
  let vs := m8_vertices b in
  let weights :=
    if 0 <? weight_amount
    then map (fun v => MshWeights.final_weights (v_read_weights v)) vs
    else [] in
  let unique_bone_names := unique_bone_names_of (m8_bone_groups b) in
  weight_bones ←
    mapM (fun '(vertex_index, weight_data) =>
            v ← vs !! vertex_index;
            bone_names_of unique_bone_names (v_bone_indices v) weight_data)
         (imap (fun i w => (i, w)) weights);
  Some {| vertices := map v_position vs;
          normals := map v_normal vs;
          uvs := map (fun v => (fst (v_uv v), - snd (v_uv v))%Q) vs;
          weights := weights;
          weight_bones := weight_bones;
          triangles := m8_triangles b |}.

(** *** Legacy geometry (lines 619-697) *)

(** Lines 632-642: the triangle records are spread over three lists. *)
Definition read_base_triangles (records : list TriangleRecord)
  : list (nat * nat * nat) * list (Vector3 * Vector3 * Vector3)
    * list (Vector2 * Vector2 * Vector2) :=
  fold_left
    (fun '(base_triangles, base_triangle_normals, base_triangle_uvs) r =>
       (base_triangles ++ [tri_indices r],
        base_triangle_normals ++ [tri_normals r],
        base_triangle_uvs ++ [tri_uvs r]))
    records ([], [], []).

(** Python's [l[i]] for a signed index. *)
Definition py_index {A} (l : list A) (i : Z) : option A :=
  if 0 <=? i then l !! Z.to_nat i
  else if - Z.of_nat (length l) <=? i
       then l !! Z.to_nat (Z.of_nat (length l) + i)
       else None.

(** Lines 646-669: the dictionary from base vertex index to its four
    (bone name, weight) slots. *)
Definition weight_entry (weight_model_type : Z)
    (bone_names_for_assignment : list string) (w : WeightRecord)
  : option (list string * list Q) :=
  if weight_model_type =? 1 then
    bone_names ←
      mapM (fun i =>
              bone_index ← wr_bone_indices w !! i;
              if bone_index =? -1 then Some INVALID_NAME
              else py_index bone_names_for_assignment bone_index)
           (seq 0 4);
    Some (bone_names, wr_read_weights w)
  else Some (wr_bone_names w, wr_read_weights w).

Fixpoint read_base_vertices_weights (weight_model_type : Z)
    (bone_names_for_assignment : list string) (ws : list WeightRecord)
    (base_vertices_weights : gmap nat (list string * list Q))
  : option (gmap nat (list string * list Q)) :=
  match ws with
  | [] => Some base_vertices_weights
  | w :: rest =>
      e ← weight_entry weight_model_type bone_names_for_assignment w;
      read_base_vertices_weights weight_model_type
        bone_names_for_assignment rest
        (<[wr_vertex_index w := e]> base_vertices_weights)
  end.

(** Lines 676-689: one corner of one triangle. *)
Definition unweld_corner (base_vertices : list Vector3)
    (base_vertices_weights : gmap nat (list string * list Q))
    (vertex_index : nat) (normal : Vector3) (uv : Vector2) (g : Geometry)
  : option Geometry :=
  v ← base_vertices !! vertex_index;
  let g := {| vertices := vertices g ++ [v];
              normals := normals g ++ [normal];
              uvs := uvs g ++ [uv];
              weights := weights g;
              weight_bones := weight_bones g;
              triangles := triangles g |} in
  if bool_decide (base_vertices_weights = ∅) then Some g
  else
    vertices_weight_data ← base_vertices_weights !! vertex_index;
    let kept :=
      filter (fun p => fst p ≠ INVALID_NAME)
             (zip (fst vertices_weight_data) (snd vertices_weight_data)) in
    Some {| vertices := vertices g;
            normals := normals g;
            uvs := uvs g;
            weights := weights g ++ [map snd kept];
            weight_bones := weight_bones g ++ [map fst kept];
            triangles := triangles g |}.

(** Lines 673-692: the loop over [enumerate(base_triangles)], [i] being
    the position of the head of [tris]. *)
Fixpoint unweld (base_vertices : list Vector3)
    (base_triangle_normals : list (Vector3 * Vector3 * Vector3))
    (base_triangle_uvs : list (Vector2 * Vector2 * Vector2))
    (base_vertices_weights : gmap nat (list string * list Q))
    (i : nat) (tris : list (nat * nat * nat)) (g : Geometry)
  : option Geometry :=
  match tris with
  | [] => Some g
  | (a, b, c) :: rest =>
      let vertices_len := length (vertices g) in
      '(na, nb, nc) ← base_triangle_normals !! i;
      '(ua, ub, uc) ← base_triangle_uvs !! i;
      g ← unweld_corner base_vertices base_vertices_weights a na ua g;
      g ← unweld_corner base_vertices base_vertices_weights b nb ub g;
      g ← unweld_corner base_vertices base_vertices_weights c nc uc g;
      unweld base_vertices base_triangle_normals base_triangle_uvs
        base_vertices_weights (S i) rest
        {| vertices := vertices g;
           normals := normals g;
           uvs := uvs g;
           weights := weights g;
           weight_bones := weight_bones g;
           triangles :=
             triangles g ++
             [(vertices_len, vertices_len + 1, vertices_len + 2)%nat] |}
  end.

(** A corner can be rebuilt: its base vertex exists, and it has a weight
    entry when the mesh has weights at all. *)
Definition corner_ok (base_vertices : list Vector3)
    (base_vertices_weights : gmap nat (list string * list Q))
    (vertex_index : nat) : Prop :=
  (vertex_index < length base_vertices)%nat
  /\ (base_vertices_weights = ∅
      \/ is_Some (base_vertices_weights !! vertex_index)).

Definition triangle_ok (base_vertices : list Vector3)
    (base_vertices_weights : gmap nat (list string * list Q))
    (tri : nat * nat * nat) : Prop :=
  corner_ok base_vertices base_vertices_weights tri.1.1
  /\ corner_ok base_vertices base_vertices_weights tri.1.2
  /\ corner_ok base_vertices base_vertices_weights tri.2.

Definition read_legacy (weight_model_type : Z) (b : LegacyBlock)
  : option Geometry :=
  let base_vertices := map fst (lg_base_vertices b) in
  let '(base_triangles, base_triangle_normals, base_triangle_uvs) :=
    read_base_triangles (lg_triangles b) in
  base_vertices_weights ←
    read_base_vertices_weights weight_model_type
      (lg_bone_names_for_assignment b) (lg_weights b) ∅;
  unweld base_vertices base_triangle_normals base_triangle_uvs
    base_vertices_weights 0 base_triangles empty_geometry.

(** *** One object, and the parenting pass (lines 491-813) *)

(** The armature the import is bound to, as far as the importer reads it. *)
Record Armature : Type := { arm_name : string; arm_bones : list string }.

(** What [bpy.data.objects.new] and the assignments after it leave in the
    scene for one record.  [co_has_mesh] tells whether a mesh data-block was
    made ([vertex_amount != 0]); [co_vertex_group_adds] are the calls
    [group.add([vertex_index], weight, "ADD")] as (group, vertex, weight). *)
Record CreatedObject : Type := {
  co_name : string;
  co_has_mesh : bool;
  co_matrix_world : Matrix;
  co_msh_bind_matrix : Matrix;
  co_geometry : Geometry;
  co_vertex_group_adds : list (string * nat * Q);
  co_texture_path : string
}.

Inductive ParentLink : Type :=
| Unparented
| ObjectParent (name : string)
| BoneParent (armature bone : string)
| IntendedParent (name : string).

(** Lines 515-517: "Force no parent for weighted meshes". *)
Definition forced_parent_name (weight_amount : Z) (parent_name : string)
  : string :=
  if negb (weight_amount =? 0) then INVALID_NAME else parent_name.

(** Lines 519-521. *)
Definition force_parent_as_weights (target_armature : option Armature)
    (preserve_parenting_relationships : bool) (vertex_amount : Z)
    (parent_name : string) : bool :=
  match target_armature with
  | Some arm =>
      negb (vertex_amount =? 0)
      && bool_decide (parent_name ∈ arm_bones arm)
      && negb preserve_parenting_relationships
  | None => false
  end.

(** Lines 738-746. *)
Definition vertex_group_adds (weights : list (list Q))
    (weight_bones : list (list string)) : list (string * nat * Q) :=
  concat
    (imap (fun vertex_index '(weight_values, bone_names) =>
             map (fun '(weight_value, bone_name) =>
                    (bone_name, vertex_index, weight_value))
                 (zip weight_values bone_names))
          (zip weights weight_bones)).

(** The body of the loop over the object records: the object created and
    the name appended to [object_parent_names].  [None] is an exception of
    the reader or of an index, which ends the import of the file. *)
Definition import_object (target_armature : option Armature)
    (preserve_parenting_relationships : bool) (r : ObjectRecord)
  : option (CreatedObject * string) :=
  let parent_name := rec_parent_name r in
  let vertex_amount := rec_vertex_amount r in
  let weight_amount := rec_weight_amount r in
  let parent_name := forced_parent_name weight_amount parent_name in
  let force_parent_as_weights :=
    force_parent_as_weights target_armature preserve_parenting_relationships
      vertex_amount parent_name in
  '(vertex_amount, g) ←
    match rec_geometry r with
    | Mesh08Geometry b =>
        g ← read_mesh08 weight_amount b;
        Some (Z.of_nat (length (m8_vertices b)), g)
    | LegacyGeometry b =>
        g ← read_legacy (rec_weight_model_type r) b;
        Some (vertex_amount, g)
    end;
  let has_mesh := negb (vertex_amount =? 0) in
  let adds :=
    if has_mesh then vertex_group_adds (weights g) (weight_bones g) else [] in
  let adds :=
    if force_parent_as_weights
    then adds ++ map (fun vertex_index => (parent_name, vertex_index, 1%Q))
                     (seq 0 (length (vertices g)))
    else adds in
  let parent_name :=
    if force_parent_as_weights then INVALID_NAME else parent_name in
  Some ({| co_name := rec_object_name r;
           co_has_mesh := has_mesh;
           co_matrix_world := rec_object_world_matrix r;
           co_msh_bind_matrix := rec_object_world_matrix r;
           co_geometry := g;
           co_vertex_group_adds := adds;
           co_texture_path := rec_texture_path r |},
        parent_name).

(** Lines 798-813, for one created object; [scene_objects] are the names of
    [bpy.context.scene.objects] when the pass runs. *)
Definition link_parent (scene_objects : list string)
    (target_armature : option Armature) (parent_name : string) : ParentLink :=
  if bool_decide (parent_name ≠ INVALID_NAME) then
    if bool_decide (parent_name ∈ scene_objects) then ObjectParent parent_name
    else
      match target_armature with
      | Some arm =>
          if bool_decide (parent_name ∈ arm_bones arm)
          then BoneParent (arm_name arm) parent_name
          else IntendedParent parent_name
      | None => IntendedParent parent_name
      end
  else Unparented.

(** [import_msh] on the records of one file: the objects are created in file
    order, then each is linked to its parent.  [existing] are the objects
    that were in the scene before. *)
Definition import_msh (existing : list string)
    (target_armature : option Armature)
    (preserve_parenting_relationships : bool) (records : list ObjectRecord)
  : option (list (CreatedObject * ParentLink)) :=
  created ←
    mapM (import_object target_armature preserve_parenting_relationships)
         records;
  let scene_objects := existing ++ map (fun c => co_name (fst c)) created in
  Some (map (fun '(created_object, parent_name) =>
               (created_object,
                link_parent scene_objects target_armature parent_name))
            created).

End WithSentinel.

End MshImport.

(** ** MSH export *)

Module MshExport.

Section WithSentinel.

Variable INVALID_NAME : string.

(** [parent_matrix.inverted() @ object_world_matrix] of mathutils, given the
    parent matrix and the world matrix. *)
Variable relative_to : Matrix -> Matrix -> Matrix.

Inductive MeshFormat : Type := STANDARD | MESH08.

Inductive ObjectType : Type := MESH | EMPTY.

(** One entry of the lists [group_exporter_vertices], [_normals], [_uvs] and
    [_weights] (and of their [split_] and [exporting_] counterparts).  The
    four lists are always appended to together, so they are kept as one list
    of records; [ev_weights] is the pair (explicit weights, bone indices) of
    line 1262, three weights and four indices. *)
Record ExportVertex : Type := {
  ev_position : Vector3;
  ev_normal : Vector3;
  ev_uv : Vector2;
  ev_weights : (Q * Q * Q) * list Z
}.

Inductive VertexData : Type :=
| mesh08_vertex (vertex_position : Vector3) (weight_values : Q * Q * Q)
    (unique_bone_indices : list Z) (vertex_normal : Vector3)
    (vertex_uv : Vector2) (vertex_binormal : Vector3)
| standard_vertex (vertex_position : Vector3) (unknown : Q)
    (vertex_normal : Vector3).

Inductive FaceData : Type :=
| mesh08_index (face_index : nat)
| standard_face (tri : nat * nat * nat)
    (face_normals_to_export : Vector3 * Vector3 * Vector3)
    (face_uvs_to_export : Vector3 * Vector3 * Vector3) (unknown : Z).

Inductive WeightData : Type :=
| mesh08_bone_group (bone_amount : nat) (bone_group : list string)
| standard_weight (vertex_index : nat) (valid_bone_amount : nat)
    (bone_indices : list Z) (weights : Q * Q * Q * Q).

(** The accumulators of [__export_mesh] ([object_names],
    [object_parent_names], ... and the dictionaries keyed by the object
    index) hold one item per call of [__add_object_data]; an entry is that
    item, and the state of the export is the list of entries, so that
    [object_amount] is its length. *)
Record ObjectEntry : Type := {
  object_name : string;
  object_parent_name : string;
  object_world_matrix : Matrix;
  object_local_matrix : Matrix;
  object_inverse_parent_matrix : Matrix;
  object_vertex_amount : nat;
  object_face_amount : nat;
  object_weight_amount : nat;
  object_texture_path : string;
  object_effect_path : string;
  object_unique_bones_list : list string;
  object_vertice_data : list VertexData;
  object_face_data : list FaceData;
  object_weight_data : list WeightData
}.

(** [Matrix.Identity(4)]. *)
Definition Identity4 : Matrix :=
  [1; 0; 0; 0; 0; 1; 0; 0; 0; 0; 1; 0; 0; 0; 0; 1]%Q.

(** Lines 1007-1009: [exporting_unique_bones_list] cut in groups of four;
    [n] bounds the number of groups. *)
Fixpoint bone_groups (n : nat) (l : list string) : list WeightData :=
  match n, l with
  | S n, _ :: _ =>
      mesh08_bone_group (length (take 4 l)) (take 4 l)
      :: bone_groups n (drop 4 l)
  | _, _ => []
  end.

(** Lines 1036-1049, one triangle of the standard format. *)
Definition standard_face_of (exporting : list ExportVertex)
    (tri : nat * nat * nat) : option FaceData :=
  let '(a, b, c) := tri in
  let __get_extended_uv (uv : Vector2) : Vector3 := (fst uv, snd uv, 0%Q) in
  va ← exporting !! a; vb ← exporting !! b; vc ← exporting !! c;
  Some (standard_face tri (ev_normal va, ev_normal vb, ev_normal vc)
          (__get_extended_uv (ev_uv va), __get_extended_uv (ev_uv vb),
           __get_extended_uv (ev_uv vc)) 0).

(** Lines 1020-1033, the weight record of one vertex in the standard
    format. *)
Definition standard_weight_of (vertex_index : nat) (v : ExportVertex)
  : WeightData :=
  let exporter_weight := ev_weights v in
  let valid_bone_amount :=
    length (filter (fun bone_index => bone_index ≠ -1) (snd exporter_weight)) in
  standard_weight vertex_index valid_bone_amount (snd exporter_weight)
    (MshWeights.exported_weights (fst exporter_weight)).

(** [__add_object_data] (lines 958-1060).  [None] is an [IndexError]. *)
Definition add_object_data (mesh_export_format : MeshFormat)
    (name parent_name : string) (world_matrix local_matrix : Matrix)
    (exporting : list ExportVertex)
    (exporting_polygons : list (nat * nat * nat))
    (exporting_unique_bones_list : list string)
    (texture_path effect_path : string) (entries : list ObjectEntry)
  : option (list ObjectEntry) :=
  '(vertex_data, face_data, weight_data) ←
    match mesh_export_format with
    | MESH08 =>
        Some
          (map (fun v =>
                  mesh08_vertex (ev_position v) (fst (ev_weights v))
                    (snd (ev_weights v)) (ev_normal v) (ev_uv v)
                    (0, 0, 0)%Q)
               exporting,
           flat_map (fun '(a, b, c) =>
                       [mesh08_index a; mesh08_index b; mesh08_index c])
                    exporting_polygons,
           bone_groups (length exporting_unique_bones_list)
             exporting_unique_bones_list)
    | STANDARD =>
        face_data ← mapM (standard_face_of exporting) exporting_polygons;
        Some
          (map (fun v => standard_vertex (ev_position v) 1 (ev_normal v))
               exporting,
           face_data,
           imap standard_weight_of exporting)
    end;
  Some (entries ++
        [{| object_name := name;
            object_parent_name := parent_name;
            object_world_matrix := world_matrix;
            object_local_matrix := local_matrix;
            object_inverse_parent_matrix := Identity4;
            object_vertex_amount := length exporting;
            object_face_amount := length exporting_polygons;
            object_weight_amount := length exporting;
            object_texture_path := texture_path;
            object_effect_path := effect_path;
            object_unique_bones_list := exporting_unique_bones_list;
            object_vertice_data := vertex_data;
            object_face_data := face_data;
            object_weight_data := weight_data |}]).

(** *** Splitting a material group (lines 1282-1361) *)

(** The faces of one material slot after the per-corner deduplication and
    the triangulation of lines 1147-1279: every polygon of
    [group_exporter_polygons] has three indices into [group_exporter]. *)
Record MaterialGroup : Type := {
  mat_idx : nat;
  current_texture_path : string;
  group_exporter : list ExportVertex;
  group_exporter_polygons : list (nat * nat * nat);
  group_unique_bones_list : list string
}.

(** The number of triangles of one split: [end_poly - start_poly]. *)
Definition TRIANGLES_PER_SPLIT : nat := Z.to_nat 21845.

(** [math.ceil(polygon_indices_amount / 65535.0)].  The float quotient of
    two integers below 2^40 is nearer to the exact quotient than the exact
    quotient is to the next integer, so the ceiling is that of the exact
    quotient. *)
Definition maximum_split_amount_of (polygon_indices_amount : Z) : Z :=
  (polygon_indices_amount + 65534) / 65535.

Record SplitState : Type := {
  split_exporter : list ExportVertex;
  split_exporter_polygons : list (nat * nat * nat);
  exporter_vertex_to_split_vertex_map : gmap nat nat
}.

Definition empty_split : SplitState :=
  {| split_exporter := []; split_exporter_polygons := [];
     exporter_vertex_to_split_vertex_map := ∅ |}.

(** Lines 1337-1343, one [vertex_index] of a polygon: the state reached and
    the index appended to [poly_indices]. *)
Definition split_vertex (group_exporter : list ExportVertex)
    (vertex_index : nat) (s : SplitState) : option (SplitState * nat) :=
  match exporter_vertex_to_split_vertex_map s !! vertex_index with
  | Some i => Some (s, i)
  | None =>
      v ← group_exporter !! vertex_index;
      let vs := split_exporter s ++ [v] in
      Some ({| split_exporter := vs;
               split_exporter_polygons := split_exporter_polygons s;
               exporter_vertex_to_split_vertex_map :=
                 <[vertex_index := (length vs - 1)%nat]>
                   (exporter_vertex_to_split_vertex_map s) |},
            (length vs - 1)%nat)
  end.

(** Lines 1335-1345, one polygon. *)
Definition split_polygon (group_exporter : list ExportVertex)
    (poly : nat * nat * nat) (s : SplitState) : option SplitState :=
  let '(a, b, c) := poly in
  '(s, ia) ← split_vertex group_exporter a s;
  '(s, ib) ← split_vertex group_exporter b s;
  '(s, ic) ← split_vertex group_exporter c s;
  Some {| split_exporter := split_exporter s;
          split_exporter_polygons := split_exporter_polygons s ++ [(ia, ib, ic)];
          exporter_vertex_to_split_vertex_map :=
            exporter_vertex_to_split_vertex_map s |}.

(** Lines 1331-1345: the loop over [range(start_poly, end_poly)], with [n]
    indices left and [poly_to_split_index] the next one; it breaks at the
    end of [group_exporter_polygons]. *)
Fixpoint split_range (group_exporter : list ExportVertex)
    (group_exporter_polygons : list (nat * nat * nat))
    (n poly_to_split_index : nat) (s : SplitState) : option SplitState :=
  match n with
  | O => Some s
  | S n =>
      match group_exporter_polygons !! poly_to_split_index with
      | None => Some s
      | Some poly =>
          s ← split_polygon group_exporter poly s;
          split_range group_exporter group_exporter_polygons n
            (S poly_to_split_index) s
      end
  end.

(** The polygons of a group refer to vertices of the group. *)
Definition well_formed (g : MaterialGroup) : Prop :=
  Forall (fun tri : nat * nat * nat =>
            (tri.1.1 < length (group_exporter g))%nat
            /\ (tri.1.2 < length (group_exporter g))%nat
            /\ (tri.2 < length (group_exporter g))%nat)
         (group_exporter_polygons g).

(** The three vertices a triangle refers to in a vertex list. *)
Definition corners (vs : list ExportVertex) (tri : nat * nat * nat)
  : option (ExportVertex * ExportVertex * ExportVertex) :=
  va ← vs !! tri.1.1; vb ← vs !! tri.1.2; vc ← vs !! tri.2;
  Some (va, vb, vc).

(** The polygons [start_poly .. end_poly - 1] of split [split_number]. *)
Definition split_slice (group_exporter_polygons : list (nat * nat * nat))
    (split_number : nat) : list (nat * nat * nat) :=
  take TRIANGLES_PER_SPLIT
       (drop (TRIANGLES_PER_SPLIT * split_number) group_exporter_polygons).

(** The invariant of the vertex map of a split: an index of the map leads
    to a copy of the vertex it stands for. *)
Definition map_ok (group_exporter : list ExportVertex) (s : SplitState) : Prop :=
  forall i j,
    exporter_vertex_to_split_vertex_map s !! i = Some j ->
    exists v, split_exporter s !! j = Some v /\ group_exporter !! i = Some v.

(** The polygons of a split are those of [done], in order, each with the
    same three vertices. *)
Definition polys_ok (group_exporter : list ExportVertex) (s : SplitState)
    (done : list (nat * nat * nat)) : Prop :=
  Forall2 (fun t' t => exists x, corners (split_exporter s) t' = Some x
                                 /\ corners group_exporter t = Some x)
          (split_exporter_polygons s) done.

Definition split_object_name (sub_object_base_name : string)
    (split_number : nat) : string :=
  if (split_number =? 0)%nat then sub_object_base_name
  else sub_object_base_name +:+ "_" +:+ pretty split_number.

(** Lines 1314-1361: the loop over the split numbers. *)
Fixpoint split_loop (mesh_export_format : MeshFormat)
    (sub_object_base_name object_parent_name : string)
    (object_world_matrix object_local_matrix : Matrix) (g : MaterialGroup)
    (split_numbers : list nat) (entries : list ObjectEntry)
  : option (list ObjectEntry) :=
  match split_numbers with
  | [] => Some entries
  | split_number :: rest =>
      let start_poly := (TRIANGLES_PER_SPLIT * split_number)%nat in
      s ← split_range (group_exporter g) (group_exporter_polygons g)
            TRIANGLES_PER_SPLIT start_poly empty_split;
      entries ←
        add_object_data mesh_export_format
          (split_object_name sub_object_base_name split_number)
          object_parent_name object_world_matrix object_local_matrix
          (split_exporter s) (split_exporter_polygons s)
          (group_unique_bones_list g) (current_texture_path g) "" entries;
      split_loop mesh_export_format sub_object_base_name object_parent_name
        object_world_matrix object_local_matrix g rest entries
  end.

Definition sub_object_base_name_of (object_name : string) (mat_idx : nat)
  : string :=
  if (mat_idx =? 0)%nat then object_name
  else object_name +:+ "_" +:+ pretty mat_idx.

(** Lines 1282-1361: one material group of one mesh object. *)
Definition export_group (mesh_export_format : MeshFormat)
    (object_name object_parent_name : string)
    (object_world_matrix object_local_matrix : Matrix) (g : MaterialGroup)
    (entries : list ObjectEntry) : option (list ObjectEntry) :=
  let polygon_indices_amount :=
    Z.of_nat (length (group_exporter_polygons g)) * 3 in
  let sub_object_base_name := sub_object_base_name_of object_name (mat_idx g) in
  if polygon_indices_amount <=? 65535 then
    add_object_data mesh_export_format sub_object_base_name
      object_parent_name object_world_matrix object_local_matrix
      (group_exporter g) (group_exporter_polygons g)
      (group_unique_bones_list g) (current_texture_path g) "" entries
  else
    let maximum_split_amount :=
      maximum_split_amount_of polygon_indices_amount in
    split_loop mesh_export_format sub_object_base_name object_parent_name
      object_world_matrix object_local_matrix g
      (seq 0 (Z.to_nat maximum_split_amount)) entries.

(** *** The objects of one file (lines 1063-1379) *)

Inductive Parent : Type :=
| parent_bone (parent_bone_name : string) (parent_matrix : Matrix)
| parent_object (parent_name : string) (parent_matrix : Matrix).

(** A scene object as the exporter reads it.  [ob_msh_bind_matrix] is the
    custom property ["msh_bind_matrix"] when the object has it,
    [ob_rest_matrix_world] the world matrix sampled at frame 0 in rest pose,
    [ob_material_groups] the material groups of its mesh in the order of the
    dictionary [material_polygon_groups]. *)
Record BlenderObject : Type := {
  ob_name : string;
  ob_type : ObjectType;
  ob_parent : option Parent;
  ob_msh_bind_matrix : option Matrix;
  ob_rest_matrix_world : Matrix;
  ob_material_groups : list MaterialGroup
}.

Fixpoint export_groups (mesh_export_format : MeshFormat)
    (object_name object_parent_name : string)
    (object_world_matrix object_local_matrix : Matrix)
    (groups : list MaterialGroup) (entries : list ObjectEntry)
  : option (list ObjectEntry) :=
  match groups with
  | [] => Some entries
  | g :: rest =>
      entries ←
        export_group mesh_export_format object_name object_parent_name
          object_world_matrix object_local_matrix g entries;
      export_groups mesh_export_format object_name object_parent_name
        object_world_matrix object_local_matrix rest entries
  end.

(** The body of [for object in objects] (lines 1064-1379). *)
Definition export_object (mesh_export_format : MeshFormat)
    (object : BlenderObject) (entries : list ObjectEntry)
  : option (list ObjectEntry) :=
  let object_name := ob_name object in
  let '(object_parent_name, parent_matrix) :=
    match ob_parent object with
    | Some (parent_bone b m) => (b, Some m)
    | Some (parent_object n m) => (n, Some m)
    | None => (INVALID_NAME, None)
    end in
  let object_world_matrix :=
    match ob_msh_bind_matrix object with
    | Some raw => raw
    | None => ob_rest_matrix_world object
    end in
  let object_local_matrix :=
    match parent_matrix with
    | Some parent_matrix => relative_to parent_matrix object_world_matrix
    | None => object_world_matrix
    end in
  match ob_type object with
  | MESH =>
      export_groups mesh_export_format object_name object_parent_name
        object_world_matrix object_local_matrix (ob_material_groups object)
        entries
  | EMPTY =>
      add_object_data mesh_export_format object_name object_parent_name
        object_world_matrix object_local_matrix [] [] [] "" "" entries
  end.

Fixpoint export_objects (mesh_export_format : MeshFormat)
    (objects : list BlenderObject) (entries : list ObjectEntry)
  : option (list ObjectEntry) :=
  match objects with
  | [] => Some entries
  | object :: rest =>
      entries ← export_object mesh_export_format object entries;
      export_objects mesh_export_format rest entries
  end.

(** *** Writing the file (lines 1387-1460) *)

(** Lines 1394-1406: the names, the matrices, the three counts and the two
    paths of one object. *)
Definition header_ops (e : ObjectEntry) : list WriteOp :=
  [ write_fixed_string 100 "euc-kr" (object_name e);
    write_fixed_string 100 "euc-kr" (object_parent_name e);
    write_converted_matrix (object_world_matrix e);
    write_converted_matrix (object_local_matrix e);
    write_matrix (object_inverse_parent_matrix e);
    write_ushort (Z.of_nat (object_vertex_amount e));
    write_ushort (Z.of_nat (object_face_amount e));
    (if bool_decide (object_parent_name e = INVALID_NAME)
     then write_ushort (Z.of_nat (object_weight_amount e))
     else write_ushort 0);
    write_fixed_string 100 "euc-kr" (object_texture_path e);
    write_fixed_string 100 "euc-kr" (object_effect_path e) ].

(** Lines 1407-1411: what stands for the two bounding vectors and the
    fields the importer names [unknown_float3_1], [unknown_flags_1],
    [weight_model_type], [unknown_float3_2], [unknown_float_1] and the 31
    bytes after them. *)
Definition reserved_ops : list WriteOp :=
  [ file_write_zeros 36; write_uint 1; write_uint 256; write_uint 1;
    file_write_zeros 47 ].

(** Lines 1414-1424: one vertex of the MESH08 format. *)
Definition mesh08_vertex_ops (e : ObjectEntry) (v : VertexData)
  : list WriteOp :=
  match v with
  | mesh08_vertex vertex_position (w0, w1, w2) unique_bone_indices
      vertex_normal vertex_uv vertex_binormal =>
      [ write_converted_vector3f vertex_position;
        write_values_f "3f" [w0; w1; w2];
        (if bool_decide (object_parent_name e = INVALID_NAME)
         then write_values_i "4h" unique_bone_indices
         else write_values_i "4h" [-1; -1; -1; 0]);
        write_converted_vector3f vertex_normal;
        write_values_f "2f" [fst vertex_uv; (- snd vertex_uv)%Q];
        write_converted_vector3f vertex_binormal ]
  | standard_vertex _ _ _ => []
  end.

(** The calls of lines 1415-1424 for one vertex when the bone indices written
    are those of line 1421. *)
Definition parented_vertex_ops (v : VertexData) : list WriteOp :=
  match v with
  | mesh08_vertex vertex_position (w0, w1, w2) _ vertex_normal vertex_uv
      vertex_binormal =>
      [ write_converted_vector3f vertex_position;
        write_values_f "3f" [w0; w1; w2];
        write_values_i "4h" [-1; -1; -1; 0];
        write_converted_vector3f vertex_normal;
        write_values_f "2f" [fst vertex_uv; (- snd vertex_uv)%Q];
        write_converted_vector3f vertex_binormal ]
  | standard_vertex _ _ _ => []
  end.

Definition mesh08_face_ops (f : FaceData) : list WriteOp :=
  match f with
  | mesh08_index face_index => [write_ushort (Z.of_nat face_index)]
  | standard_face _ _ _ _ => []
  end.

Definition mesh08_weight_ops (w : WeightData) : list WriteOp :=
  match w with
  | mesh08_bone_group bone_amount bone_names =>
      write_uint (Z.of_nat bone_amount)
      :: map (write_fixed_string 100 "euc-kr") bone_names
      ++ [file_write_zeros (100 * (4 - bone_amount))]
  | standard_weight _ _ _ _ => []
  end.

(** Lines 1437-1441. *)
Definition standard_vertex_ops (v : VertexData) : list WriteOp :=
  match v with
  | standard_vertex vertex_position unknown vertex_normal =>
      [ write_converted_vector3f vertex_position; write_float unknown;
        write_vector3f vertex_normal ]
  | mesh08_vertex _ _ _ _ _ _ => []
  end.

(** Lines 1442-1448. *)
Definition standard_face_ops (f : FaceData) : list WriteOp :=
  match f with
  | standard_face (a, b, c) (n0, n1, n2) (u0, u1, u2) unknown =>
      [ write_values_i "3I" [Z.of_nat a; Z.of_nat b; Z.of_nat c];
        write_converted_vector3f n0; write_converted_vector3f n1;
        write_converted_vector3f n2;
        write_vector3f u0; write_vector3f u1; write_vector3f u2;
        write_uint unknown ]
  | mesh08_index _ => []
  end.

(** Lines 1454-1460. *)
Definition standard_weight_ops (w : WeightData) : list WriteOp :=
  match w with
  | standard_weight vertex_index valid_bone_amount export_bone_indices
      (w0, w1, w2, w3) =>
      [ write_uint (Z.of_nat vertex_index);
        write_uint (Z.of_nat valid_bone_amount) ]
      ++ map write_int export_bone_indices
      ++ map write_float [w0; w1; w2; w3]
  | mesh08_bone_group _ _ => []
  end.

(** Lines 1412-1460: the geometry of one object. *)
Definition geometry_ops (mesh_export_format : MeshFormat) (e : ObjectEntry)
  : list WriteOp :=
  match mesh_export_format with
  | MESH08 =>
      write_ushort (Z.of_nat (object_vertex_amount e))
      :: flat_map (mesh08_vertex_ops e) (object_vertice_data e)
      ++ write_ushort (Z.of_nat (object_face_amount e) * 3)
      :: flat_map mesh08_face_ops (object_face_data e)
      ++ write_ushort (Z.of_nat (length (object_weight_data e)))
      :: flat_map mesh08_weight_ops (object_weight_data e)
  | STANDARD =>
      flat_map standard_vertex_ops (object_vertice_data e)
      ++ flat_map standard_face_ops (object_face_data e)
      ++ write_uint (Z.of_nat (length (object_unique_bones_list e)))
      :: map (write_fixed_string 100 "euc-kr") (object_unique_bones_list e)
      ++ (if bool_decide (object_parent_name e = INVALID_NAME)
          then flat_map standard_weight_ops (object_weight_data e)
          else [])
  end.

(** Lines 1394-1460: one object. *)
Definition object_ops (mesh_export_format : MeshFormat) (e : ObjectEntry)
  : list WriteOp :=
  header_ops e ++ reserved_ops ++ geometry_ops mesh_export_format e.

(** Lines 1390-1460: the calls made on the open file, in order. *)
Definition file_ops (mesh_export_format : MeshFormat)
    (entries : list ObjectEntry) : list WriteOp :=
  (match mesh_export_format with
   | MESH08 => [write_fixed_string 6 "ascii" "MESH08"]
   | STANDARD => []
   end)
  ++ write_ushort (Z.of_nat (length entries))
  :: flat_map (object_ops mesh_export_format) entries.

(** [__export_mesh] (lines 938-1472) on a disk that maps a path to the
    content of the file there.  [ok] tells which serializer calls succeed.
    An exception while the objects are collected returns before the file is
    opened; an exception of a write closes the file and removes it. *)
Definition export_mesh (ok : WriteOp -> bool) (objects : list BlenderObject)
    (export_file_path : string) (mesh_export_format : MeshFormat)
    (disk : gmap string (list WriteOp)) : gmap string (list WriteOp) :=
  match export_objects mesh_export_format objects [] with
  | None => disk
  | Some entries =>
      let '(content, finished) :=
        Serializer.run ok (file_ops mesh_export_format entries) [] in
      if finished then <[export_file_path := content]> disk
      else delete export_file_path disk
  end.

(** Lines 937-1474: the loop over [objects_for_exportation]. *)
Definition export_meshes (ok : WriteOp -> bool)
    (mesh_export_format : MeshFormat)
    (objects_for_exportation : list (list BlenderObject * string))
    (disk : gmap string (list WriteOp)) : gmap string (list WriteOp) :=
  fold_left
    (fun disk '(collection_objects, collection_file_path) =>
       export_mesh ok collection_objects collection_file_path
         mesh_export_format disk)
    objects_for_exportation disk.

End WithSentinel.

End MshExport.

(** ** ANI import and export *)

Module Ani.

Definition FRAME_SCALE : Z := 160.

Inductive ObjectType : Type := MESH | EMPTY | ARMATURE | OTHER.

#[global] Instance ObjectType_eq_dec : EqDecision ObjectType.
Proof. solve_decision. Defined.

(** One bone of [SkeletonData] (bn_skeleton.py, not part of the sources):
    its name and its bind-pose data; the id of a bone is its position. *)
Record Bone : Type := {
  bone_name : string;
  bone_local_rotation : Quaternion;
  bone_local_position : Vector3;
  bone_absolute_scale : Vector3
}.

Record Polygon : Type := { material_index : nat; loop_total : nat }.

(** A scene object as the two operators read it.  [so_skeleton] is what
    [build_skeleton_from_armature] returns for an armature, [None] when it
    raises; [so_nla_actions] are the names of the actions on the NLA tracks
    of the object. *)
Record SceneObject : Type := {
  so_name : string;
  so_type : ObjectType;
  so_skeleton : option (list Bone);
  so_polygons : list Polygon;
  so_material_slots : nat;
  so_nla_actions : list string
}.

(** What the reader returns for one target (lines 95-129); the keyframe
    counts of the file are the lengths of the four lists. *)
Record AniTarget : Type := {
  animated_object_name : string;
  frame_amount : Z;
  frame_counts : Z;
  rotation_frames : list (Quaternion * Z);
  position_frames : list (Vector3 * Z);
  scale_frames : list (Vector3 * Z);
  unknown_frames : list (Q * Z)
}.

Inductive DataPath : Type := rotation_quaternion | location | scale.

Inductive KeyValue : Type :=
| quaternion_value (q : Quaternion)
| vector_value (v : Vector3).

(** One call of [keyframe_insert]: on the object [kf_object], or on its
    pose bone [kf_bone]. *)
Record Keyframe : Type := {
  kf_object : string;
  kf_bone : option string;
  kf_data_path : DataPath;
  kf_value : KeyValue;
  kf_frame : Q
}.

(** The action an import creates: its name, its frame range, the keyframes
    inserted, and the identifiers of the slots Blender makes for the objects
    the action is assigned to (["OB"] followed by the object name). *)
Record Action : Type := {
  action_name : string;
  action_frame_range : Q * Q;
  action_keyframes : list Keyframe;
  action_slots : list string
}.

Inductive ImportResult : Type :=
| Imported (action : Action)
| Skipped
| Cancelled
| Raised.

(** [scaled_frame / FRAME_SCALE], Python's true division of two integers.
    The double it returns is the exact quotient whenever that is a double,
    as every integer below 2^53 is. *)
Definition frame_of_tick (scaled_frame : Z) : Q :=
  (inject_Z scaled_frame / inject_Z FRAME_SCALE)%Q.

(** [frame_number * FRAME_SCALE] of the export. *)
Definition tick_of_frame (frame_number : Z) : Z := frame_number * FRAME_SCALE.

Section WithBlender.

(** [Utils.get_local_rotation], [Utils.get_local_position],
    [Utils.get_world_rotation] and [Utils.get_world_position] (utils.py). *)
Variable get_local_rotation : Quaternion -> Quaternion -> Quaternion.
Variable get_local_position : Vector3 -> Quaternion -> Vector3 -> Vector3.
Variable get_world_rotation : Quaternion -> Quaternion -> Quaternion.
Variable get_world_position : Vector3 -> Quaternion -> Vector3 -> Vector3.

(** The scene evaluated by Blender with an action assigned: rotation,
    translation and scale of [matrix_basis] of an object at a frame, and
    rotation, location and scale of a pose bone of an armature at a frame. *)
Variable matrix_basis : Action -> string -> Z -> Quaternion * Vector3 * Vector3.
Variable pose_bone :
  Action -> string -> string -> Z -> Quaternion * Vector3 * Vector3.

(** [bpy.path.ensure_ext(directory + "/" + action.name, ".ANI")]. *)
Variable filepath_of : string -> string -> string.

(** *** Import (lines 136-311) *)

(** The state of the keyframing loops: [highest_frame] and the keyframes
    inserted so far. *)
Definition insert (object : string) (bone : option string) (path : DataPath)
    (value : KeyValue) (frame : Q) (st : Q * list Keyframe)
  : Q * list Keyframe :=
  (fst st,
   snd st ++ [{| kf_object := object; kf_bone := bone; kf_data_path := path;
                 kf_value := value; kf_frame := frame |}]).

(** [if highest_frame < frame: highest_frame = frame]. *)
Definition raise_highest (frame : Q) (st : Q * list Keyframe)
  : Q * list Keyframe :=
  (if Qlt_le_dec (fst st) frame then frame else fst st, snd st).

(** Lines 219-248: the three tracks of an object-level target. *)
Definition import_object_tracks (object : string) (t : AniTarget)
    (st : Q * list Keyframe) : Q * list Keyframe :=
  let st :=
    fold_left
      (fun st '(animated_rotation, scaled_frame) =>
         let frame := frame_of_tick scaled_frame in
         let st := raise_highest frame st in
         let rot := conjugated animated_rotation in
         insert object None rotation_quaternion (quaternion_value rot) frame st)
      (rotation_frames t) st in
  let st :=
    fold_left
      (fun st '(animated_position, scaled_frame) =>
         let frame := frame_of_tick scaled_frame in
         let st := raise_highest frame st in
         insert object None location (vector_value animated_position) frame st)
      (position_frames t) st in
  fold_left
    (fun st '(animated_scale, scaled_frame) =>
       let frame := frame_of_tick scaled_frame in
       let st := raise_highest frame st in
       insert object None scale (vector_value animated_scale) frame st)
    (scale_frames t) st.

(** Lines 259-302: the three tracks of a bone-level target; a track without
    keyframes gets the rest value at frame 0. *)
Definition import_bone_tracks (armature : string) (b : Bone) (t : AniTarget)
    (st : Q * list Keyframe) : Q * list Keyframe :=
  let name := bone_name b in
  let st :=
    if (length (rotation_frames t) =? 0)%nat
    then insert armature (Some name) rotation_quaternion
           (quaternion_value (mkQuaternion 1 0 0 0)) 0 st
    else st in
  let st :=
    fold_left
      (fun st '(animated_rotation, scaled_frame) =>
         let frame := frame_of_tick scaled_frame in
         let st := raise_highest frame st in
         let rot :=
           get_local_rotation (bone_local_rotation b)
             (flip_w animated_rotation) in
         insert armature (Some name) rotation_quaternion
           (quaternion_value rot) frame st)
      (rotation_frames t) st in
  let st :=
    if (length (position_frames t) =? 0)%nat
    then insert armature (Some name) location (vector_value (0, 0, 0)%Q) 0 st
    else st in
  let st :=
    fold_left
      (fun st '(animated_position, scaled_frame) =>
         let frame := frame_of_tick scaled_frame in
         let st := raise_highest frame st in
         let loc :=
           get_local_position (bone_local_position b)
             (bone_local_rotation b) animated_position in
         insert armature (Some name) location (vector_value loc) frame st)
      (position_frames t) st in
  let st :=
    if (length (scale_frames t) =? 0)%nat
    then insert armature (Some name) scale (vector_value (1, 1, 1)%Q) 0 st
    else st in
  fold_left
    (fun st '(animated_scale, scaled_frame) =>
       let frame := frame_of_tick scaled_frame in
       let st := raise_highest frame st in
       insert armature (Some name) scale (vector_value animated_scale) frame st)
    (scale_frames t) st.

Inductive Resolved : Type :=
| found_object (name : string)
| found_bone (name : string)
| not_found.

#[global] Instance Resolved_eq_dec : EqDecision Resolved.
Proof. solve_decision. Defined.

(** Lines 171-185: a target name is looked up among the objects, then among
    the bones of the armature. *)
Definition resolve (objects_collection : list SceneObject)
    (target_bones : option (list Bone)) (object_name : string) : Resolved :=
  if bool_decide (object_name ∈ map so_name objects_collection)
  then found_object object_name
  else
    match target_bones with
    | Some bones =>
        if bool_decide (object_name ∈ map bone_name bones)
        then found_bone object_name else not_found
    | None => not_found
    end.

(** Lines 171-185: [found_objects] and [found_bones], each target paired
    with the object or the bone found for its name. *)
Definition found_objects_of (objects_collection : list SceneObject)
    (target_bones : option (list Bone)) (file : list AniTarget)
  : list (string * AniTarget) :=
  omap (fun t =>
          match
            resolve objects_collection target_bones (animated_object_name t)
          with
          | found_object obj => Some (obj, t)
          | _ => None
          end)
       file.

Definition found_bones_of (objects_collection : list SceneObject)
    (target_bones : option (list Bone)) (file : list AniTarget)
  : list (string * AniTarget) :=
  omap (fun t =>
          match
            resolve objects_collection target_bones (animated_object_name t)
          with
          | found_bone bone => Some (bone, t)
          | _ => None
          end)
       file.

(** Lines 258-302: the loop over [found_bones]; [None] is the [KeyError] of
    [bone_name_to_id]. *)
Fixpoint import_bones (armature : string) (bones : list Bone)
    (found_bones : list (string * AniTarget)) (st : Q * list Keyframe)
  : option (Q * list Keyframe) :=
  match found_bones with
  | [] => Some st
  | (name, t) :: rest =>
      b ← find (fun b => bool_decide (bone_name b = name)) bones;
      import_bones armature bones rest (import_bone_tracks armature b t st)
  end.

(** Lines 136-311 for one file whose targets have been read.
    [objects_collection] is the selection or the collection named after the
    file, [None] when there is no such collection.  [Skipped] is [continue],
    [Cancelled] is [return {"CANCELLED"}], and [Raised] is an exception that
    leaves the operator (line 193 reads [frame_amount[0]]). *)
Definition import_animation (ignore_not_found : bool) (animation_name : string)
    (objects_collection : option (list SceneObject)) (file : list AniTarget)
  : ImportResult :=
  match objects_collection with
  | None => Skipped
  | Some objects_collection =>
      let armature_objects :=
        filter (fun o => so_type o = ARMATURE) objects_collection in
      if (1 <? length armature_objects)%nat then Cancelled
      else
        let target_armature := head armature_objects in
        match
          match target_armature with
          | Some a =>
              match so_skeleton a with
              | Some bones => Some (Some bones)
              | None => None
              end
          | None => Some None
          end
        with
        | None => Skipped
        | Some skeleton_data =>
            let found_objects :=
              found_objects_of objects_collection skeleton_data file in
            let found_bones :=
              found_bones_of objects_collection skeleton_data file in
            if negb ignore_not_found
               && bool_decide
                    (not_found ∈
                       map (fun t =>
                              resolve objects_collection skeleton_data
                                (animated_object_name t))
                           file)
            then Cancelled
            else
              match file with
              | [] => Raised
              | _ :: _ =>
                  let st :=
                    fold_left
                      (fun st '(obj, t) => import_object_tracks obj t st)
                      found_objects (0%Q, []) in
                  match
                    match target_armature, skeleton_data, found_bones with
                    | Some a, Some bones, _ :: _ =>
                        import_bones (so_name a) bones found_bones st
                    | _, _, _ => Some st
                    end
                  with
                  | None => Cancelled
                  | Some st =>
                      let object_slots :=
                        map (fun '(obj, _) => "OB" +:+ obj) found_objects in
                      let armature_slots :=
                        match target_armature, found_bones with
                        | Some a, _ :: _ => ["OB" +:+ so_name a]
                        | _, _ => []
                        end in
                      Imported
                        {| action_name := animation_name;
                           action_frame_range := (0%Q, fst st);
                           action_keyframes := snd st;
                           action_slots :=
                             remove_dups (object_slots ++ armature_slots) |}
                  end
              end
        end
  end.

(** A file whose targets carry other values in the fields the import reads
    and does not use. *)
Definition with_unknown_frames (unknown : list (Q * Z)) (t : AniTarget)
  : AniTarget :=
  {| animated_object_name := animated_object_name t;
     frame_amount := frame_amount t;
     frame_counts := frame_counts t;
     rotation_frames := rotation_frames t;
     position_frames := position_frames t;
     scale_frames := scale_frames t;
     unknown_frames := unknown |}.

Definition with_frame_span (amount counts : Z) (t : AniTarget) : AniTarget :=
  {| animated_object_name := animated_object_name t;
     frame_amount := amount;
     frame_counts := counts;
     rotation_frames := rotation_frames t;
     position_frames := position_frames t;
     scale_frames := scale_frames t;
     unknown_frames := unknown_frames t |}.

(** *** Export (lines 347-731) *)

(** One index of the lists [export_object_names], ...,
    [export_unknown_keyframe_counts] and of the four dictionaries of
    keyframes; a dictionary without the index is [None]. *)
Record ExportTarget : Type := {
  export_object_name : string;
  export_unique_keyframe_count : Z;
  export_maximum_frames : Z;
  export_rotation_keyframe_count : Z;
  export_rotation_keyframes : option (list Quaternion);
  export_position_keyframe_count : Z;
  export_position_keyframes : option (list Vector3);
  export_scale_keyframe_count : Z;
  export_scale_keyframes : option (list Vector3);
  export_unknown_keyframe_count : Z;
  export_unknown_keyframes : option (list Q)
}.

(** [add_object_animation_data] (lines 505-530), and lines 618-625 and
    667-669 for a bone, which fill the same lists in the same way. *)
Definition add_object_animation_data (_object_name : string)
    (_total_frames _total_export_frames : Z)
    (_export_rotation_keyframes : list Quaternion)
    (_export_position_keyframes _export_scale_keyframes : list Vector3)
  : ExportTarget :=
  {| export_object_name := _object_name;
     export_unique_keyframe_count := _total_frames;
     export_maximum_frames := _total_frames * FRAME_SCALE;
     export_rotation_keyframe_count := _total_export_frames;
     export_rotation_keyframes := Some _export_rotation_keyframes;
     export_position_keyframe_count := _total_export_frames;
     export_position_keyframes := Some _export_position_keyframes;
     export_scale_keyframe_count := _total_export_frames;
     export_scale_keyframes := Some _export_scale_keyframes;
     export_unknown_keyframe_count := 0;
     export_unknown_keyframes := None |}.

(** [range(first, int(action.frame_range[1] + 1))]. *)
Definition frames_from (first : Z) (action : Action) : list Z :=
  let stop := int_of_float (snd (action_frame_range action) + 1)%Q in
  map (fun k => first + Z.of_nat k) (seq 0 (Z.to_nat (stop - first))).

(** Lines 573-589: the number of triangle indices per material slot. *)
Definition material_polygon_counts (object : SceneObject) : gmap nat Z :=
  fold_left
    (fun counts poly =>
       let mat_idx :=
         if (material_index poly <? so_material_slots object)%nat
         then material_index poly else 0%nat in
       let poly_indices_count := (Z.of_nat (loop_total poly) - 2) * 3 in
       <[mat_idx := default 0 (counts !! mat_idx) + poly_indices_count]> counts)
    (so_polygons object) ∅.

(** Lines 595-607: the names under which one material slot is exported. *)
Definition split_names (object_name : string) (mat_idx : nat)
    (indices_count : Z) : list string :=
  let sub_object_base_name :=
    MshExport.sub_object_base_name_of object_name mat_idx in
  if indices_count <=? 65535 then [sub_object_base_name]
  else
    map (MshExport.split_object_name sub_object_base_name)
        (seq 0 (Z.to_nat (MshExport.maximum_split_amount_of indices_count))).

(** Lines 504-610: the targets of a mesh or an empty. *)
Definition object_targets (action : Action) (object : SceneObject)
  : list ExportTarget :=
  let total_frames := int_of_float (snd (action_frame_range action)) in
  let total_export_frames := total_frames + 1 in
  let samples :=
    map (matrix_basis action (so_name object)) (frames_from 0 action) in
  let temp_rotation_keyframes := map (fun s => flip_w (fst (fst s))) samples in
  let temp_position_keyframes := map (fun s => snd (fst s)) samples in
  let temp_scale_keyframes := map snd samples in
  let add name :=
    add_object_animation_data name total_frames total_export_frames
      temp_rotation_keyframes temp_position_keyframes temp_scale_keyframes in
  match so_type object with
  | MESH =>
      let counts := material_polygon_counts object in
      let sorted_mat_indices := merge_sort Nat.le (map fst (map_to_list counts)) in
      flat_map
        (fun mat_idx =>
           map add (split_names (so_name object) mat_idx
                      (default 0 (counts !! mat_idx))))
        sorted_mat_indices
  | EMPTY => [add (so_name object)]
  | _ => []
  end.

(** Lines 617-669: the target of one bone of an armature. *)
Definition bone_target (action : Action) (armature : string) (b : Bone)
  : ExportTarget :=
  let total_frames := int_of_float (snd (action_frame_range action)) in
  let total_export_frames := total_frames + 1 in
  let samples :=
    map (pose_bone action armature (bone_name b)) (frames_from 1 action) in
  add_object_animation_data (bone_name b) total_frames total_export_frames
    (flip_w (bone_local_rotation b)
     :: map (fun s =>
               flip_w (get_world_rotation (bone_local_rotation b) (fst (fst s))))
            samples)
    (bone_local_position b
     :: map (fun s =>
               get_world_position (bone_local_position b)
                 (bone_local_rotation b) (snd (fst s)))
            samples)
    (bone_absolute_scale b :: map snd samples).

(** Lines 502-669: the targets of one object of the action; [None] when
    [build_skeleton_from_armature] raises. *)
Definition targets_of (action : Action) (object : SceneObject)
  : option (list ExportTarget) :=
  match so_type object with
  | ARMATURE =>
      bones ← so_skeleton object;
      Some (map (bone_target action (so_name object)) bones)
  | _ => Some (object_targets action object)
  end.

Definition export_targets (action : Action) (action_objects : list SceneObject)
  : option (list ExportTarget) :=
  targets ← mapM (targets_of action) action_objects;
  Some (concat targets).

(** Lines 682-708: one track, [write_value] being the call that writes a
    value of the track. *)
Definition track_ops {A} (write_value : A -> WriteOp) (count : Z)
    (keyframes : option (list A)) : list WriteOp :=
  write_ushort count
  :: match keyframes with
     | Some keyframes =>
         concat
           (imap (fun frame_number value =>
                    [ write_value value;
                      write_uint (tick_of_frame (Z.of_nat frame_number)) ])
                 keyframes)
     | None => []
     end.

(** Lines 677-708: one target. *)
Definition target_ops (t : ExportTarget) : list WriteOp :=
  [ write_fixed_string 100 "euc-kr" (export_object_name t);
    write_ushort (export_unique_keyframe_count t);
    write_ushort (export_maximum_frames t);
    file_write_zeros 36 ]
  ++ track_ops write_converted_quaternion (export_rotation_keyframe_count t)
       (export_rotation_keyframes t)
  ++ track_ops write_converted_vector3f (export_position_keyframe_count t)
       (export_position_keyframes t)
  ++ track_ops write_vector3f (export_scale_keyframe_count t)
       (export_scale_keyframes t)
  ++ track_ops write_float (export_unknown_keyframe_count t)
       (export_unknown_keyframes t).

(** The (float, tick) pairs that lines 705-708 write for a target. *)
Definition written_unknown_track (t : ExportTarget) : list (Q * Z) :=
  match export_unknown_keyframes t with
  | Some keyframes =>
      imap (fun frame_number unknown =>
              (unknown, tick_of_frame (Z.of_nat frame_number)))
           keyframes
  | None => []
  end.

(** Lines 675-708: the calls made on the open file. *)
Definition file_ops (targets : list ExportTarget) : list WriteOp :=
  write_ushort (Z.of_nat (length targets)) :: flat_map target_ops targets.

(** [export_action] (lines 443-731) on a disk.  The boolean tells whether
    the call returned; it is [false] when an exception left it, which
    nothing in the function catches. *)
Definition export_action (ok : WriteOp -> bool) (action : Action)
    (action_objects : list SceneObject) (directory : string)
    (disk : gmap string (list WriteOp)) : gmap string (list WriteOp) * bool :=
  let filepath := filepath_of directory (action_name action) in
  match export_targets action action_objects with
  | None => (disk, false)
  | Some targets =>
      let '(content, finished) := Serializer.run ok (file_ops targets) [] in
      (<[filepath := content]> disk, finished)
  end.

(** Lines 375-410: the objects an action is exported for, from its slots
    and then from the NLA tracks of the scene. *)
Definition linked_objects (objects : list SceneObject) (action : Action)
  : list SceneObject :=
  let by_slot :=
    fold_left
      (fun linked slot =>
         let identifier :=
           if String.prefix "OB" slot
           then String.substring 2 (String.length slot - 2) slot else slot in
         match
           find (fun o =>
                   bool_decide (so_name o = identifier
                                ∧ so_name o ∉ map so_name linked))
                objects
         with
         | Some o => linked ++ [o]
         | None => linked
         end)
      (action_slots action) [] in
  fold_left
    (fun linked o =>
       if bool_decide (action_name action ∈ so_nla_actions o
                       ∧ so_name o ∉ map so_name linked)
       then linked ++ [o] else linked)
    objects by_slot.

(** Lines 365-441: [execute], the loop over the actions that have linked
    objects.  [actions] is [bpy.data.actions], which Blender keeps sorted by
    name; the dictionary [actions_to_export] is filled and read in that
    order.  An exception of [export_action] ends the loop. *)
Fixpoint export_actions (ok : WriteOp -> bool) (objects : list SceneObject)
    (actions : list Action) (directory : string)
    (disk : gmap string (list WriteOp)) : gmap string (list WriteOp) * bool :=
  match actions with
  | [] => (disk, true)
  | action :: rest =>
      match linked_objects objects action with
      | [] => export_actions ok objects rest directory disk
      | (_ :: _) as action_objects =>
          let '(disk, returned) :=
            export_action ok action action_objects directory disk in
          if returned then export_actions ok objects rest directory disk
          else (disk, false)
      end
  end.

(** A file imported on the objects of a scene, and the action it creates
    exported with the objects linked to it: the targets that are written. *)
Definition import_then_export (ignore_not_found : bool)
    (animation_name : string) (objects : list SceneObject)
    (file : list AniTarget) : option (list ExportTarget) :=
  match import_animation ignore_not_found animation_name (Some objects) file with
  | Imported action => export_targets action (linked_objects objects action)
  | _ => None
  end.

End WithBlender.

End Ani.

(** ** An MSH file imported and exported again *)

Module MshRoundTrip.

Section WithBlender.

Variable INVALID_NAME : string.
Variable relative_to : Matrix -> Matrix -> Matrix.

(** The mesh Blender holds for a created object ([from_pydata], then
    [remove_doubles]) as the exporter regroups it by material (lines
    1144-1279), and the world matrices of the objects and of the bones a
    created object may be parented to. *)
Variable material_groups_of :
  MshImport.CreatedObject -> list MshExport.MaterialGroup.
Variable matrix_world_of : string -> Matrix.
Variable bone_matrix_of : string -> string -> Matrix.

(** The created object as the exporter finds it in the scene. *)
Definition scene_object (c : MshImport.CreatedObject * MshImport.ParentLink)
  : MshExport.BlenderObject :=
  let '(o, link) := c in
  {| MshExport.ob_name := MshImport.co_name o;
     MshExport.ob_type :=
       if MshImport.co_has_mesh o then MshExport.MESH else MshExport.EMPTY;
     MshExport.ob_parent :=
       match link with
       | MshImport.ObjectParent name =>
           Some (MshExport.parent_object name (matrix_world_of name))
       | MshImport.BoneParent armature bone =>
           Some (MshExport.parent_bone bone (bone_matrix_of armature bone))
       | _ => None
       end;
     MshExport.ob_msh_bind_matrix := Some (MshImport.co_msh_bind_matrix o);
     MshExport.ob_rest_matrix_world := MshImport.co_matrix_world o;
     MshExport.ob_material_groups := material_groups_of o |}.

(** The entries the export collects for the objects an import created. *)
Definition import_then_export (mesh_export_format : MshExport.MeshFormat)
    (existing : list string) (target_armature : option MshImport.Armature)
    (preserve_parenting_relationships : bool)
    (records : list MshImport.ObjectRecord)
  : option (list MshExport.ObjectEntry) :=
  created ←
    MshImport.import_msh INVALID_NAME existing target_armature
      preserve_parenting_relationships records;
  MshExport.export_objects INVALID_NAME relative_to mesh_export_format
    (map scene_object created) [].

End WithBlender.

End MshRoundTrip.

(** ** Sample inputs *)

Module Samples.

(** A value for the sentinel [INVALID_NAME]. *)
Definition no_name : string := "NONE".

Definition origin : Vector3 := (0, 0, 0)%Q.

(** A legacy mesh with one base vertex and one triangle whose three corners
    refer to it with three different UVs. *)
Definition one_vertex_triangle : MshImport.LegacyBlock :=
  {| MshImport.lg_base_vertices := [((1, 2, 3)%Q, (0, 0, 1)%Q)];
     MshImport.lg_triangles :=
       [ {| MshImport.tri_indices := (0, 0, 0)%nat;
            MshImport.tri_normals := ((0, 0, 1), (0, 1, 0), (1, 0, 0))%Q;
            MshImport.tri_uvs := ((0, 0), (1, 0), (0, 1))%Q |} ];
     MshImport.lg_bone_names_for_assignment := [];
     MshImport.lg_weights := [] |}.

(** An object record without geometry, with values of its own in the
    fields whose meaning is unknown. *)
Definition flagged_record : MshImport.ObjectRecord :=
  {| MshImport.rec_object_name := "Box";
     MshImport.rec_parent_name := no_name;
     MshImport.rec_object_world_matrix := MshExport.Identity4;
     MshImport.rec_vertex_amount := 0;
     MshImport.rec_triangle_amount := 0;
     MshImport.rec_weight_amount := 0;
     MshImport.rec_texture_path := "";
     MshImport.rec_effect_path := "";
     MshImport.rec_bounding_box_max := origin;
     MshImport.rec_bounding_box_min := origin;
     MshImport.rec_unknown_float3_1 := (1, 2, 3)%Q;
     MshImport.rec_unknown_flags_1 := (7, 9);
     MshImport.rec_weight_model_type := 0;
     MshImport.rec_unknown_float3_2 := (4, 5, 6)%Q;
     MshImport.rec_unknown_float_1 := (1 # 2)%Q;
     MshImport.rec_reserved := replicate 31 255;
     MshImport.rec_geometry :=
       MshImport.LegacyGeometry
         {| MshImport.lg_base_vertices := [];
            MshImport.lg_triangles := [];
            MshImport.lg_bone_names_for_assignment := [];
            MshImport.lg_weights := [] |} |}.

(** A weighted object record that names a parent. *)
Definition weighted_record : MshImport.ObjectRecord :=
  {| MshImport.rec_object_name := "Body";
     MshImport.rec_parent_name := "Bip01";
     MshImport.rec_object_world_matrix := MshExport.Identity4;
     MshImport.rec_vertex_amount := 0;
     MshImport.rec_triangle_amount := 0;
     MshImport.rec_weight_amount := 3;
     MshImport.rec_texture_path := "";
     MshImport.rec_effect_path := "";
     MshImport.rec_bounding_box_max := origin;
     MshImport.rec_bounding_box_min := origin;
     MshImport.rec_unknown_float3_1 := origin;
     MshImport.rec_unknown_flags_1 := (1, 256);
     MshImport.rec_weight_model_type := 0;
     MshImport.rec_unknown_float3_2 := origin;
     MshImport.rec_unknown_float_1 := 0%Q;
     MshImport.rec_reserved := replicate 31 0;
     MshImport.rec_geometry :=
       MshImport.LegacyGeometry
         {| MshImport.lg_base_vertices := [];
            MshImport.lg_triangles := [];
            MshImport.lg_bone_names_for_assignment := [];
            MshImport.lg_weights := [] |} |}.

Definition corner : MshExport.ExportVertex :=
  {| MshExport.ev_position := origin;
     MshExport.ev_normal := (0, 0, 1)%Q;
     MshExport.ev_uv := (0, 0)%Q;
     MshExport.ev_weights := ((1, 0, 0)%Q, [0; -1; -1; -1]) |}.

(** A material group of 21846 triangles on three vertices. *)
Definition large_group : MshExport.MaterialGroup :=
  {| MshExport.mat_idx := 0;
     MshExport.current_texture_path := "";
     MshExport.group_exporter := [corner; corner; corner];
     MshExport.group_exporter_polygons :=
       replicate (Z.to_nat 21846) (0, 1, 2)%nat;
     MshExport.group_unique_bones_list := ["Bip01"] |}.

(** An entry of the export state for an object parented to a bone. *)
Definition parented_entry : MshExport.ObjectEntry :=
  {| MshExport.object_name := "Sword";
     MshExport.object_parent_name := "Bip01 R Hand";
     MshExport.object_world_matrix := MshExport.Identity4;
     MshExport.object_local_matrix := MshExport.Identity4;
     MshExport.object_inverse_parent_matrix := MshExport.Identity4;
     MshExport.object_vertex_amount := 1;
     MshExport.object_face_amount := 0;
     MshExport.object_weight_amount := 1;
     MshExport.object_texture_path := "";
     MshExport.object_effect_path := "";
     MshExport.object_unique_bones_list := ["Bip01"];
     MshExport.object_vertice_data :=
       [ MshExport.mesh08_vertex origin (1, 0, 0)%Q [0; -1; -1; -1]
           (0, 0, 1)%Q (0, 0)%Q origin ];
     MshExport.object_face_data := [];
     MshExport.object_weight_data :=
       [MshExport.mesh08_bone_group 1 ["Bip01"]] |}.

(** An empty object of a scene, and an object whose name does not fit a
    field of 100 bytes. *)
Definition empty_named (name : string) : MshExport.BlenderObject :=
  {| MshExport.ob_name := name;
     MshExport.ob_type := MshExport.EMPTY;
     MshExport.ob_parent := None;
     MshExport.ob_msh_bind_matrix := None;
     MshExport.ob_rest_matrix_world := MshExport.Identity4;
     MshExport.ob_material_groups := [] |}.

Definition long_name : string :=
  "0123456789012345678901234567890123456789012345678901234567890123456789012345678901234567890123456789".

(** Blender for the objects of the MSH samples: no parent matrix is used,
    and no object has a mesh. *)
Definition same_matrix (parent world : Matrix) : Matrix := world.
Definition no_groups (o : MshImport.CreatedObject)
  : list MshExport.MaterialGroup := [].
Definition identity_of (name : string) : Matrix := MshExport.Identity4.
Definition bone_identity_of (armature bone : string) : Matrix :=
  MshExport.Identity4.

(** The scene of the animation samples: one empty object, at rest. *)
Definition cube : Ani.SceneObject :=
  {| Ani.so_name := "Cube";
     Ani.so_type := Ani.EMPTY;
     Ani.so_skeleton := None;
     Ani.so_polygons := [];
     Ani.so_material_slots := 0;
     Ani.so_nla_actions := [] |}.

Definition rest : Quaternion := mkQuaternion 1 0 0 0.

Definition keep_rotation (bind pose : Quaternion) : Quaternion := pose.
Definition keep_position (bind : Vector3) (rotation : Quaternion)
    (pose : Vector3) : Vector3 := pose.
Definition still (action : Ani.Action) (object : string) (frame : Z)
  : Quaternion * Vector3 * Vector3 := (rest, origin, (1, 1, 1)%Q).
Definition still_bone (action : Ani.Action) (armature bone : string)
    (frame : Z) : Quaternion * Vector3 * Vector3 :=
  (rest, origin, (1, 1, 1)%Q).
Definition ani_path (directory name : string) : string :=
  directory +:+ "/" +:+ name +:+ ".ANI".

(** A target for the object of the scene: declared spans 100 and 16000,
    two rotation keyframes at ticks 0 and 800, two unknown keyframes. *)
Definition cube_target : Ani.AniTarget :=
  {| Ani.animated_object_name := "Cube";
     Ani.frame_amount := 100;
     Ani.frame_counts := 16000;
     Ani.rotation_frames := [(rest, 0); (rest, 800)];
     Ani.position_frames := [];
     Ani.scale_frames := [];
     Ani.unknown_frames := [((1 # 2)%Q, 0); ((1 # 4)%Q, 160)] |}.

(** Two actions of the scene, in the order of their names, which is the
    order of [bpy.data.actions]; the first is 410 frames long. *)
Definition attack : Ani.Action :=
  {| Ani.action_name := "Attack";
     Ani.action_frame_range := (0, 410)%Q;
     Ani.action_keyframes := [];
     Ani.action_slots := ["OBCube"] |}.

Definition idle : Ani.Action :=
  {| Ani.action_name := "Idle";
     Ani.action_frame_range := (0, 1)%Q;
     Ani.action_keyframes := [];
     Ani.action_slots := ["OBCube"] |}.

End Samples.

(** ** What the reader finds in an exported MESH08 object *)

Module MshMesh.

(** The names of one bone group as the MESH08 reader gets them back: the
    writer puts [bone_amount] first and then the names (lines 1431-1434),
    the reader reads that many names (lines 601-602). *)
Definition bone_group_names (w : MshExport.WeightData) : list string :=
  match w with
  | MshExport.mesh08_bone_group bone_amount bone_names =>
      take bone_amount bone_names
  | MshExport.standard_weight _ _ _ _ => []
  end.

End MshMesh.

(** ** The weights of a legacy object, by corner *)

Module MshLegacy.

Import MshImport.

(** Lines 684-687: the (bone name, weight) slots of one weight record that
    are kept for a vertex, those whose name is not the sentinel. *)
Definition kept_slots (INVALID_NAME : string) (e : list string * list Q)
  : list (string * Q) :=
  filter (fun p => fst p ≠ INVALID_NAME) (zip (fst e) (snd e)).

(** The base vertex indices of the corners in the order of the loops of
    lines 673-675. *)
Definition corner_indices (records : list TriangleRecord) : list nat :=
  flat_map (fun '(a, b, c) => [a; b; c]) (map tri_indices records).

(** The last weight record of a list for one base vertex. *)
Definition last_record (vertex_index : nat) (ws : list WeightRecord)
  : option WeightRecord :=
  last (filter (fun w => wr_vertex_index w = vertex_index) ws).

End MshLegacy.

(** ** Further sample inputs *)

Module Cases.

Import MshImport.

(** A MESH08 block of one vertex weighted on two bones. *)
Definition two_bone_vertex : Mesh08Block :=
  {| m8_vertices :=
       [ {| v_position := (0, 0, 0)%Q;
            v_read_weights := [1 # 2; 1 # 2; 0]%Q;
            v_bone_indices := [0; 1; 0; 0]%nat;
            v_normal := (0, 0, 1)%Q;
            v_uv := (0, 0)%Q |} ];
     m8_triangles := [(0, 0, 0)%nat];
     m8_bone_groups := [["Bip01"; "Bip01 Spine"]] |}.

(** A legacy mesh of two base vertices and one triangle, with one weight
    record per base vertex in the weight model that refers to a name
    table. *)
Definition weighted_triangle : LegacyBlock :=
  {| lg_base_vertices := [((1, 2, 3)%Q, (0, 0, 1)%Q); ((4, 5, 6)%Q, (0, 0, 1)%Q)];
     lg_triangles :=
       [ {| tri_indices := (0, 1, 0)%nat;
            tri_normals := ((0, 0, 1), (0, 1, 0), (1, 0, 0))%Q;
            tri_uvs := ((0, 0), (1, 0), (0, 1))%Q |} ];
     lg_bone_names_for_assignment := ["Bip01"; "Bip01 Spine"];
     lg_weights :=
       [ {| wr_vertex_index := 0; wr_bone_indices := [0; -1; -1; -1];
            wr_bone_names := []; wr_read_weights := [1; 0; 0; 0]%Q |};
         {| wr_vertex_index := 1; wr_bone_indices := [0; 1; -1; -1];
            wr_bone_names := [];
            wr_read_weights := [1 # 2; 1 # 2; 0; 0]%Q |} ] |}.

End Cases.

(** ** The bone data of a MESH08 object, from the writer to the reader *)

Module MshReread.

Import MshExport.

(** [struct] stores a value written with the format ["h"] in two bytes, in
    two's complement, and reads two bytes with the format ["H"] as a number
    from 0 to 65535.  The writer uses ["4h"] for the bone indices of a
    vertex (lines 1418 and 1421) and the reader ["4H"] (line 580): this is
    what the reader gets for an index that was written. *)
Definition reread_ushort (bone_index : Z) : nat :=
  Z.to_nat (bone_index mod 65536).

(** The weight amount written for an entry (lines 1401-1404), which the
    reader gets as [weight_amount]. *)
Definition written_weight_amount (INVALID_NAME : string) (e : ObjectEntry)
  : Z :=
  if bool_decide (object_parent_name e = INVALID_NAME)
  then Z.of_nat (object_weight_amount e) else 0.

(** The four bone indices written for a vertex of an entry (lines
    1417-1421). *)
Definition written_bone_indices (INVALID_NAME : string) (e : ObjectEntry)
    (v : VertexData) : list Z :=
  match v with
  | mesh08_vertex _ _ unique_bone_indices _ _ _ =>
      if bool_decide (object_parent_name e = INVALID_NAME)
      then unique_bone_indices else [-1; -1; -1; 0]
  | standard_vertex _ _ _ => []
  end.

End MshReread.

Module RereadCases.

Import MshImport.

(** An entry of the export state for an object without parent whose only
    vertex is weighted on one bone, and the MESH08 block the reader gets for
    it. *)
Definition one_bone_entry : MshExport.ObjectEntry :=
  {| MshExport.object_name := "Body";
     MshExport.object_parent_name := Samples.no_name;
     MshExport.object_world_matrix := MshExport.Identity4;
     MshExport.object_local_matrix := MshExport.Identity4;
     MshExport.object_inverse_parent_matrix := MshExport.Identity4;
     MshExport.object_vertex_amount := 1;
     MshExport.object_face_amount := 0;
     MshExport.object_weight_amount := 1;
     MshExport.object_texture_path := "";
     MshExport.object_effect_path := "";
     MshExport.object_unique_bones_list := ["Bip01"];
     MshExport.object_vertice_data :=
       [ MshExport.mesh08_vertex Samples.origin (1, 0, 0)%Q [0; -1; -1; -1]
           (0, 0, 1)%Q (0, 0)%Q Samples.origin ];
     MshExport.object_face_data := [];
     MshExport.object_weight_data :=
       [MshExport.mesh08_bone_group 1 ["Bip01"]] |}.

Definition one_bone_block : Mesh08Block :=
  {| m8_vertices :=
       [ {| v_position := Samples.origin;
            v_read_weights := [1; 0; 0]%Q;
            v_bone_indices :=
              [0; Z.to_nat 65535; Z.to_nat 65535; Z.to_nat 65535]%nat;
            v_normal := (0, 0, 1)%Q;
            v_uv := (0, 0)%Q |} ];
     m8_triangles := [];
     m8_bone_groups := [["Bip01"]] |}.

End RereadCases.

(** ** Views of the animation import *)

Module AniViews.

Import Ani.

(** The invariant of the keyframing loops (lines 219-302):
    [highest_frame] is not negative, no keyframe inserted so far is later,
    and it is 0 or the frame of a keyframe. *)
Definition covers (st : Q * list Keyframe) : Prop :=
  (0 <= fst st)%Q
  /\ Forall (fun k => (kf_frame k <= fst st)%Q) (snd st)
  /\ (fst st = 0%Q \/ fst st ∈ map kf_frame (snd st)).

(** Lines 156-167: the armatures of the collection, and the bones that the
    target names are looked up in, those of the skeleton of the armature when
    there is one. *)
Definition armature_objects_of (objects_collection : list SceneObject)
  : list SceneObject :=
  filter (fun o => so_type o = ARMATURE) objects_collection.

Definition target_bones_of (objects_collection : list SceneObject)
  : option (list Bone) :=
  head (armature_objects_of objects_collection) ≫= so_skeleton.

End AniViews.

Module AniCases.

(** A target named after nothing in the scene of the samples. *)
Definition ghost_target : Ani.AniTarget :=
  {| Ani.animated_object_name := "Ghost";
     Ani.frame_amount := 1;
     Ani.frame_counts := 160;
     Ani.rotation_frames := [(Samples.rest, 160)];
     Ani.position_frames := [];
     Ani.scale_frames := [];
     Ani.unknown_frames := [] |}.

End AniCases.

(** ** Views of the MSH export *)

Module MshViews.

Import MshExport.

(** Lines 1076-1087, 1089-1112 and 1114 of the loop over the objects: the
    parent name, the world matrix and the local matrix that every call of
    [__add_object_data] for the object is given. *)
Definition parent_name_of (INVALID_NAME : string) (object : BlenderObject)
  : string :=
  match ob_parent object with
  | Some (parent_bone parent_bone_name _) => parent_bone_name
  | Some (parent_object parent_name _) => parent_name
  | None => INVALID_NAME
  end.

Definition world_matrix_of (object : BlenderObject) : Matrix :=
  match ob_msh_bind_matrix object with
  | Some raw => raw
  | None => ob_rest_matrix_world object
  end.

Definition local_matrix_of (relative_to : Matrix -> Matrix -> Matrix)
    (object : BlenderObject) : Matrix :=
  match ob_parent object with
  | Some (parent_bone _ parent_matrix)
  | Some (parent_object _ parent_matrix) =>
      relative_to parent_matrix (world_matrix_of object)
  | None => world_matrix_of object
  end.

(** What lines 976-980 and 1051-1053 store for every entry. *)
Definition made_for (parent_name : string) (world_matrix local_matrix : Matrix)
    (e : ObjectEntry) : Prop :=
  object_parent_name e = parent_name
  /\ object_world_matrix e = world_matrix
  /\ object_local_matrix e = local_matrix
  /\ object_inverse_parent_matrix e = Identity4
  /\ object_weight_amount e = object_vertex_amount e
  /\ length (object_vertice_data e) = object_vertex_amount e.

End MshViews.

Module MshCases.

(** An object record without geometry that names a parent which is not in
    the scene. *)
Definition orphan_record : MshImport.ObjectRecord :=
  {| MshImport.rec_object_name := "Blade";
     MshImport.rec_parent_name := "Hilt";
     MshImport.rec_object_world_matrix := MshExport.Identity4;
     MshImport.rec_vertex_amount := 0;
     MshImport.rec_triangle_amount := 0;
     MshImport.rec_weight_amount := 0;
     MshImport.rec_texture_path := "";
     MshImport.rec_effect_path := "";
     MshImport.rec_bounding_box_max := Samples.origin;
     MshImport.rec_bounding_box_min := Samples.origin;
     MshImport.rec_unknown_float3_1 := Samples.origin;
     MshImport.rec_unknown_flags_1 := (1, 256);
     MshImport.rec_weight_model_type := 0;
     MshImport.rec_unknown_float3_2 := Samples.origin;
     MshImport.rec_unknown_float_1 := 0%Q;
     MshImport.rec_reserved := replicate 31 0;
     MshImport.rec_geometry :=
       MshImport.LegacyGeometry
         {| MshImport.lg_base_vertices := [];
            MshImport.lg_triangles := [];
            MshImport.lg_bone_names_for_assignment := [];
            MshImport.lg_weights := [] |} |}.

End MshCases.

(** ** The mesh of an object, from Blender to the material groups *)

Module MshMeshData.

Import MshExport.

(** The mesh data the exporter reads (lines 1132-1147): the coordinates and
    the (vertex group index, weight) assignments of every vertex, the vertex
    and the normal of every loop, the UV of every loop of the active UV
    layer (no UV when there is no active layer), and the material index and
    the loop indices of every polygon.  A loop is found at its own index:
    [mesh.loops[i].index] is [i]. *)
Record MeshVertex : Type := { co : Vector3; groups : list (nat * Q) }.

Record MeshLoop : Type := { vertex_index : nat; normal : Vector3 }.

Record MeshPolygon : Type := {
  material_index : nat;
  loop_indices : list nat
}.

Record Mesh : Type := {
  mesh_vertices : list MeshVertex;
  mesh_loops : list MeshLoop;
  mesh_uvs : list Vector2;
  mesh_polygons : list MeshPolygon
}.

(** Line 1217: [vertex_key = (loop.vertex_index, uv, normal)].  Two keys
    are the same key of the dictionary when their numbers are equal. *)
Definition VertexKey : Type := nat * Vector2 * Vector3.

Definition key_eqb (a b : VertexKey) : bool :=
  let '(i, (u, v), (x, y, z)) := a in
  let '(i', (u', v'), (x', y', z')) := b in
  (i =? i')%nat && Qeq_bool u u' && Qeq_bool v v'
  && Qeq_bool x x' && Qeq_bool y y' && Qeq_bool z z'.

(** The state of the loops of lines 1196-1276 for one material group:
    the vertices collected ([group_exporter_vertices], [_normals], [_uvs]
    and [_weights], which grow together), the triangles, the dictionary
    [mesh_vertex_to_export_vertex_map] in insertion order, and the bones
    used: [group_unique_bones_list] with the dictionary
    [group_unique_bones_used_indices], whose keys are the set
    [group_unique_bones_used]. *)
Record GroupState : Type := {
  gs_exporter : list ExportVertex;
  gs_polygons : list (nat * nat * nat);
  gs_vertex_map : list (VertexKey * nat);
  gs_unique_bones_list : list string;
  gs_unique_bones_used_indices : gmap string nat
}.

Definition empty_group : GroupState :=
  {| gs_exporter := []; gs_polygons := []; gs_vertex_map := [];
     gs_unique_bones_list := []; gs_unique_bones_used_indices := ∅ |}.

Definition lookup_key (vertex_key : VertexKey) (m : list (VertexKey * nat))
  : option nat :=
  snd <$> find (fun e => key_eqb (fst e) vertex_key) m.

(** Lines 1235-1246, one vertex group assignment of a vertex: the pairs
    collected so far, the list of bones and the dictionary of their
    positions.  A group without a name in [group_index_to_bone_name], or
    with an empty name, is passed over. *)
Definition add_bone (group_index_to_bone_name : gmap nat string)
    (acc : list (Z * Q) * list string * gmap string nat) (group : nat * Q)
  : list (Z * Q) * list string * gmap string nat :=
  let '(bone_weight_pairs, unique_bones_list, used_indices) := acc in
  match group_index_to_bone_name !! fst group with
  | None => acc
  | Some bone_name =>
      if bool_decide (bone_name = "") then acc
      else
        match used_indices !! bone_name with
        | Some bone_index =>
            (bone_weight_pairs ++ [(Z.of_nat bone_index, snd group)],
             unique_bones_list, used_indices)
        | None =>
            let bone_index := length unique_bones_list in
            (bone_weight_pairs ++ [(Z.of_nat bone_index, snd group)],
             unique_bones_list ++ [bone_name],
             <[bone_name := bone_index]> used_indices)
        end
  end.

(** Line 1249: [bone_weight_pairs.sort(key=lambda x: x[1], reverse=True)],
    a stable sort: pairs of equal weight keep their order. *)
Fixpoint insert_by_weight (p : Z * Q) (l : list (Z * Q)) : list (Z * Q) :=
  match l with
  | [] => [p]
  | q :: rest =>
      if Qle_bool (snd q) (snd p) then p :: q :: rest
      else q :: insert_by_weight p rest
  end.

Definition sort_by_weight (l : list (Z * Q)) : list (Z * Q) :=
  foldr insert_by_weight [] l.

(** Lines 1249-1262: the three weights and the four bone indices stored for
    a vertex. *)
Definition vertex_weights (bone_weight_pairs : list (Z * Q))
  : (Q * Q * Q) * list Z :=
  let bone_weight_pairs := take 4 (sort_by_weight bone_weight_pairs) in
  let bone_indices := map fst bone_weight_pairs in
  let weights := map snd bone_weight_pairs in
  let weights :=
    if (3 <? length weights)%nat then take 3 weights
    else weights ++ replicate (3 - length bone_indices) 0%Q in
  let bone_indices :=
    bone_indices ++ replicate (4 - length bone_indices) (-1) in
  ((nth 0 weights 0%Q, nth 1 weights 0%Q, nth 2 weights 0%Q), bone_indices).

(** Lines 1212-1217: the key of one loop of a polygon.  [None] is an
    [IndexError]. *)
Definition corner_key (mesh : Mesh) (loop_index : nat) : option VertexKey :=
  loop ← mesh_loops mesh !! loop_index;
  uv ← match mesh_uvs mesh with
       | [] => Some (0, 0)%Q
       | _ :: _ => mesh_uvs mesh !! loop_index
       end;
  Some (vertex_index loop, uv, normal loop).

(** Lines 1211-1265, one loop of a polygon: the state reached and the index
    appended to [poly_indices].  [None] is an [IndexError]. *)
Definition add_corner (group_index_to_bone_name : gmap nat string)
    (mesh : Mesh) (loop_index : nat) (st : GroupState)
  : option (GroupState * nat) :=
  vertex_key ← corner_key mesh loop_index;
  let '(loop_vertex_index, uv, normal) := vertex_key in
  match lookup_key vertex_key (gs_vertex_map st) with
  | Some i => Some (st, i)
  | None =>
      let new_index := length (gs_exporter st) in
      mesh_vertex ← mesh_vertices mesh !! loop_vertex_index;
      let '(bone_weight_pairs, unique_bones_list, used_indices) :=
        fold_left (add_bone group_index_to_bone_name) (groups mesh_vertex)
          ([], gs_unique_bones_list st, gs_unique_bones_used_indices st) in
      Some ({| gs_exporter :=
                 gs_exporter st
                 ++ [{| ev_position := co mesh_vertex;
                        ev_normal := normal;
                        ev_uv := uv;
                        ev_weights := vertex_weights bone_weight_pairs |}];
               gs_polygons := gs_polygons st;
               gs_vertex_map := gs_vertex_map st ++ [(vertex_key, new_index)];
               gs_unique_bones_list := unique_bones_list;
               gs_unique_bones_used_indices := used_indices |},
            new_index)
  end.

(** The loop over [poly.loop_indices]. *)
Fixpoint add_corners (group_index_to_bone_name : gmap nat string)
    (mesh : Mesh) (loop_indices : list nat) (st : GroupState)
  : option (GroupState * list nat) :=
  match loop_indices with
  | [] => Some (st, [])
  | loop_index :: rest =>
      '(st, i) ← add_corner group_index_to_bone_name mesh loop_index st;
      '(st, poly_indices) ←
        add_corners group_index_to_bone_name mesh rest st;
      Some (st, i :: poly_indices)
  end.

(** Lines 1275-1276: the triangles [v0, poly_indices[k], poly_indices[k+1]]
    for [k] from 1, [l] being [poly_indices] from position 1. *)
Fixpoint fan (v0 : nat) (l : list nat) : list (nat * nat * nat) :=
  match l with
  | a :: (b :: _) as rest => (v0, a, b) :: fan v0 rest
  | _ => []
  end.

(** Lines 1267-1276.  [None] is the [IndexError] of [poly_indices[0]] for a
    polygon without loops. *)
Definition triangulate (poly_indices : list nat)
  : option (list (nat * nat * nat)) :=
  match poly_indices with
  | [a; b; c] => Some [(a, b, c)]
  | [a; b; c; d] => Some [(a, b, c); (a, c, d)]
  | [] => None
  | v0 :: rest => Some (fan v0 rest)
  end.

(** Lines 1209-1276, one polygon. *)
Definition add_polygon (group_index_to_bone_name : gmap nat string)
    (mesh : Mesh) (poly : MeshPolygon) (st : GroupState)
  : option GroupState :=
  '(st, poly_indices) ←
    add_corners group_index_to_bone_name mesh (loop_indices poly) st;
  tris ← triangulate poly_indices;
  Some {| gs_exporter := gs_exporter st;
          gs_polygons := gs_polygons st ++ tris;
          gs_vertex_map := gs_vertex_map st;
          gs_unique_bones_list := gs_unique_bones_list st;
          gs_unique_bones_used_indices := gs_unique_bones_used_indices st |}.

Fixpoint add_polygons (group_index_to_bone_name : gmap nat string)
    (mesh : Mesh) (group_polys : list MeshPolygon) (st : GroupState)
  : option GroupState :=
  match group_polys with
  | [] => Some st
  | poly :: rest =>
      st ← add_polygon group_index_to_bone_name mesh poly st;
      add_polygons group_index_to_bone_name mesh rest st
  end.

(** Lines 1150-1158: the polygons by material index, in the order in which
    the indices are met; [material_slots] is [len(object.material_slots)]. *)
Definition mat_idx_of (material_slots : nat) (poly : MeshPolygon) : nat :=
  if (material_index poly <? material_slots)%nat then material_index poly
  else 0%nat.

Fixpoint add_to_group (mat_idx : nat) (poly : MeshPolygon)
    (material_polygon_groups : list (nat * list MeshPolygon))
  : list (nat * list MeshPolygon) :=
  match material_polygon_groups with
  | [] => [(mat_idx, [poly])]
  | (m, polys) :: rest =>
      if (m =? mat_idx)%nat then (m, polys ++ [poly]) :: rest
      else (m, polys) :: add_to_group mat_idx poly rest
  end.

Definition material_polygon_groups_of (material_slots : nat) (mesh : Mesh)
  : list (nat * list MeshPolygon) :=
  fold_left (fun acc poly =>
               add_to_group (mat_idx_of material_slots poly) poly acc)
            (mesh_polygons mesh) [].

Section WithObject.

(** [current_texture_path] for a material index (lines 1163-1184), which
    comes from the node tree of the material. *)
Variable texture_path_of : nat -> string.

(** [group_index_to_bone_name] (line 1194). *)
Variable group_index_to_bone_name : gmap nat string.

(** Lines 1160-1279: the material group that is split and exported. *)
Definition material_group_of (mesh : Mesh)
    (group : nat * list MeshPolygon) : option MaterialGroup :=
  st ← add_polygons group_index_to_bone_name mesh (snd group) empty_group;
  Some {| mat_idx := fst group;
          current_texture_path := texture_path_of (fst group);
          group_exporter := gs_exporter st;
          group_exporter_polygons := gs_polygons st;
          group_unique_bones_list := gs_unique_bones_list st |}.

Definition material_groups_of (material_slots : nat) (mesh : Mesh)
  : option (list MaterialGroup) :=
  mapM (material_group_of mesh)
       (material_polygon_groups_of material_slots mesh).

End WithObject.

End MshMeshData.

Module MshMeshViews.

Import MshExport MshMeshData.

(** The list of the bones used and the dictionary of their positions say
    the same, and no bone is listed twice. *)
Definition bones_ok (unique_bones_list : list string)
    (used_indices : gmap string nat) : Prop :=
  NoDup unique_bones_list
  /\ forall bone_name i,
       used_indices !! bone_name = Some i
       <-> unique_bones_list !! i = Some bone_name.

(** The four bone slots of a vertex: each holds -1 or a position of the
    list of the bones used. *)
Definition slots_ok (bones : nat) (v : ExportVertex) : Prop :=
  length (snd (ev_weights v)) = 4%nat
  /\ Forall (fun i => i = -1 \/ 0 <= i < Z.of_nat bones) (snd (ev_weights v)).

Definition triangle_in (vertices : nat) (tri : nat * nat * nat) : Prop :=
  (tri.1.1 < vertices)%nat /\ (tri.1.2 < vertices)%nat
  /\ (tri.2 < vertices)%nat.

(** The invariant of the loops over the polygons of a material group. *)
Definition group_ok (st : GroupState) : Prop :=
  Forall (fun e => (snd e < length (gs_exporter st))%nat) (gs_vertex_map st)
  /\ Forall (triangle_in (length (gs_exporter st))) (gs_polygons st)
  /\ bones_ok (gs_unique_bones_list st) (gs_unique_bones_used_indices st)
  /\ Forall (slots_ok (length (gs_unique_bones_list st))) (gs_exporter st).






(** The polygons of a mesh as the ANI export reads them (ani.py, lines
    573-589): the material index and [len(poly.loop_indices)]. *)
Definition ani_polygons (mesh : Mesh) : list Ani.Polygon :=
  map (fun poly =>
         {| Ani.material_index := material_index poly;
            Ani.loop_total := length (loop_indices poly) |})
      (mesh_polygons mesh).

(** The number that the ANI export adds for a polygon (ani.py, line 584),
    and its sum over polygons. *)
Definition poly_indices_count (poly : MeshPolygon) : Z :=
  (Z.of_nat (length (loop_indices poly)) - 2) * 3.

Definition indices_count_of (polys : list MeshPolygon) : Z :=
  foldr (fun poly n => poly_indices_count poly + n) 0 polys.

End MshMeshViews.

Module MeshCases.

Import MshMeshData.

(** A square of four vertices with one loop each, its first two vertices in
    vertex group 0 and the others in no group, as one polygon. *)
Definition square : Mesh :=
  {| mesh_vertices :=
       [ {| co := (0, 0, 0)%Q; groups := [(0%nat, 1%Q)] |};
         {| co := (1, 0, 0)%Q; groups := [(0%nat, (1 # 2)%Q); (1%nat, (1 # 2)%Q)] |};
         {| co := (1, 1, 0)%Q; groups := [] |};
         {| co := (0, 1, 0)%Q; groups := [] |} ];
     mesh_loops :=
       [ {| vertex_index := 0; normal := (0, 0, 1)%Q |};
         {| vertex_index := 1; normal := (0, 0, 1)%Q |};
         {| vertex_index := 2; normal := (0, 0, 1)%Q |};
         {| vertex_index := 3; normal := (0, 0, 1)%Q |} ];
     mesh_uvs := [(0, 0); (1, 0); (1, 1); (0, 1)]%Q;
     mesh_polygons :=
       [ {| material_index := 0; loop_indices := [0; 1; 2; 3]%nat |} ] |}.

Definition no_texture (mat_idx : nat) : string := "".

Definition two_bones : gmap nat string :=
  {[ 0%nat := "Bip01"; 1%nat := "Bip01 Spine" ]}.

(** The object of the square as the ANI export reads it, with one material
    slot. *)
Definition plane : Ani.SceneObject :=
  {| Ani.so_name := "Plane";
     Ani.so_type := Ani.MESH;
     Ani.so_skeleton := None;
     Ani.so_polygons := MshMeshViews.ani_polygons square;
     Ani.so_material_slots := 1;
     Ani.so_nla_actions := [] |}.

End MeshCases.

(** * Properties *)

(** ** Vertex weights *)

Section WeightFacts.

Import MshWeights.

Lemma sum3 (w0 w1 w2 : Q) : (sum [w0; w1; w2] == w0 + w1 + w2)%Q.
Proof. unfold sum; simpl. ring. Qed.

Lemma sum4 (w0 w1 w2 w3 : Q) : (sum [w0; w1; w2; w3] == w0 + w1 + w2 + w3)%Q.
Proof. unfold sum; simpl. ring. Qed.

(** The implied fourth weight of lines 570-575: [1 - s] when the three
    stored weights sum to less than [1 - WEIGHT_TOLERANCE], [0] otherwise.
    The test of line 576 never holds after that step. *)
Lemma final_weights_implied_fourth (w0 w1 w2 : Q) :
  final_weights [w0; w1; w2] =
  if Qlt_le_dec (sum [w0; w1; w2]) (1 - WEIGHT_TOLERANCE)
  then [w0; w1; w2; (1 - sum [w0; w1; w2])%Q]
  else [w0; w1; w2; 0%Q].
Proof.
  unfold final_weights.
  destruct (Qlt_le_dec (sum [w0; w1; w2]) (1 - WEIGHT_TOLERANCE)) as [Hlt | Hge];
    cbn [app length replicate Nat.sub].
  - destruct (Qlt_le_dec _ _) as [Hbad | _]; [exfalso | reflexivity].
    rewrite sum4, sum3 in Hbad. lra.
  - destruct (Qlt_le_dec _ _) as [Hbad | _]; [exfalso | reflexivity].
    rewrite sum4 in Hbad. rewrite sum3 in Hge.
    unfold WEIGHT_TOLERANCE in Hge. lra.
Qed.

(** The four weights sum to one when the fourth is implied. *)
Lemma final_weights_sum_one (w0 w1 w2 : Q) :
  (sum [w0; w1; w2] < 1 - WEIGHT_TOLERANCE)%Q ->
  (sum (final_weights [w0; w1; w2]) == 1)%Q.
Proof.
  intros Hlt. rewrite final_weights_implied_fourth.
  destruct (Qlt_le_dec _ _) as [_ | Hge]; [| lra].
  rewrite sum4, sum3. ring.
Qed.

(** Stored weights 0.5, 0.3, 0.1: the fourth weight is 0.1. *)
Example final_weights_half_third_tenth :
  exists w3, final_weights [1 # 2; 3 # 10; 1 # 10]%Q
             = [1 # 2; 3 # 10; 1 # 10; w3]%Q /\ (w3 == 1 # 10)%Q.
Proof. eexists. split; [vm_compute; reflexivity | reflexivity]. Qed.

(** The standard export applies the same rule to the stored weights. *)
Lemma exported_weights_same_rule (w0 w1 w2 : Q) :
  exported_weights (w0, w1, w2) =
  if Qlt_le_dec (w0 + w1 + w2) (1 - WEIGHT_TOLERANCE)
  then (w0, w1, w2, (1 - (w0 + w1 + w2))%Q)
  else (w0, w1, w2, 0%Q).
Proof. reflexivity. Qed.

(** C2, at the input where the code departs from it: a MESH08 vertex whose
    three stored weights are zero gets the weights [0, 0, 0, 1], full weight
    on the fourth influence slot.  The implied fourth weight [1 - 0] is
    appended before line 576 tests the sum, so the replacement by
    [1, 0, 0, 0] does not happen. *)
Theorem final_weights_all_zero :
  final_weights [0; 0; 0]%Q = [0; 0; 0; 1]%Q.
Proof. vm_compute. reflexivity. Qed.

End WeightFacts.

(** ** Unwelding of the legacy meshes *)

Section UnweldFacts.

Import MshImport.

Variable INVALID_NAME : string.
Variable base_vertices : list Vector3.
Variable base_vertices_weights : gmap nat (list string * list Q).

Lemma unweld_corner_Some vertex_index normal uv g :
  corner_ok base_vertices base_vertices_weights vertex_index ->
  exists v g',
    unweld_corner INVALID_NAME base_vertices base_vertices_weights
      vertex_index normal uv g = Some g'
    /\ base_vertices !! vertex_index = Some v
    /\ vertices g' = vertices g ++ [v]
    /\ normals g' = normals g ++ [normal]
    /\ uvs g' = uvs g ++ [uv]
    /\ triangles g' = triangles g.
Proof.
  intros [Hlt Hw].
  destruct (lookup_lt_is_Some_2 _ _ Hlt) as [v Hv].
  unfold unweld_corner. rewrite Hv. cbn.
  case_bool_decide as He.
  - eexists v, _. repeat split; reflexivity.
  - destruct Hw as [Hw | [d Hd]]; [contradiction |].
    rewrite Hd. cbn. eexists v, _. repeat split; reflexivity.
Qed.

(** The loop over the triangles, started at triangle [i] with the lists of
    [g]: what it appends for the triangles of [tris]. *)
Lemma unweld_appends base_triangle_normals base_triangle_uvs tris :
  forall i g,
    Forall (triangle_ok base_vertices base_vertices_weights) tris ->
    (forall j, (j < length tris)%nat ->
               is_Some (base_triangle_normals !! (i + j)%nat)
               /\ is_Some (base_triangle_uvs !! (i + j)%nat)) ->
    exists g' vs ns us ts,
      unweld INVALID_NAME base_vertices base_triangle_normals
        base_triangle_uvs base_vertices_weights i tris g = Some g'
      /\ vertices g' = vertices g ++ vs
      /\ normals g' = normals g ++ ns
      /\ uvs g' = uvs g ++ us
      /\ triangles g' = triangles g ++ ts
      /\ (length ts = length tris
          /\ length vs = (3 * length tris)%nat
          /\ length ns = (3 * length tris)%nat
          /\ length us = (3 * length tris)%nat)
      /\ forall j a b c,
           tris !! j = Some (a, b, c) ->
           exists na nb nc ua ub uc,
             base_triangle_normals !! (i + j)%nat = Some (na, nb, nc)
             /\ base_triangle_uvs !! (i + j)%nat = Some (ua, ub, uc)
             /\ ts !! j
                = Some (length (vertices g) + 3 * j,
                        length (vertices g) + 3 * j + 1,
                        length (vertices g) + 3 * j + 2)%nat
             /\ vs !! (3 * j)%nat = base_vertices !! a
             /\ vs !! (3 * j + 1)%nat = base_vertices !! b
             /\ vs !! (3 * j + 2)%nat = base_vertices !! c
             /\ ns !! (3 * j)%nat = Some na
             /\ ns !! (3 * j + 1)%nat = Some nb
             /\ ns !! (3 * j + 2)%nat = Some nc
             /\ us !! (3 * j)%nat = Some ua
             /\ us !! (3 * j + 1)%nat = Some ub
             /\ us !! (3 * j + 2)%nat = Some uc.
Proof.
  induction tris as [| [[a b] c] rest IH]; intros i g Hok Hrec.
  - exists g, [], [], [], []. cbn. rewrite !app_nil_r.
    repeat split; try reflexivity. intros j ? ? ? Hj. discriminate.
  - apply Forall_cons in Hok as [(Ha & Hb & Hc) Hok].
    destruct (Hrec 0%nat) as [[[[na nb] nc] Hn] [[[ua ub] uc] Hu]];
      [cbn; lia |].
    rewrite Nat.add_0_r in Hn, Hu.
    destruct (unweld_corner_Some a na ua g Ha)
      as (va & g1 & E1 & Hva & V1 & N1 & U1 & T1).
    destruct (unweld_corner_Some b nb ub g1 Hb)
      as (vb & g2 & E2 & Hvb & V2 & N2 & U2 & T2).
    destruct (unweld_corner_Some c nc uc g2 Hc)
      as (vc & g3 & E3 & Hvc & V3 & N3 & U3 & T3).
    set (g4 := {| vertices := vertices g3; normals := normals g3;
                  uvs := uvs g3; weights := weights g3;
                  weight_bones := weight_bones g3;
                  triangles :=
                    triangles g3 ++
                    [(length (vertices g), length (vertices g) + 1,
                      length (vertices g) + 2)%nat] |}).
    destruct (IH (S i) g4 Hok)
      as (g' & vs & ns & us & ts & E & V & N & U & T & (Lt & Lv & Ln & Lu)
          & Hall).
    { intros j Hj. replace (S i + j)%nat with (i + S j)%nat by lia.
      apply Hrec. cbn. lia. }
    exists g', ([va; vb; vc] ++ vs), ([na; nb; nc] ++ ns),
      ([ua; ub; uc] ++ us),
      ((length (vertices g), length (vertices g) + 1,
        length (vertices g) + 2)%nat :: ts).
    split.
    { cbn [unweld]. rewrite Hn, Hu. cbn. rewrite E1. cbn. rewrite E2. cbn.
      rewrite E3. cbn. exact E. }
    split. { rewrite V. cbn. rewrite V3, V2, V1, <- !app_assoc. reflexivity. }
    split. { rewrite N. cbn. rewrite N3, N2, N1, <- !app_assoc. reflexivity. }
    split. { rewrite U. cbn. rewrite U3, U2, U1, <- !app_assoc. reflexivity. }
    split. { rewrite T. cbn. rewrite T3, T2, T1, <- !app_assoc. reflexivity. }
    split. { cbn. rewrite Lt, Lv, Ln, Lu. repeat split; lia. }
    intros [| j] a' b' c' Hj.
    + cbn in Hj. inversion Hj; subst a' b' c'.
      exists na, nb, nc, ua, ub, uc. rewrite Nat.add_0_r.
      split; [exact Hn |]. split; [exact Hu |].
      split; [cbn; do 3 f_equal; lia |].
      cbn. rewrite Hva, Hvb, Hvc. repeat split; reflexivity.
    + cbn in Hj. destruct (Hall j a' b' c' Hj)
        as (na' & nb' & nc' & ua' & ub' & uc' & Hn' & Hu' & Ht' & Hrest).
      exists na', nb', nc', ua', ub', uc'.
      replace (i + S j)%nat with (S i + j)%nat by lia.
      split; [exact Hn' |]. split; [exact Hu' |].
      split.
      { transitivity (ts !! j); [reflexivity |]. rewrite Ht'.
        subst g4. cbn [vertices]. rewrite V3, V2, V1, !length_app. cbn.
        do 3 f_equal; lia. }
      replace (3 * S j)%nat with (3 + 3 * j)%nat by lia.
      replace (3 + 3 * j + 1)%nat with (3 + (3 * j + 1))%nat by lia.
      replace (3 + 3 * j + 2)%nat with (3 + (3 * j + 2))%nat by lia.
      exact Hrest.
Qed.

Lemma read_base_triangles_maps (records : list TriangleRecord) :
  read_base_triangles records
  = (map tri_indices records, map tri_normals records, map tri_uvs records).
Proof.
  unfold read_base_triangles.
  enough (H : forall a b c,
             fold_left
               (fun '(base_triangles, base_triangle_normals, base_triangle_uvs) r =>
                  (base_triangles ++ [tri_indices r],
                   base_triangle_normals ++ [tri_normals r],
                   base_triangle_uvs ++ [tri_uvs r]))
               records (a, b, c)
             = (a ++ map tri_indices records, b ++ map tri_normals records,
                c ++ map tri_uvs records)) by apply H.
  induction records as [| r rest IH]; intros a b c; cbn.
  - rewrite !app_nil_r. reflexivity.
  - rewrite IH, <- !app_assoc. reflexivity.
Qed.

End UnweldFacts.

Section LegacyImportFacts.

Import MshImport.

(** C3.  A legacy mesh whose triangles can all be rebuilt is imported with
    one new vertex per triangle corner: corner [n] of triangle [i] is vertex
    [3 i + n], its position is that of the base vertex the corner refers to,
    its normal and UV are those the triangle record gives for the corner,
    and triangle [i] is renumbered [(3 i, 3 i + 1, 3 i + 2)]. *)
Theorem legacy_import_unwelds (INVALID_NAME : string) (weight_model_type : Z)
    (b : LegacyBlock) (base_vertices_weights : gmap nat (list string * list Q)) :
  read_base_vertices_weights INVALID_NAME weight_model_type
    (lg_bone_names_for_assignment b) (lg_weights b) ∅
  = Some base_vertices_weights ->
  Forall (fun r => triangle_ok (map fst (lg_base_vertices b))
                     base_vertices_weights (tri_indices r))
         (lg_triangles b) ->
  exists g,
    read_legacy INVALID_NAME weight_model_type b = Some g
    /\ length (vertices g) = (3 * length (lg_triangles b))%nat
    /\ length (normals g) = (3 * length (lg_triangles b))%nat
    /\ length (uvs g) = (3 * length (lg_triangles b))%nat
    /\ length (triangles g) = length (lg_triangles b)
    /\ forall i r,
         lg_triangles b !! i = Some r ->
         triangles g !! i = Some (3 * i, 3 * i + 1, 3 * i + 2)%nat
         /\ vertices g !! (3 * i)%nat
            = fst <$> lg_base_vertices b !! (tri_indices r).1.1
         /\ vertices g !! (3 * i + 1)%nat
            = fst <$> lg_base_vertices b !! (tri_indices r).1.2
         /\ vertices g !! (3 * i + 2)%nat
            = fst <$> lg_base_vertices b !! (tri_indices r).2
         /\ normals g !! (3 * i)%nat = Some (tri_normals r).1.1
         /\ normals g !! (3 * i + 1)%nat = Some (tri_normals r).1.2
         /\ normals g !! (3 * i + 2)%nat = Some (tri_normals r).2
         /\ uvs g !! (3 * i)%nat = Some (tri_uvs r).1.1
         /\ uvs g !! (3 * i + 1)%nat = Some (tri_uvs r).1.2
         /\ uvs g !! (3 * i + 2)%nat = Some (tri_uvs r).2.
Proof.
  intros Hw Hok.
  unfold read_legacy. rewrite read_base_triangles_maps, Hw. cbn.
  destruct (unweld_appends INVALID_NAME (map fst (lg_base_vertices b))
              base_vertices_weights (map tri_normals (lg_triangles b))
              (map tri_uvs (lg_triangles b)) (map tri_indices (lg_triangles b))
              0%nat empty_geometry)
    as (g & vs & ns & us & ts & E & V & N & U & T & (Lt & Lv & Ln & Lu) & Hall).
  { apply Forall_fmap. exact Hok. }
  { intros j Hj. rewrite length_map in Hj. cbn.
    rewrite !list_lookup_fmap.
    destruct (lookup_lt_is_Some_2 _ _ Hj) as [r Hr]. rewrite Hr. cbn.
    split; eexists; reflexivity. }
  cbn in V, N, U, T. rewrite length_map in Lt, Lv, Ln, Lu.
  subst vs ns us ts. exists g.
  do 5 (split; [assumption |]).
  intros i r Hr.
  destruct (Hall i (tri_indices r).1.1 (tri_indices r).1.2 (tri_indices r).2)
    as (na & nb & nc & ua & ub & uc & Hn & Hu & Ht & Ha & Hb & Hc & Hrest).
  { rewrite list_lookup_fmap, Hr. cbn. by destruct (tri_indices r) as [[] ?]. }
  change (0 + i)%nat with i in Hn, Hu.
  rewrite list_lookup_fmap, Hr in Hn. rewrite list_lookup_fmap, Hr in Hu.
  cbn in Hn, Hu. cbn [empty_geometry vertices length Nat.add] in Ht.
  inversion Hn as [En]. inversion Hu as [Eu].
  change (i + (i + (i + 0)))%nat with (3 * i)%nat.
  rewrite Ht, Ha, Hb, Hc, !list_lookup_fmap, En, Eu. cbn [fst snd].
  repeat split; try reflexivity; apply Hrest.
Qed.

End LegacyImportFacts.

(** ** Parents of the imported objects *)

Section ImportParentFacts.

Import MshImport.

Variable INVALID_NAME : string.

Lemma forced_parent_name_weighted (weight_amount : Z) (parent_name : string) :
  weight_amount <> 0 ->
  forced_parent_name INVALID_NAME weight_amount parent_name = INVALID_NAME.
Proof.
  intros H. unfold forced_parent_name.
  destruct (Z.eqb_spec weight_amount 0); [contradiction | reflexivity].
Qed.

Lemma link_parent_invalid scene_objects target_armature :
  link_parent INVALID_NAME scene_objects target_armature INVALID_NAME
  = Unparented.
Proof. unfold link_parent. case_bool_decide; [contradiction | reflexivity]. Qed.

(** The name an object record with weights leaves in [object_parent_names]
    is the sentinel, whatever the other fields are. *)
Lemma import_object_weighted target_armature preserve r o parent_name :
  rec_weight_amount r <> 0 ->
  import_object INVALID_NAME target_armature preserve r = Some (o, parent_name) ->
  parent_name = INVALID_NAME.
Proof.
  intros Hw. unfold import_object.
  rewrite (forced_parent_name_weighted _ _ Hw).
  destruct (match rec_geometry r with
            | Mesh08Geometry b => _
            | LegacyGeometry b => _
            end) as [[vertex_amount g] |]; cbn; [| discriminate].
  intros [= _ <-]. by destruct (force_parent_as_weights _ _ _ _).
Qed.

(** C9.  When a file is imported, an object record whose weight count is
    not zero has its parent name replaced by the sentinel when the record is
    read, and the parenting pass leaves the object created for it without a
    parent: it is linked to no object and to no bone, and no intended parent
    is recorded. *)
Theorem weighted_object_is_unparented existing target_armature preserve
    (records : list ObjectRecord) result (i : nat) (r : ObjectRecord) :
  import_msh INVALID_NAME existing target_armature preserve records
  = Some result ->
  records !! i = Some r ->
  rec_weight_amount r <> 0 ->
  forced_parent_name INVALID_NAME (rec_weight_amount r) (rec_parent_name r)
  = INVALID_NAME
  /\ exists o,
       import_object INVALID_NAME target_armature preserve r
       = Some (o, INVALID_NAME)
       /\ result !! i = Some (o, Unparented).
Proof.
  intros Himp Hr Hw.
  split; [by apply forced_parent_name_weighted |].
  unfold import_msh in Himp.
  destruct (mapM _ records) as [created |] eqn:Hm; cbn in Himp; [| discriminate].
  injection Himp as <-.
  apply mapM_Some in Hm.
  destruct (Forall2_lookup_l _ _ _ _ _ Hm Hr) as ([o parent_name] & Hc & Ho).
  pose proof (import_object_weighted _ _ _ _ _ Hw Ho) as ->.
  exists o. split; [exact Ho |].
  rewrite list_lookup_fmap, Hc. cbn. by rewrite link_parent_invalid.
Qed.

End ImportParentFacts.

(** ** What the MSH export writes for an object *)

Section ExportObjectFacts.

Import MshExport.

Variable INVALID_NAME : string.

(** Every object of the state is written: its calls are a segment of the
    calls made on the file. *)
Lemma object_ops_in_file_ops mesh_export_format entries e :
  e ∈ entries ->
  exists before after,
    file_ops INVALID_NAME mesh_export_format entries
    = before ++ object_ops INVALID_NAME mesh_export_format e ++ after.
Proof.
  intros He. apply list_elem_of_split in He as (l1 & l2 & ->).
  unfold file_ops. rewrite flat_map_app. cbn [flat_map].
  eexists (_ ++ write_ushort _ :: flat_map _ l1), (flat_map _ l2).
  rewrite <- (app_assoc _ (write_ushort _ :: _)). reflexivity.
Qed.

(** C10.  An object of the export state whose parent name is not the
    sentinel is written with a weight count of 0, whatever
    [object_weight_amount] holds, and in the MESH08 format each of its
    vertices is written with the bone indices (-1, -1, -1, 0), whatever bone
    indices the vertex has. *)
Theorem parented_object_written_without_weights mesh_export_format entries e :
  e ∈ entries ->
  object_parent_name e <> INVALID_NAME ->
  (exists before after,
     file_ops INVALID_NAME mesh_export_format entries
     = before ++ object_ops INVALID_NAME mesh_export_format e ++ after)
  /\ object_ops INVALID_NAME mesh_export_format e
     = [ write_fixed_string 100 "euc-kr" (object_name e);
         write_fixed_string 100 "euc-kr" (object_parent_name e);
         write_converted_matrix (object_world_matrix e);
         write_converted_matrix (object_local_matrix e);
         write_matrix (object_inverse_parent_matrix e);
         write_ushort (Z.of_nat (object_vertex_amount e));
         write_ushort (Z.of_nat (object_face_amount e));
         write_ushort 0;
         write_fixed_string 100 "euc-kr" (object_texture_path e);
         write_fixed_string 100 "euc-kr" (object_effect_path e) ]
       ++ reserved_ops ++ geometry_ops INVALID_NAME mesh_export_format e
  /\ geometry_ops INVALID_NAME MESH08 e
     = write_ushort (Z.of_nat (object_vertex_amount e))
       :: flat_map parented_vertex_ops (object_vertice_data e)
       ++ write_ushort (Z.of_nat (object_face_amount e) * 3)
       :: flat_map mesh08_face_ops (object_face_data e)
       ++ write_ushort (Z.of_nat (length (object_weight_data e)))
       :: flat_map mesh08_weight_ops (object_weight_data e).
Proof.
  intros He Hp. split; [by apply object_ops_in_file_ops |].
  split.
  - unfold object_ops, header_ops. case_bool_decide; [contradiction | reflexivity].
  - unfold geometry_ops. do 2 f_equal.
    induction (object_vertice_data e) as [| v vs IH]; [reflexivity |].
    cbn [flat_map]. rewrite IH. f_equal.
    destruct v as [? [[? ?] ?] ? ? ? ? | ? ? ?]; [| reflexivity].
    cbn. case_bool_decide; [contradiction | reflexivity].
Qed.

End ExportObjectFacts.

(** ** Splitting of the material groups *)

Section SplitFacts.

Import MshExport.

Variable group : list ExportVertex.

Lemma corners_app vs extra tri x :
  corners vs tri = Some x -> corners (vs ++ extra) tri = Some x.
Proof.
  unfold corners. intros H.
  destruct (vs !! tri.1.1) as [va |] eqn:Ea; [| discriminate].
  destruct (vs !! tri.1.2) as [vb |] eqn:Eb; [| discriminate].
  destruct (vs !! tri.2) as [vc |] eqn:Ec; [| discriminate].
  rewrite (lookup_app_l_Some _ _ _ _ Ea), (lookup_app_l_Some _ _ _ _ Eb),
    (lookup_app_l_Some _ _ _ _ Ec). exact H.
Qed.

Lemma polys_ok_app s s' done extra :
  split_exporter s' = split_exporter s ++ extra ->
  split_exporter_polygons s' = split_exporter_polygons s ->
  polys_ok group s done -> polys_ok group s' done.
Proof.
  unfold polys_ok. intros -> -> H. eapply Forall2_impl; [exact H |].
  intros t' t (x & H1 & H2). exists x. split; [by apply corners_app | done].
Qed.

(** One vertex index of a polygon: the index it is given leads to a copy
    of the vertex, and the vertices copied before stay where they are. *)
Lemma split_vertex_ok s i :
  map_ok group s -> (i < length group)%nat ->
  exists s' j v extra,
    split_vertex group i s = Some (s', j)
    /\ map_ok group s'
    /\ split_exporter s' !! j = Some v
    /\ group !! i = Some v
    /\ split_exporter s' = split_exporter s ++ extra
    /\ split_exporter_polygons s' = split_exporter_polygons s.
Proof.
  intros Hm Hi. unfold split_vertex.
  destruct (exporter_vertex_to_split_vertex_map s !! i) as [j |] eqn:E.
  - destruct (Hm i j E) as (v & Hv & Hg).
    exists s, j, v, []. rewrite app_nil_r. done.
  - destruct (lookup_lt_is_Some_2 _ _ Hi) as [v Hv]. rewrite Hv. cbn.
    eexists _, _, v, [v]. split; [reflexivity |].
    rewrite length_app. cbn [length].
    replace (length (split_exporter s) + 1 - 1)%nat
      with (length (split_exporter s)) by lia.
    split; [| cbn; rewrite list_lookup_middle; done].
    intros i' j'. cbn. rewrite lookup_insert.
    case_decide as Hd.
    + intros [= <-]. subst i'. exists v.
      rewrite list_lookup_middle; done.
    + intros Hj. destruct (Hm i' j' Hj) as (v' & Hv' & Hg').
      exists v'. split; [by apply lookup_app_l_Some | done].
Qed.

Lemma split_polygon_ok s done tri :
  map_ok group s -> polys_ok group s done ->
  (tri.1.1 < length group)%nat /\ (tri.1.2 < length group)%nat
  /\ (tri.2 < length group)%nat ->
  exists s',
    split_polygon group tri s = Some s'
    /\ map_ok group s' /\ polys_ok group s' (done ++ [tri]).
Proof.
  intros Hm Hp (Ha & Hb & Hc). destruct tri as [[a b] c]. cbn in Ha, Hb, Hc.
  destruct (split_vertex_ok s a Hm Ha)
    as (s1 & ia & va & x1 & E1 & M1 & L1 & G1 & V1 & P1).
  destruct (split_vertex_ok s1 b M1 Hb)
    as (s2 & ib & vb & x2 & E2 & M2 & L2 & G2 & V2 & P2).
  destruct (split_vertex_ok s2 c M2 Hc)
    as (s3 & ic & vc & x3 & E3 & M3 & L3 & G3 & V3 & P3).
  unfold split_polygon. rewrite E1. cbn. rewrite E2. cbn. rewrite E3. cbn.
  eexists. split; [reflexivity |]. split; [exact M3 |].
  unfold polys_ok. cbn. apply Forall2_app.
  - apply (polys_ok_app s s3 done (x1 ++ x2 ++ x3)) in Hp; [exact Hp | |].
    + rewrite V3, V2, V1, <- !app_assoc. reflexivity.
    + rewrite P3, P2, P1. reflexivity.
  - constructor; [| constructor].
    exists (va, vb, vc). unfold corners. cbn.
    rewrite G1, G2, G3. split; [| reflexivity].
    rewrite V3, V2. rewrite V2 in L2.
    rewrite (lookup_app_l_Some _ x3 _ _
               (lookup_app_l_Some _ x2 _ _ L1)).
    rewrite (lookup_app_l_Some _ x3 _ _ L2).
    rewrite <- V2, <- V3, L3. reflexivity.
Qed.

(** The loop over one range of polygons copies the polygons of the range,
    in order. *)
Lemma split_range_ok polys n :
  Forall (fun tri : nat * nat * nat =>
            (tri.1.1 < length group)%nat /\ (tri.1.2 < length group)%nat
            /\ (tri.2 < length group)%nat) polys ->
  forall idx s done,
    map_ok group s -> polys_ok group s done ->
    exists s',
      split_range group polys n idx s = Some s'
      /\ map_ok group s'
      /\ polys_ok group s' (done ++ take n (drop idx polys)).
Proof.
  intros Hwf. induction n as [| n IH]; intros idx s done Hm Hp.
  - exists s. rewrite take_0, app_nil_r. done.
  - cbn [split_range].
    destruct (polys !! idx) as [tri |] eqn:E.
    + rewrite (drop_S _ _ _ E). cbn [take].
      destruct (split_polygon_ok s done tri Hm Hp) as (s1 & E1 & M1 & P1).
      { exact (Forall_lookup_1 _ _ _ _ Hwf E). }
      rewrite E1. cbn.
      destruct (IH (S idx) s1 (done ++ [tri]) M1 P1) as (s' & E' & M' & P').
      exists s'. rewrite <- app_assoc in P'. done.
    + exists s. rewrite drop_ge by (by apply lookup_ge_None).
      rewrite take_nil, app_nil_r. done.
Qed.

Lemma polys_ok_corners s done :
  polys_ok group s done ->
  map (corners (split_exporter s)) (split_exporter_polygons s)
  = map (corners group) done
  /\ Forall (fun t => is_Some (corners (split_exporter s) t))
            (split_exporter_polygons s)
  /\ length (split_exporter_polygons s) = length done.
Proof.
  unfold polys_ok. induction 1 as [| t' t l' l (x & H1 & H2) _ (IH1 & IH2 & IH3)].
  - done.
  - cbn. rewrite H1, H2, IH1, IH3. split; [done |]. split; [| done].
    constructor; [by eexists | done].
Qed.

End SplitFacts.

Section ExportGroupFacts.

Import MshExport.

Lemma standard_face_of_Some exporting tri :
  is_Some (corners exporting tri) -> is_Some (standard_face_of exporting tri).
Proof.
  unfold corners, standard_face_of. destruct tri as [[a b] c]. cbn.
  destruct (exporting !! a); cbn; [| by intros [? ?]].
  destruct (exporting !! b); cbn; [| by intros [? ?]].
  destruct (exporting !! c); cbn; [| by intros [? ?]].
  by eexists.
Qed.

(** [__add_object_data] returns when the polygons refer to vertices it is
    given; it appends one entry, which does not depend on the entries
    before it. *)
Lemma add_object_data_Some mesh_export_format name parent_name world_matrix
    local_matrix exporting exporting_polygons bones texture_path effect_path
    entries :
  Forall (fun t => is_Some (corners exporting t)) exporting_polygons ->
  exists e,
    add_object_data mesh_export_format name parent_name world_matrix
      local_matrix exporting exporting_polygons bones texture_path
      effect_path entries = Some (entries ++ [e])
    /\ add_object_data mesh_export_format name parent_name world_matrix
         local_matrix exporting exporting_polygons bones texture_path
         effect_path [] = Some [e]
    /\ object_name e = name
    /\ object_parent_name e = parent_name
    /\ object_vertex_amount e = length exporting
    /\ object_face_amount e = length exporting_polygons.
Proof.
  intros Hc. unfold add_object_data. destruct mesh_export_format.
  - assert (Hm : is_Some (mapM (standard_face_of exporting) exporting_polygons)).
    { apply mapM_is_Some. eapply Forall_impl; [exact Hc |].
      intros t Ht. by apply standard_face_of_Some. }
    destruct Hm as [face_data ->]. cbn. eexists. repeat split; reflexivity.
  - cbn. eexists. repeat split; reflexivity.
Qed.

Lemma well_formed_corners g :
  well_formed g ->
  Forall (fun t => is_Some (corners (group_exporter g) t))
         (group_exporter_polygons g).
Proof.
  unfold well_formed. intros H. eapply Forall_impl; [exact H |].
  intros [[a b] c] (Ha & Hb & Hc).
  unfold corners. cbn in *.
  destruct (lookup_lt_is_Some_2 _ _ Ha) as [? ->].
  destruct (lookup_lt_is_Some_2 _ _ Hb) as [? ->].
  destruct (lookup_lt_is_Some_2 _ _ Hc) as [? ->]. by eexists.
Qed.

(** One split: the polygons of its range, copied with their vertices. *)
Lemma split_range_slice g split_number :
  well_formed g ->
  exists s,
    split_range (group_exporter g) (group_exporter_polygons g)
      TRIANGLES_PER_SPLIT (TRIANGLES_PER_SPLIT * split_number) empty_split
    = Some s
    /\ map (corners (split_exporter s)) (split_exporter_polygons s)
       = map (corners (group_exporter g))
             (split_slice (group_exporter_polygons g) split_number)
    /\ Forall (fun t => is_Some (corners (split_exporter s) t))
              (split_exporter_polygons s)
    /\ length (split_exporter_polygons s)
       = length (split_slice (group_exporter_polygons g) split_number).
Proof.
  intros Hwf.
  destruct (split_range_ok (group_exporter g) (group_exporter_polygons g)
              TRIANGLES_PER_SPLIT Hwf (TRIANGLES_PER_SPLIT * split_number)
              empty_split [])
    as (s & E & _ & P).
  - intros i j. cbn. rewrite lookup_empty. discriminate.
  - constructor.
  - exists s. split; [exact E |]. by apply polys_ok_corners.
Qed.

(** The loop over the split numbers appends one entry per split number. *)
Lemma split_loop_ok mesh_export_format base parent_name world_matrix
    local_matrix g :
  well_formed g ->
  forall split_numbers entries,
    exists new,
      split_loop mesh_export_format base parent_name world_matrix
        local_matrix g split_numbers entries = Some (entries ++ new)
      /\ length new = length split_numbers
      /\ forall i k,
           split_numbers !! i = Some k ->
           exists e s,
             new !! i = Some e
             /\ split_range (group_exporter g) (group_exporter_polygons g)
                  TRIANGLES_PER_SPLIT (TRIANGLES_PER_SPLIT * k) empty_split
                = Some s
             /\ add_object_data mesh_export_format
                  (split_object_name base k) parent_name world_matrix
                  local_matrix (split_exporter s) (split_exporter_polygons s)
                  (group_unique_bones_list g) (current_texture_path g) "" []
                = Some [e]
             /\ map (corners (split_exporter s)) (split_exporter_polygons s)
                = map (corners (group_exporter g))
                      (split_slice (group_exporter_polygons g) k)
             /\ object_name e = split_object_name base k
             /\ object_face_amount e
                = length (split_slice (group_exporter_polygons g) k).
Proof.
  intros Hwf split_numbers.
  induction split_numbers as [| k rest IH]; intros entries.
  - exists []. rewrite app_nil_r. repeat split; [done.. |].
    intros i k Hk. discriminate.
  - destruct (split_range_slice g k Hwf) as (s & Es & Hmap & Hsome & Hlen).
    destruct (add_object_data_Some mesh_export_format
                (split_object_name base k) parent_name world_matrix
                local_matrix (split_exporter s) (split_exporter_polygons s)
                (group_unique_bones_list g) (current_texture_path g) ""
                entries Hsome)
      as (e & Ee & Ee0 & Hn & _ & _ & Hf).
    destruct (IH (entries ++ [e])) as (new & En & Ln & Hall).
    exists (e :: new).
    split.
    { cbn [split_loop]. rewrite Es. cbn. rewrite Ee. cbn.
      rewrite En, <- app_assoc. reflexivity. }
    split; [cbn; by rewrite Ln |].
    intros [| i] k' Hk'.
    + injection Hk' as <-. exists e, s.
      rewrite Hf, Hlen. done.
    + apply (Hall i k' Hk').
Qed.

(** Cutting a list in consecutive slices of [c] and gluing the slices
    gives the list back when the slices cover it. *)
Lemma concat_slices {A} (c : nat) (m : nat) :
  forall l : list A,
    (length l <= m * c)%nat ->
    concat (map (fun k => take c (drop (c * k) l)) (seq 0 m)) = l.
Proof.
  induction m as [| m IH]; intros l Hl.
  - destruct l; [done | cbn in Hl; lia].
  - cbn [seq map concat]. rewrite Nat.mul_0_r, drop_0.
    rewrite <- fmap_S_seq, <- list_fmap_compose.
    transitivity (take c l ++ drop c l); [| apply take_drop].
    f_equal. etransitivity; [| apply (IH (drop c l))].
    + f_equal. apply list_fmap_ext. intros i k _. cbn.
      rewrite drop_drop. do 2 f_equal. lia.
    + rewrite length_drop. lia.
Qed.

End ExportGroupFacts.

Section ExportGroupTheorem.

Import MshExport.

Lemma TRIANGLES_PER_SPLIT_Z : Z.of_nat TRIANGLES_PER_SPLIT = 21845.
Proof. unfold TRIANGLES_PER_SPLIT. rewrite Z2Nat.id; lia. Qed.

Lemma length_split_slice (polys : list (nat * nat * nat)) (k : nat) :
  length (split_slice polys k)
  = (TRIANGLES_PER_SPLIT `min` (length polys - TRIANGLES_PER_SPLIT * k))%nat.
Proof. unfold split_slice. by rewrite length_take, length_drop. Qed.

(** The number of splits is the least number of slices of 21845 triangles
    that cover the group. *)
Lemma maximum_split_amount_bounds (n : nat) :
  let m := Z.to_nat (maximum_split_amount_of (Z.of_nat n * 3)) in
  Z.of_nat m = maximum_split_amount_of (Z.of_nat n * 3)
  /\ (Z.of_nat n <= Z.of_nat m * 21845)
  /\ ((0 < n)%nat -> (Z.of_nat m - 1) * 21845 < Z.of_nat n).
Proof.
  unfold maximum_split_amount_of. cbn zeta.
  pose proof (Z.div_mod (Z.of_nat n * 3 + 65534) 65535 ltac:(lia)) as Hdm.
  pose proof (Z.mod_pos_bound (Z.of_nat n * 3 + 65534) 65535 ltac:(lia)) as Hb.
  assert (0 <= (Z.of_nat n * 3 + 65534) / 65535) by (apply Z.div_pos; lia).
  rewrite Z2Nat.id by lia. repeat split; try lia.
Qed.

(** C1.  A material group whose polygons refer to its vertices is always
    exported.  With at most 65535 indices it gives one object, named after
    the group, with all the triangles.  With more it gives one object per
    slice of 21845 triangles, in order: the slices glued together are the
    triangles of the group, every object but the last has 21845 triangles,
    none is empty, none has more than 65535 indices, each holds its slice
    with the vertices copied and renumbered, and the objects are named after
    the group, with suffixes [_1], [_2], ... from the second on.  So 21845
    triangles give one object and 21846 give two, the second with the
    suffix [_1]. *)
Theorem export_group_splits mesh_export_format name parent_name world_matrix
    local_matrix (g : MaterialGroup) (entries : list ObjectEntry) :
  well_formed g ->
  let polys := group_exporter_polygons g in
  let base := sub_object_base_name_of name (mat_idx g) in
  exists new,
    export_group mesh_export_format name parent_name world_matrix
      local_matrix g entries = Some (entries ++ new)
    /\ (Z.of_nat (length polys) * 3 <= 65535 ->
        exists e,
          new = [e]
          /\ object_name e = base
          /\ object_face_amount e = length polys
          /\ add_object_data mesh_export_format base parent_name world_matrix
               local_matrix (group_exporter g) polys
               (group_unique_bones_list g) (current_texture_path g) "" []
             = Some [e])
    /\ (65535 < Z.of_nat (length polys) * 3 ->
        Z.of_nat (length new)
        = maximum_split_amount_of (Z.of_nat (length polys) * 3)
        /\ concat (map (split_slice polys) (seq 0 (length new))) = polys
        /\ forall k e,
             new !! k = Some e ->
             object_name e = split_object_name base k
             /\ object_face_amount e = length (split_slice polys k)
             /\ 0 < Z.of_nat (object_face_amount e) <= 21845
             /\ ((S k < length new)%nat ->
                 Z.of_nat (object_face_amount e) = 21845)
             /\ Z.of_nat (object_face_amount e) * 3 <= 65535
             /\ exists s,
                  split_range (group_exporter g) polys TRIANGLES_PER_SPLIT
                    (TRIANGLES_PER_SPLIT * k) empty_split = Some s
                  /\ add_object_data mesh_export_format
                       (split_object_name base k) parent_name world_matrix
                       local_matrix (split_exporter s)
                       (split_exporter_polygons s)
                       (group_unique_bones_list g) (current_texture_path g)
                       "" [] = Some [e]
                  /\ map (corners (split_exporter s))
                         (split_exporter_polygons s)
                     = map (corners (group_exporter g)) (split_slice polys k))
    /\ (Z.of_nat (length polys) = 21845 -> length new = 1%nat)
    /\ (Z.of_nat (length polys) = 21846 ->
        map object_name new = [base; base +:+ "_1"]).
Proof.
  intros Hwf polys base. unfold export_group. fold polys. fold base.
  destruct (Z.leb_spec (Z.of_nat (length polys) * 3) 65535) as [Hle | Hgt].
  - destruct (add_object_data_Some mesh_export_format base parent_name
                world_matrix local_matrix (group_exporter g) polys
                (group_unique_bones_list g) (current_texture_path g) ""
                entries (well_formed_corners g Hwf))
      as (e & Ee & Ee0 & Hn & _ & _ & Hf).
    exists [e]. split; [exact Ee |].
    split; [intros _; by exists e |].
    split; [lia |]. split; [done | lia].
  - destruct (split_loop_ok mesh_export_format base parent_name world_matrix
                local_matrix g Hwf
                (seq 0 (Z.to_nat
                          (maximum_split_amount_of
                             (Z.of_nat (length polys) * 3))))
                entries)
      as (new & En & Ln & Hall).
    rewrite length_seq in Ln.
    destruct (maximum_split_amount_bounds (length polys)) as (Hm & Hcover & Hlast).
    fold polys in Hm, Hcover, Hlast. rewrite <- Ln in Hm, Hcover, Hlast.
    specialize (Hlast ltac:(lia)).
    pose proof TRIANGLES_PER_SPLIT_Z as HT.
    assert (Hk : forall k e,
               new !! k = Some e ->
               exists s,
                 object_name e = split_object_name base k
                 /\ object_face_amount e = length (split_slice polys k)
                 /\ split_range (group_exporter g) polys TRIANGLES_PER_SPLIT
                      (TRIANGLES_PER_SPLIT * k) empty_split = Some s
                 /\ add_object_data mesh_export_format
                      (split_object_name base k) parent_name world_matrix
                      local_matrix (split_exporter s)
                      (split_exporter_polygons s)
                      (group_unique_bones_list g) (current_texture_path g)
                      "" [] = Some [e]
                 /\ map (corners (split_exporter s))
                        (split_exporter_polygons s)
                    = map (corners (group_exporter g)) (split_slice polys k)).
    { intros k e He.
      assert (Hlt : (k < length new)%nat) by (apply lookup_lt_is_Some; eauto).
      destruct (Hall k k) as (e' & s & He' & Es & Ea & Hmap & Hn & Hf).
      { apply lookup_seq. lia. }
      rewrite He in He'. injection He' as <-. exists s. done. }
    exists new. split; [exact En |]. split; [lia |].
    split.
    { intros _. split; [exact Hm |]. split.
      - apply (concat_slices TRIANGLES_PER_SPLIT (length new) polys). nia.
      - intros k e He.
        assert (Hlt : (k < length new)%nat) by (apply lookup_lt_is_Some; eauto).
        destruct (Hk k e He) as (s & Hn & Hf & Es & Ea & Hmap).
        assert (Hlen : 0 < Z.of_nat (object_face_amount e) <= 21845
                       /\ ((S k < length new)%nat ->
                           Z.of_nat (object_face_amount e) = 21845)).
        { rewrite Hf, length_split_slice. nia. }
        split; [exact Hn |]. split; [exact Hf |].
        split; [apply Hlen |]. split; [apply Hlen |]. split; [lia |].
        exists s. done. }
    split; [lia |].
    intros H46. unfold maximum_split_amount_of in Hm. rewrite H46 in Hm.
    change ((21846 * 3 + 65534) / 65535) with 2 in Hm.
    destruct new as [| e0 [| e1 [| e2 rest]]]; cbn in Hm; try lia.
    destruct (Hk 0%nat e0 eq_refl) as (_ & H0 & _).
    destruct (Hk 1%nat e1 eq_refl) as (_ & H1 & _).
    cbn [map]. rewrite H0, H1. reflexivity.
Qed.

End ExportGroupTheorem.

(** ** Ticks and frames of the animations *)

Section TickFacts.

Import Ani.

Lemma frame_of_tick_of_frame (n : Z) :
  (frame_of_tick (tick_of_frame n) == inject_Z n)%Q.
Proof.
  unfold frame_of_tick, tick_of_frame, FRAME_SCALE, Qeq. cbn. lia.
Qed.

(** The calls of a list of keyframes written as pairs: keyframe [k] is
    pair [k]. *)
Lemma concat_imap_pairs {A B} (l : list A) :
  forall (g h : nat -> A -> B) (k : nat) (v : A),
    l !! k = Some v ->
    concat (imap (fun i x => [g i x; h i x]) l) !! (2 * k)%nat = Some (g k v)
    /\ concat (imap (fun i x => [g i x; h i x]) l) !! (2 * k + 1)%nat
       = Some (h k v).
Proof.
  induction l as [| x l IH]; intros g h k v Hk; [discriminate |].
  destruct k as [| k].
  - injection Hk as ->. split; reflexivity.
  - cbn in Hk.
    destruct (IH (fun i => g (S i)) (fun i => h (S i)) k v Hk) as [H1 H2].
    replace (2 * S k)%nat with (S (S (2 * k))) by lia.
    replace (S (S (2 * k)) + 1)%nat with (S (S (2 * k + 1))) by lia.
    split; [exact H1 | exact H2].
Qed.

Lemma track_ops_lookup {A} (write_value : A -> WriteOp) (count : Z)
    (keyframes : list A) (k : nat) (v : A) :
  keyframes !! k = Some v ->
  track_ops write_value count (Some keyframes) !! (1 + 2 * k)%nat
  = Some (write_value v)
  /\ track_ops write_value count (Some keyframes) !! (2 + 2 * k)%nat
     = Some (write_uint (tick_of_frame (Z.of_nat k))).
Proof.
  intros Hk. unfold track_ops.
  destruct (concat_imap_pairs keyframes
              (fun _ value => write_value value)
              (fun frame_number _ =>
                 write_uint (tick_of_frame (Z.of_nat frame_number)))
              k v Hk) as [H1 H2].
  split; [exact H1 |].
  replace (2 + 2 * k)%nat with (S (2 * k + 1)) by lia. exact H2.
Qed.

Lemma frames_from_lookup (first : Z) (action : Action) (k : nat) (frame : Z) :
  frames_from first action !! k = Some frame -> frame = first + Z.of_nat k.
Proof.
  unfold frames_from. rewrite list_lookup_fmap.
  destruct (seq 0 _ !! k) as [j |] eqn:E; [| discriminate].
  apply lookup_seq in E as [-> _]. cbn. congruence.
Qed.

(** The frames of the keyframes a loop over a track inserts are the ticks
    of the track divided by 160. *)
Lemma fold_insert_frames {A} (f : Q * list Keyframe -> A * Z -> Q * list Keyframe)
    (l : list (A * Z)) :
  (forall st p,
      map kf_frame (snd (f st p))
      = map kf_frame (snd st) ++ [frame_of_tick (snd p)]) ->
  forall st,
    map kf_frame (snd (fold_left f l st))
    = map kf_frame (snd st) ++ map (fun p => frame_of_tick (snd p)) l.
Proof.
  intros Hf. induction l as [| p l IH]; intros st; cbn.
  - by rewrite app_nil_r.
  - rewrite IH, Hf, <- app_assoc. reflexivity.
Qed.

Lemma import_object_tracks_frames (object : string) (t : AniTarget)
    (st : Q * list Keyframe) :
  map kf_frame (snd (import_object_tracks object t st))
  = map kf_frame (snd st)
    ++ map (fun p => frame_of_tick (snd p)) (rotation_frames t)
    ++ map (fun p => frame_of_tick (snd p)) (position_frames t)
    ++ map (fun p => frame_of_tick (snd p)) (scale_frames t).
Proof.
  unfold import_object_tracks.
  rewrite !fold_insert_frames, <- !app_assoc; [reflexivity | ..];
    intros st' [v tick]; cbn; by rewrite map_app.
Qed.

End TickFacts.

(** ** What the ANI export writes *)

Section AniExportFacts.

Import Ani.

Variable get_world_rotation : Quaternion -> Quaternion -> Quaternion.
Variable get_world_position : Vector3 -> Quaternion -> Vector3 -> Vector3.
Variable matrix_basis : Action -> string -> Z -> Quaternion * Vector3 * Vector3.
Variable pose_bone :
  Action -> string -> string -> Z -> Quaternion * Vector3 * Vector3.

(** Every target of the export is built by [add_object_animation_data]
    from the frame range of the action. *)
Lemma object_targets_shape action object t :
  t ∈ object_targets matrix_basis action object ->
  exists name,
    t = add_object_animation_data name
          (int_of_float (snd (action_frame_range action)))
          (int_of_float (snd (action_frame_range action)) + 1)
          (map (fun s => flip_w (fst (fst s)))
               (map (matrix_basis action (so_name object))
                    (frames_from 0 action)))
          (map (fun s => snd (fst s))
               (map (matrix_basis action (so_name object))
                    (frames_from 0 action)))
          (map snd
               (map (matrix_basis action (so_name object))
                    (frames_from 0 action))).
Proof.
  unfold object_targets. destruct (so_type object).
  - intros Ht. apply list_elem_of_In, in_flat_map in Ht as (mat_idx & _ & Ht).
    apply list_elem_of_In, list_elem_of_fmap in Ht as (name & -> & _).
    by exists name.
  - intros Ht. apply list_elem_of_singleton in Ht as ->. by eexists.
  - intros Ht. by apply elem_of_nil in Ht.
  - intros Ht. by apply elem_of_nil in Ht.
Qed.

Lemma export_targets_shape action action_objects targets t :
  export_targets get_world_rotation get_world_position matrix_basis pose_bone
    action action_objects = Some targets ->
  t ∈ targets ->
  exists name rotations positions scales,
    t = add_object_animation_data name
          (int_of_float (snd (action_frame_range action)))
          (int_of_float (snd (action_frame_range action)) + 1)
          rotations positions scales.
Proof.
  unfold export_targets.
  destruct (mapM _ action_objects) as [tss |] eqn:Hm; cbn; [| discriminate].
  intros [= <-] Ht. apply mapM_Some in Hm.
  apply list_elem_of_In, in_concat in Ht as (ts & Hts & Ht).
  apply list_elem_of_In in Ht.
  apply list_elem_of_In, list_elem_of_lookup in Hts as [i Hi].
  destruct (Forall2_lookup_r _ _ _ _ _ Hm Hi) as (object & _ & Ho).
  unfold targets_of in Ho. destruct (so_type object) eqn:Ety.
  1, 2, 4: injection Ho as <-;
    apply object_targets_shape in Ht as [name ->]; by eexists _, _, _, _.
  destruct (so_skeleton object) as [bones |]; cbn in Ho; [| discriminate].
  injection Ho as <-. apply list_elem_of_fmap in Ht as (b & -> & _).
  unfold bone_target. by eexists _, _, _, _.
Qed.

End AniExportFacts.

(** ** What the ANI import keeps of a file *)

Section AniImportFacts.

Import Ani.

Variable get_local_rotation : Quaternion -> Quaternion -> Quaternion.
Variable get_local_position : Vector3 -> Quaternion -> Vector3 -> Vector3.

(** [h] changes nothing of a target but the declared spans and the unknown
    track. *)
Variable h : AniTarget -> AniTarget.
Hypothesis h_name : forall t, animated_object_name (h t) = animated_object_name t.
Hypothesis h_rotation : forall t, rotation_frames (h t) = rotation_frames t.
Hypothesis h_position : forall t, position_frames (h t) = position_frames t.
Hypothesis h_scale : forall t, scale_frames (h t) = scale_frames t.

Lemma import_object_tracks_ext object t st :
  import_object_tracks object (h t) st = import_object_tracks object t st.
Proof.
  unfold import_object_tracks.
  by rewrite h_rotation, h_position, h_scale.
Qed.

Lemma import_bone_tracks_ext armature b t st :
  import_bone_tracks get_local_rotation get_local_position armature b (h t) st
  = import_bone_tracks get_local_rotation get_local_position armature b t st.
Proof.
  unfold import_bone_tracks.
  by rewrite h_rotation, h_position, h_scale.
Qed.

Lemma found_objects_of_ext objects_collection target_bones file :
  found_objects_of objects_collection target_bones (map h file)
  = map (fun p => (fst p, h (snd p)))
        (found_objects_of objects_collection target_bones file).
Proof.
  unfold found_objects_of. induction file as [| t file IH]; [done |].
  cbn. rewrite h_name, IH.
  by destruct (resolve _ _ (animated_object_name t)).
Qed.

Lemma found_bones_of_ext objects_collection target_bones file :
  found_bones_of objects_collection target_bones (map h file)
  = map (fun p => (fst p, h (snd p)))
        (found_bones_of objects_collection target_bones file).
Proof.
  unfold found_bones_of. induction file as [| t file IH]; [done |].
  cbn. rewrite h_name, IH.
  by destruct (resolve _ _ (animated_object_name t)).
Qed.

Lemma fold_object_tracks_ext (l : list (string * AniTarget)) :
  forall st,
    fold_left (fun st '(obj, t) => import_object_tracks obj t st)
              (map (fun p => (fst p, h (snd p))) l) st
    = fold_left (fun st '(obj, t) => import_object_tracks obj t st) l st.
Proof.
  induction l as [| [obj t] l IH]; intros st; [done |].
  cbn. by rewrite import_object_tracks_ext, IH.
Qed.

Lemma import_bones_ext armature bones (l : list (string * AniTarget)) :
  forall st,
    import_bones get_local_rotation get_local_position armature bones
      (map (fun p => (fst p, h (snd p))) l) st
    = import_bones get_local_rotation get_local_position armature bones l st.
Proof.
  induction l as [| [name t] l IH]; intros st; [done |].
  cbn. destruct (find _ bones) as [b |]; cbn; [| done].
  by rewrite import_bone_tracks_ext, IH.
Qed.

(** The action an import creates depends on the names and on the rotation,
    position and scale tracks of the targets, and on nothing else of them. *)
Lemma import_animation_ext ignore_not_found animation_name objects_collection
    file :
  import_animation get_local_rotation get_local_position ignore_not_found
    animation_name objects_collection (map h file)
  = import_animation get_local_rotation get_local_position ignore_not_found
      animation_name objects_collection file.
Proof.
  unfold import_animation.
  destruct objects_collection as [objects_collection |]; [| done].
  destruct (_ <? _)%nat; [done |].
  destruct (match head _ with Some a => _ | None => _ end)
    as [skeleton_data |]; [| done].
  rewrite found_objects_of_ext, found_bones_of_ext, map_map.
  rewrite (map_ext (fun t => resolve objects_collection skeleton_data
                               (animated_object_name (h t)))
             (fun t => resolve objects_collection skeleton_data
                         (animated_object_name t)))
    by (intros t; by rewrite h_name).
  destruct (negb ignore_not_found && _); [done |].
  destruct file as [| t0 file]; [done |]. cbn [map].
  rewrite fold_object_tracks_ext, map_map. cbn [fst].
  set (found_bones := found_bones_of objects_collection skeleton_data (t0 :: file)).
  assert (Hslots :
            map (fun x : string * AniTarget => let '(obj, _) := (x.1, h x.2) in "OB" +:+ obj)
                (found_objects_of objects_collection skeleton_data (t0 :: file))
            = map (fun '(obj, _) => "OB" +:+ obj)
                  (found_objects_of objects_collection skeleton_data (t0 :: file))).
  { apply map_ext. by intros [obj t]. }
  rewrite Hslots.
  destruct (head _) as [a |]; [| done].
  destruct skeleton_data as [bones |].
  - destruct found_bones as [| fb found_bones'] eqn:Efb; [done |].
    change ((fb.1, h fb.2) :: map (fun p => (p.1, h p.2)) found_bones')
      with (map (fun p : string * AniTarget => (p.1, h p.2)) (fb :: found_bones')).
    rewrite import_bones_ext. reflexivity.
  - by destruct found_bones.
Qed.

End AniImportFacts.

Section TickTheorem.

Import Ani.

Variable matrix_basis : Action -> string -> Z -> Quaternion * Vector3 * Vector3.

Lemma target_ops_rotation_lookup (t : ExportTarget) (l : list Quaternion)
    (k : nat) (q : Quaternion) :
  export_rotation_keyframes t = Some l ->
  l !! k = Some q ->
  target_ops t !! (5 + 2 * k)%nat = Some (write_converted_quaternion q)
  /\ target_ops t !! (6 + 2 * k)%nat
     = Some (write_uint (tick_of_frame (Z.of_nat k))).
Proof.
  intros Hl Hk. unfold target_ops. rewrite Hl.
  destruct (track_ops_lookup write_converted_quaternion
              (export_rotation_keyframe_count t) l k q Hk) as [H1 H2].
  split.
  - rewrite lookup_app_r by (cbn; lia).
    replace (5 + 2 * k - length _)%nat with (1 + 2 * k)%nat by (cbn; lia).
    by apply lookup_app_l_Some.
  - rewrite lookup_app_r by (cbn; lia).
    replace (6 + 2 * k - length _)%nat with (2 + 2 * k)%nat by (cbn; lia).
    by apply lookup_app_l_Some.
Qed.

(** C8.  The export writes keyframe number [k] of every track with the tick
    [k * 160], and for an object keyframe number [k] is the pose sampled at
    frame [k], so the pose of frame [n] is stored with tick [n * 160]; frame
    5 has tick 800.  The import inserts the keyframe of a stored tick [t]
    at frame [t / 160]; tick 800 gives frame 5, and a frame encoded as a tick
    and decoded is the same frame. *)
Theorem tick_is_frame_times_160 :
  (forall {A} (write_value : A -> WriteOp) count keyframes k v,
      keyframes !! k = Some v ->
      track_ops write_value count (Some keyframes) !! (1 + 2 * k)%nat
      = Some (write_value v)
      /\ track_ops write_value count (Some keyframes) !! (2 + 2 * k)%nat
         = Some (write_uint (Z.of_nat k * 160)))
  /\ (forall action object t k frame,
         t ∈ object_targets matrix_basis action object ->
         frames_from 0 action !! k = Some frame ->
         frame = Z.of_nat k
         /\ target_ops t !! (5 + 2 * k)%nat
            = Some (write_converted_quaternion
                      (flip_w (matrix_basis action (so_name object) frame).1.1))
         /\ target_ops t !! (6 + 2 * k)%nat = Some (write_uint (frame * 160)))
  /\ tick_of_frame 5 = 800
  /\ (forall object t st,
         map kf_frame (snd (import_object_tracks object t st))
         = map kf_frame (snd st)
           ++ map (fun p => frame_of_tick (snd p)) (rotation_frames t)
           ++ map (fun p => frame_of_tick (snd p)) (position_frames t)
           ++ map (fun p => frame_of_tick (snd p)) (scale_frames t))
  /\ (frame_of_tick 800 == 5)%Q
  /\ (forall n, (frame_of_tick (tick_of_frame n) == inject_Z n)%Q).
Proof.
  split; [intros A w count keyframes k v Hk; by apply track_ops_lookup |].
  split.
  { intros action object t k frame Ht Hk.
    pose proof (frames_from_lookup 0 action k frame Hk) as Hf.
    rewrite Z.add_0_l in Hf. split; [exact Hf |].
    apply object_targets_shape in Ht as [name ->].
    replace (frame * 160) with (tick_of_frame (Z.of_nat k))
      by (unfold tick_of_frame, FRAME_SCALE; lia).
    eapply target_ops_rotation_lookup; [reflexivity |].
    rewrite !list_lookup_fmap, Hk. reflexivity. }
  split; [reflexivity |].
  split; [apply import_object_tracks_frames |].
  split; [reflexivity |].
  apply frame_of_tick_of_frame.
Qed.

End TickTheorem.

(** ** A write that fails *)

Section FailureFacts.

Variable ok : WriteOp -> bool.

(** The content a run of writes leaves is what the file held, then the
    calls made before the first one that is refused. *)
Lemma run_prefix (ops : list WriteOp) :
  forall written,
    exists done rest,
      fst (Serializer.run ok ops written) = written ++ done
      /\ ops = done ++ rest
      /\ Forall (fun op => ok op = true) done
      /\ (snd (Serializer.run ok ops written) = true -> rest = [])
      /\ (snd (Serializer.run ok ops written) = false ->
          exists op rest', rest = op :: rest' /\ ok op = false).
Proof.
  induction ops as [| op ops IH]; intros written.
  - exists [], []. cbn. rewrite app_nil_r. repeat split; try done.
  - cbn. destruct (ok op) eqn:E.
    + destruct (IH (written ++ [op])) as (done & rest & H1 & H2 & H3 & H4 & H5).
      exists (op :: done), rest. rewrite H1, <- app_assoc. cbn.
      repeat split; try done.
      * by rewrite H2.
      * by constructor.
    + exists [], (op :: ops). cbn. rewrite app_nil_r.
      repeat split; try done. intros _. by exists op, ops.
Qed.

(** MSH: when a write is refused the file is not on the disk afterwards,
    whether it was there before or not, and the files of the other
    collections are exported as if nothing had happened. *)
Lemma export_mesh_removes_partial_file INVALID_NAME relative_to objects
    export_file_path mesh_export_format disk entries :
  MshExport.export_objects INVALID_NAME relative_to mesh_export_format
    objects [] = Some entries ->
  snd (Serializer.run ok
         (MshExport.file_ops INVALID_NAME mesh_export_format entries) [])
  = false ->
  MshExport.export_mesh INVALID_NAME relative_to ok objects export_file_path
    mesh_export_format disk !! export_file_path = None
  /\ forall other,
       other <> export_file_path ->
       MshExport.export_mesh INVALID_NAME relative_to ok objects
         export_file_path mesh_export_format disk !! other = disk !! other.
Proof.
  intros He Hr. unfold MshExport.export_mesh. rewrite He.
  destruct (Serializer.run ok _ []) as [content finished]. cbn in Hr. subst.
  split; [apply lookup_delete_eq |].
  intros other Hne. by apply lookup_delete_ne.
Qed.

(** ANI: when a write is refused the file stays on the disk with the calls
    made before, and the call does not return. *)
Lemma export_action_keeps_partial_file get_world_rotation get_world_position
    matrix_basis pose_bone filepath_of action action_objects directory disk
    targets :
  Ani.export_targets get_world_rotation get_world_position matrix_basis
    pose_bone action action_objects = Some targets ->
  snd (Serializer.run ok (Ani.file_ops targets) []) = false ->
  let after :=
    Ani.export_action get_world_rotation get_world_position matrix_basis
      pose_bone filepath_of ok action action_objects directory disk in
  snd after = false
  /\ fst after !! filepath_of directory (Ani.action_name action)
     = Some (fst (Serializer.run ok (Ani.file_ops targets) [])).
Proof.
  intros Ht Hr. unfold Ani.export_action. rewrite Ht.
  destruct (Serializer.run ok _ []) as [content finished]. cbn in Hr. subst.
  cbn. split; [done | apply lookup_insert_eq].
Qed.

End FailureFacts.

Section FailureSamples.

Import Samples.

(** The MSH export of two collections, the first with an object whose name
    does not fit its field: the file of the first is removed, the second is
    written. *)
Example export_meshes_removes_and_continues :
  let disk :=
    MshExport.export_meshes no_name same_matrix accepts MshExport.STANDARD
      [([empty_named long_name], "a.msh"); ([empty_named "Ok"], "b.msh")]
      {[ "a.msh" := [write_ushort 0] ]} in
  disk !! "a.msh" = None /\ is_Some (disk !! "b.msh").
Proof. vm_compute. split; [reflexivity | by eexists]. Qed.

(** C4, at an input where the code departs from it: the ANI export of the
    two actions of a scene with one empty object, "Attack" and "Idle", taken
    in the order of their names as [bpy.data.actions] gives them, the first
    being 410 frames long.  Its second span field, 410 * 160 = 65600, is not
    a uint16: the write is refused after the target count, the name and the
    first span field have been written.  The file of the first action stays
    on the disk with these three fields, the exception leaves the operator,
    and the second action is not exported. *)
Theorem export_actions_leaves_truncated_file :
  String.compare (Ani.action_name attack) (Ani.action_name idle) = Lt
  /\ Ani.export_actions keep_rotation keep_position still still_bone ani_path
       accepts [cube] [attack; idle] "out" ∅
     = ({[ "out/Attack.ANI" :=
             [ write_ushort 1; write_fixed_string 100 "euc-kr" "Cube";
               write_ushort 410 ] ]},
        false).
Proof. split; vm_compute; reflexivity. Qed.

End FailureSamples.

(** ** The fields of an ANI target that are not kept *)

Section AniOpaqueFields.

Import Ani Samples.

(** The unknown track of a file does not come back when the file is
    imported and the action exported: for the sample target, with two
    unknown keyframes, no unknown keyframe is written. *)
Lemma unknown_track_not_written_back :
  exists t,
    import_then_export keep_rotation keep_position keep_rotation
      keep_position still still_bone false "Walk" [cube] [cube_target]
    = Some [t]
    /\ export_object_name t = animated_object_name cube_target
    /\ export_unknown_keyframe_count t = 0
    /\ written_unknown_track t = []
    /\ written_unknown_track t <> unknown_frames cube_target.
Proof.
  eexists. split; [vm_compute; reflexivity |].
  repeat split. discriminate.
Qed.

(** C5, as the code has it.  The import reads the unknown track of a target
    and keeps nothing of it: the action created is the same whatever the
    unknown tracks of the file hold.  The export writes, for every target,
    an unknown track of 0 keyframes. *)
Theorem unknown_track_is_dropped :
  (forall get_local_rotation get_local_position ignore_not_found
          animation_name objects_collection
          (unknown : AniTarget -> list (Q * Z)) file,
      import_animation get_local_rotation get_local_position ignore_not_found
        animation_name objects_collection
        (map (fun t => with_unknown_frames (unknown t) t) file)
      = import_animation get_local_rotation get_local_position
          ignore_not_found animation_name objects_collection file)
  /\ (forall get_world_rotation get_world_position matrix_basis pose_bone
             action action_objects,
         match
           export_targets get_world_rotation get_world_position matrix_basis
             pose_bone action action_objects
         with
         | Some targets =>
             Forall (fun t =>
                       export_unknown_keyframe_count t = 0
                       /\ written_unknown_track t = []
                       /\ track_ops write_float
                            (export_unknown_keyframe_count t)
                            (export_unknown_keyframes t)
                          = [write_ushort 0])
                    targets
         | None => True
         end).
Proof.
  split.
  - intros. by apply import_animation_ext.
  - intros gwr gwp mb pb action action_objects.
    destruct (export_targets _ _ _ _ action action_objects)
      as [targets |] eqn:E; [| done].
    apply Forall_forall. intros t Ht.
    destruct (export_targets_shape _ _ _ _ _ _ _ t E Ht)
      as (name & rs & ps & ss & ->).
    done.
Qed.

(** The declared frame span of a file does not come back either: the sample
    target declares 100 and 16000, its last keyframe is at tick 800, and
    the export writes 5 and 800. *)
Lemma frame_span_not_written_back :
  exists t,
    import_then_export keep_rotation keep_position keep_rotation
      keep_position still still_bone false "Walk" [cube] [cube_target]
    = Some [t]
    /\ export_object_name t = animated_object_name cube_target
    /\ export_unique_keyframe_count t = 5
    /\ export_maximum_frames t = 800
    /\ export_unique_keyframe_count t <> frame_amount cube_target
    /\ export_maximum_frames t <> frame_counts cube_target.
Proof.
  eexists. split; [vm_compute; reflexivity |].
  repeat split; discriminate.
Qed.

(** C6, as the code has it.  The import reads the two span fields of a
    target and keeps nothing of them: the action created is the same
    whatever they hold.  The export writes, for every target, the last frame
    of the action as the first field and 160 times that as the second. *)
Theorem frame_span_is_recomputed :
  (forall get_local_rotation get_local_position ignore_not_found
          animation_name objects_collection (amount counts : AniTarget -> Z)
          file,
      import_animation get_local_rotation get_local_position ignore_not_found
        animation_name objects_collection
        (map (fun t => with_frame_span (amount t) (counts t) t) file)
      = import_animation get_local_rotation get_local_position
          ignore_not_found animation_name objects_collection file)
  /\ (forall get_world_rotation get_world_position matrix_basis pose_bone
             action action_objects,
         match
           export_targets get_world_rotation get_world_position matrix_basis
             pose_bone action action_objects
         with
         | Some targets =>
             Forall (fun t =>
                       let last_frame := snd (action_frame_range action) in
                       target_ops t !! 1%nat
                       = Some (write_ushort (int_of_float last_frame))
                       /\ target_ops t !! 2%nat
                          = Some (write_ushort
                                    (int_of_float last_frame * 160)))
                    targets
         | None => True
         end).
Proof.
  split.
  - intros. by apply import_animation_ext.
  - intros gwr gwp mb pb action action_objects.
    destruct (export_targets _ _ _ _ action action_objects)
      as [targets |] eqn:E; [| done].
    apply Forall_forall. intros t Ht.
    destruct (export_targets_shape _ _ _ _ _ _ _ t E Ht)
      as (name & rs & ps & ss & ->).
    done.
Qed.

End AniOpaqueFields.

(** ** The fields of an MSH object that are not kept *)

Section MshReservedFields.

Import MshImport MshExport Samples.

(** The fields of unknown meaning of an object record do not come back
    when the file is imported and exported: the sample record holds the
    flags 7 and 9, and the export writes 1 and 256 in their place. *)
Lemma reserved_flags_not_written_back :
  exists e,
    MshRoundTrip.import_then_export no_name same_matrix no_groups identity_of
      bone_identity_of STANDARD [] None true [flagged_record] = Some [e]
    /\ rec_unknown_flags_1 flagged_record = (7, 9)
    /\ object_ops no_name STANDARD e !! 11%nat = Some (write_uint 1)
    /\ object_ops no_name STANDARD e !! 12%nat = Some (write_uint 256)
    /\ object_ops no_name STANDARD e !! 11%nat
       <> Some (write_uint (fst (rec_unknown_flags_1 flagged_record)))
    /\ object_ops no_name STANDARD e !! 12%nat
       <> Some (write_uint (snd (rec_unknown_flags_1 flagged_record))).
Proof.
  eexists. split; [vm_compute; reflexivity |].
  repeat split; discriminate.
Qed.

(** C7, as the code has it.  The import reads the fields of unknown meaning
    of an object record and keeps nothing of them: the object created is
    the same whatever they hold.  The export writes for every object, after
    its two paths, 36 zero bytes, the integers 1, 256 and 1, and 47 zero
    bytes. *)
Theorem reserved_fields_are_constants :
  (forall INVALID_NAME target_armature preserve float3_1 flags_1 float3_2
          float_1 reserved r,
      import_object INVALID_NAME target_armature preserve
        (with_reserved float3_1 flags_1 float3_2 float_1 reserved r)
      = import_object INVALID_NAME target_armature preserve r)
  /\ (forall INVALID_NAME mesh_export_format entries e,
         e ∈ entries ->
         exists before after,
           file_ops INVALID_NAME mesh_export_format entries
           = before
             ++ header_ops INVALID_NAME e
             ++ [ file_write_zeros 36; write_uint 1; write_uint 256;
                  write_uint 1; file_write_zeros 47 ]
             ++ geometry_ops INVALID_NAME mesh_export_format e
             ++ after).
Proof.
  split; [reflexivity |].
  intros INVALID_NAME mesh_export_format entries e He.
  destruct (object_ops_in_file_ops INVALID_NAME mesh_export_format entries e He)
    as (before & after & ->).
  exists before, after. unfold object_ops, reserved_ops.
  by rewrite <- !app_assoc.
Qed.

End MshReservedFields.

(** ** The theorems at the sample inputs *)

Section AtSamples.

Import Samples.

(** A group of 21846 triangles is exported as two objects, [Foo] and
    [Foo_1]. *)
Lemma export_group_splits_witness :
  MshExport.well_formed large_group
  /\ exists new,
       MshExport.export_group MshExport.STANDARD "Foo" no_name
         MshExport.Identity4 MshExport.Identity4 large_group []
       = Some new
       /\ map MshExport.object_name new = ["Foo"; "Foo_1"].
Proof.
  assert (Hwf : MshExport.well_formed large_group).
  { unfold MshExport.well_formed, large_group.
    cbn [MshExport.group_exporter MshExport.group_exporter_polygons].
    apply Forall_replicate. cbn. lia. }
  split; [exact Hwf |].
  destruct (export_group_splits MshExport.STANDARD "Foo" no_name
              MshExport.Identity4 MshExport.Identity4 large_group [] Hwf)
    as (new & E & _ & _ & _ & H46).
  exists new. split; [exact E |].
  apply H46. unfold large_group.
  cbn [MshExport.group_exporter_polygons].
  rewrite length_replicate. apply Z2Nat.id. lia.
Defined.

(** A triangle whose three corners refer to one base vertex with three
    UVs is imported as three vertices at the position of the base vertex,
    each with its UV. *)
Lemma legacy_import_unwelds_witness :
  Forall (fun r => MshImport.triangle_ok
                     (map fst (MshImport.lg_base_vertices one_vertex_triangle))
                     ∅ (MshImport.tri_indices r))
         (MshImport.lg_triangles one_vertex_triangle)
  /\ exists g,
       MshImport.read_legacy no_name 0 one_vertex_triangle = Some g
       /\ MshImport.vertices g = [(1, 2, 3); (1, 2, 3); (1, 2, 3)]%Q
       /\ MshImport.uvs g = [(0, 0); (1, 0); (0, 1)]%Q
       /\ MshImport.triangles g = [(0, 1, 2)%nat].
Proof.
  assert (Hok : Forall
                  (fun r => MshImport.triangle_ok
                              (map fst (MshImport.lg_base_vertices
                                          one_vertex_triangle))
                              ∅ (MshImport.tri_indices r))
                  (MshImport.lg_triangles one_vertex_triangle)).
  { repeat constructor; cbn; lia. }
  split; [exact Hok |].
  destruct (legacy_import_unwelds no_name 0 one_vertex_triangle ∅ eq_refl Hok)
    as (g & E & _).
  exists g. split; [exact E |].
  vm_compute in E. injection E as <-. repeat split; reflexivity.
Defined.

(** A weighted record that names the parent [Bip01] gives an object
    without parent. *)
Lemma weighted_object_is_unparented_witness :
  MshImport.rec_weight_amount weighted_record <> 0
  /\ MshImport.rec_parent_name weighted_record = "Bip01"
  /\ exists result o,
       MshImport.import_msh no_name ["Bip01"] None true [weighted_record]
       = Some result
       /\ result !! 0%nat = Some (o, MshImport.Unparented).
Proof.
  split; [discriminate |]. split; [reflexivity |].
  destruct (MshImport.import_msh no_name ["Bip01"] None true [weighted_record])
    as [result |] eqn:E; [| vm_compute in E; discriminate].
  destruct (weighted_object_is_unparented no_name ["Bip01"] None true
              [weighted_record] result 0%nat weighted_record E eq_refl
              ltac:(discriminate))
    as (_ & o & _ & Hr).
  by exists result, o.
Defined.

(** An object parented to a bone is written with a weight count of 0 and
    with the bone indices (-1, -1, -1, 0), although its entry holds a weight
    amount of 1 and the bone indices (0, -1, -1, -1). *)
Lemma parented_object_written_without_weights_witness :
  parented_entry ∈ [parented_entry]
  /\ MshExport.object_parent_name parented_entry <> no_name
  /\ MshExport.object_ops no_name MshExport.MESH08 parented_entry !! 7%nat
     = Some (write_ushort 0)
  /\ MshExport.geometry_ops no_name MshExport.MESH08 parented_entry !! 3%nat
     = Some (write_values_i "4h" [-1; -1; -1; 0]).
Proof.
  assert (Hin : parented_entry ∈ [parented_entry]) by apply list_elem_of_here.
  assert (Hp : MshExport.object_parent_name parented_entry <> no_name)
    by discriminate.
  split; [exact Hin |]. split; [exact Hp |].
  destruct (parented_object_written_without_weights no_name MshExport.MESH08
              [parented_entry] parented_entry Hin Hp)
    as (_ & -> & ->).
  split; reflexivity.
Defined.

(** The second of two unknown keyframes would be written with tick 160. *)
Lemma tick_is_frame_times_160_witness :
  [(1 # 2)%Q; (1 # 4)%Q] !! 1%nat = Some (1 # 4)%Q
  /\ Ani.track_ops write_float 2 (Some [(1 # 2)%Q; (1 # 4)%Q]) !! 3%nat
     = Some (write_float (1 # 4))
  /\ Ani.track_ops write_float 2 (Some [(1 # 2)%Q; (1 # 4)%Q]) !! 4%nat
     = Some (write_uint 160).
Proof.
  split; [reflexivity |].
  exact (proj1 (tick_is_frame_times_160 still) Q write_float 2
           [(1 # 2)%Q; (1 # 4)%Q] 1%nat (1 # 4)%Q eq_refl).
Defined.

End AtSamples.

(** ** A failed MSH export *)

Section Further.

Import Samples.

(** A failed MSH export leaves no file.  When the objects of a file were
    collected and one of the writes is refused, the file is not on the disk
    after [__export_mesh], whether a file was there before or not, and every
    other file of the disk is as it was; the loop over the collections then
    goes on with the next file. *)
Theorem msh_export_failure_removes_file (ok : WriteOp -> bool)
    INVALID_NAME relative_to objects export_file_path mesh_export_format disk
    entries :
  MshExport.export_objects INVALID_NAME relative_to mesh_export_format
    objects [] = Some entries ->
  snd (Serializer.run ok
         (MshExport.file_ops INVALID_NAME mesh_export_format entries) [])
  = false ->
  MshExport.export_mesh INVALID_NAME relative_to ok objects export_file_path
    mesh_export_format disk !! export_file_path = None
  /\ (forall other,
         other <> export_file_path ->
         MshExport.export_mesh INVALID_NAME relative_to ok objects
           export_file_path mesh_export_format disk !! other = disk !! other)
  /\ (forall rest,
         MshExport.export_meshes INVALID_NAME relative_to ok
           mesh_export_format ((objects, export_file_path) :: rest) disk
         = MshExport.export_meshes INVALID_NAME relative_to ok
             mesh_export_format rest
             (MshExport.export_mesh INVALID_NAME relative_to ok objects
                export_file_path mesh_export_format disk)).
Proof.
  intros He Hr.
  destruct (export_mesh_removes_partial_file ok INVALID_NAME relative_to
              objects export_file_path mesh_export_format disk entries He Hr)
    as [H1 H2].
  split; [exact H1 |]. split; [exact H2 | reflexivity].
Qed.

(** The export of an object whose name takes 100 bytes, to a path where a
    file exists: the file is gone afterwards. *)
Lemma msh_export_failure_removes_file_witness :
  exists entries,
    MshExport.export_objects no_name same_matrix MshExport.STANDARD
      [empty_named long_name] [] = Some entries
    /\ snd (Serializer.run accepts
              (MshExport.file_ops no_name MshExport.STANDARD entries) [])
       = false
    /\ MshExport.export_mesh no_name same_matrix accepts
         [empty_named long_name] "a.msh" MshExport.STANDARD
         {[ "a.msh" := [write_ushort 0] ]} !! "a.msh" = None.
Proof.
  destruct (MshExport.export_objects no_name same_matrix MshExport.STANDARD
              [empty_named long_name] []) as [entries |] eqn:He;
    [| vm_compute in He; discriminate].
  assert (Hr : snd (Serializer.run accepts
                      (MshExport.file_ops no_name MshExport.STANDARD entries)
                      []) = false).
  { vm_compute in He. injection He as <-. vm_compute. reflexivity. }
  exists entries. split; [reflexivity |]. split; [exact Hr |].
  exact (proj1 (msh_export_failure_removes_file accepts no_name same_matrix
                  [empty_named long_name] "a.msh" MshExport.STANDARD
                  {[ "a.msh" := [write_ushort 0] ]} entries He Hr)).
Defined.

End Further.

(** ** The bone names of a MESH08 object *)

Section BoneNameFacts.

Import MshImport.

Lemma add_unique_spec (names : list string) :
  forall acc,
    NoDup acc ->
    NoDup (add_unique acc names)
    /\ (forall x, x ∈ add_unique acc names <-> x ∈ acc \/ x ∈ names)
    /\ acc `prefix_of` add_unique acc names.
Proof.
  unfold add_unique.
  induction names as [| n names IH]; intros acc Hnd; cbn.
  - split; [done |]. split; [| done]. intros x. rewrite elem_of_nil. tauto.
  - case_bool_decide as Hin.
    + destruct (IH acc Hnd) as (H1 & H2 & H3).
      split; [done |]. split; [| done].
      intros x. rewrite H2, elem_of_cons. split; [tauto |].
      intros [? | [-> | ?]]; tauto.
    + destruct (IH (acc ++ [n])) as (H1 & H2 & H3).
      { apply NoDup_app. split; [done |]. split; [| apply NoDup_singleton].
        intros x Hx Hx'. apply list_elem_of_singleton in Hx'. by subst. }
      split; [done |]. split.
      * intros x. rewrite H2, elem_of_app, !elem_of_cons, elem_of_nil. tauto.
      * etransitivity; [| exact H3]. by apply prefix_app_r.
Qed.

Lemma add_unique_NoDup_fresh (names : list string) :
  forall acc,
    NoDup (acc ++ names) -> add_unique acc names = acc ++ names.
Proof.
  unfold add_unique.
  induction names as [| n names IH]; intros acc Hnd; cbn.
  - by rewrite app_nil_r.
  - pose proof Hnd as Hnd'.
    apply NoDup_app in Hnd as (Ha & Hdis & Hn).
    case_bool_decide as Hin.
    + exfalso. apply (Hdis n Hin). by left.
    + rewrite IH; [by rewrite <- app_assoc |].
      by rewrite <- app_assoc.
Qed.

Lemma unique_bone_names_of_snoc (groups : list (list string)) (g : list string) :
  unique_bone_names_of (groups ++ [g])
  = add_unique (unique_bone_names_of groups) g.
Proof. unfold unique_bone_names_of. by rewrite fold_left_app. Qed.

Lemma unique_bone_names_of_spec (groups : list (list string)) :
  NoDup (unique_bone_names_of groups)
  /\ (forall x, x ∈ unique_bone_names_of groups <-> exists g, g ∈ groups /\ x ∈ g).
Proof.
  induction groups as [| g groups IH] using rev_ind.
  - split; [constructor |]. intros x. cbn. rewrite elem_of_nil.
    split; [done |]. intros (g & Hg & _). by apply elem_of_nil in Hg.
  - destruct IH as [Hnd Hin]. rewrite unique_bone_names_of_snoc.
    destruct (add_unique_spec g _ Hnd) as (H1 & H2 & _).
    split; [done |]. intros x. rewrite H2, Hin. split.
    + intros [(g' & Hg' & Hx) | Hx].
      * exists g'. split; [| done]. apply elem_of_app. by left.
      * exists g. split; [| done]. apply elem_of_app. right. by left.
    + intros (g' & Hg' & Hx). apply elem_of_app in Hg' as [Hg' | Hg'].
      * left. by exists g'.
      * apply list_elem_of_singleton in Hg'. subst. by right.
Qed.

End BoneNameFacts.

Section BoneGroupFacts.

Import MshImport MshExport MshMesh.

Lemma bone_groups_recovered (n : nat) :
  forall (l acc : list string),
    (length l <= n)%nat ->
    NoDup (acc ++ l) ->
    fold_left add_unique (map bone_group_names (bone_groups n l)) acc
    = acc ++ l.
Proof.
  induction n as [| n IH]; intros l acc Hlen Hnd.
  - destruct l; [| cbn in Hlen; lia]. cbn. by rewrite app_nil_r.
  - destruct l as [| x l']; [cbn; by rewrite app_nil_r |].
    set (l := x :: l') in *.
    change (bone_groups (S n) l)
      with (mesh08_bone_group (length (take 4 l)) (take 4 l)
            :: bone_groups n (drop 4 l)).
    cbn [map fold_left bone_group_names].
    rewrite firstn_all.
    assert (Hsplit : acc ++ l = (acc ++ take 4 l) ++ drop 4 l).
    { by rewrite <- app_assoc, take_drop. }
    rewrite add_unique_NoDup_fresh.
    + rewrite IH; [by rewrite Hsplit | |].
      * rewrite length_drop. subst l. cbn [length] in *. lia.
      * by rewrite <- Hsplit.
    + rewrite Hsplit in Hnd. by apply NoDup_app in Hnd as (? & _ & _).
Qed.

Lemma bone_groups_shape (n : nat) :
  forall (l : list string),
    Forall (fun w => exists names,
              w = mesh08_bone_group (length names) names
              /\ (1 <= length names <= 4)%nat)
           (bone_groups n l).
Proof.
  induction n as [| n IH]; intros l; [constructor |].
  destruct l as [| x l']; [constructor |].
  set (l := x :: l') in *.
  change (bone_groups (S n) l)
    with (mesh08_bone_group (length (take 4 l)) (take 4 l)
          :: bone_groups n (drop 4 l)).
  constructor; [| apply IH].
  exists (take 4 l). split; [done |].
  rewrite length_take. subst l. cbn [length]. lia.
Qed.

Lemma bone_groups_concat (n : nat) :
  forall (l : list string),
    (length l <= n)%nat ->
    concat (map bone_group_names (bone_groups n l)) = l.
Proof.
  induction n as [| n IH]; intros l Hlen.
  - destruct l; [done | cbn in Hlen; lia].
  - destruct l as [| x l']; [done |].
    set (l := x :: l') in *.
    change (bone_groups (S n) l)
      with (mesh08_bone_group (length (take 4 l)) (take 4 l)
            :: bone_groups n (drop 4 l)).
    cbn [map concat bone_group_names].
    rewrite firstn_all, IH; [apply take_drop |].
    rewrite length_drop. subst l. cbn [length] in *. lia.
Qed.

End BoneGroupFacts.

Section Mesh08ReadFacts.

Import MshImport.

Lemma bone_names_of_is_Some (names : list string) (idx : list nat)
    (w : list Q) :
  length idx = length w ->
  is_Some (bone_names_of names idx w)
  <-> Forall (fun i => (i < length names)%nat) idx.
Proof.
  intros Hlen. unfold bone_names_of.
  rewrite mapM_is_Some, Forall_seq, Forall_lookup. split.
  - intros H k j Hk.
    assert (Hlt : (k < length w)%nat).
    { rewrite <- Hlen. by eapply lookup_lt_Some. }
    destruct (H k ltac:(lia)) as [y Hy]. cbn in Hy.
    rewrite Hk in Hy. cbn in Hy. by eapply lookup_lt_Some.
  - intros H k Hk. cbn.
    destruct (lookup_lt_is_Some_2 idx k ltac:(lia)) as [j Hj].
    rewrite Hj. cbn. apply lookup_lt_is_Some_2. by eapply H.
Qed.

Lemma bone_names_of_lookup (names : list string) (idx : list nat)
    (w : list Q) (ws : list string) :
  bone_names_of names idx w = Some ws ->
  length ws = length w
  /\ forall k j, (k < length w)%nat -> idx !! k = Some j ->
                 ws !! k = names !! j.
Proof.
  unfold bone_names_of. intros H. apply mapM_Some in H.
  pose proof (Forall2_length _ _ _ H) as Hl. rewrite length_seq in Hl.
  split; [done |]. intros k j Hk Hj.
  destruct (lookup_lt_is_Some_2 ws k ltac:(lia)) as [y Hy].
  pose proof (Forall2_lookup_lr _ _ _ k k y H) as Hf.
  rewrite lookup_seq in Hf. specialize (Hf ltac:(split; [done | lia]) Hy).
  cbn in Hf. rewrite Hj in Hf. cbn in Hf. by rewrite Hy.
Qed.

Lemma length_final_weights (l : list Q) :
  length l = 3%nat -> length (MshWeights.final_weights l) = 4%nat.
Proof.
  intros Hl. unfold MshWeights.final_weights. cbv zeta.
  destruct (Qlt_le_dec (sum l) _);
    destruct (Qlt_le_dec _ _); try reflexivity;
    rewrite ?length_app, ?length_replicate, ?length_app, Hl; reflexivity.
Qed.

End Mesh08ReadFacts.

Section Mesh08Theorems.

Import MshImport MshExport MshMesh.

Lemma fold_add_unique_prefix (more : list (list string)) :
  forall acc,
    NoDup acc ->
    acc `prefix_of` fold_left add_unique more acc.
Proof.
  induction more as [| g more IH]; intros acc Hnd; [done |].
  cbn. destruct (add_unique_spec g acc Hnd) as (H1 & _ & H3).
  etransitivity; [exact H3 | by apply IH].
Qed.

(** X3.  The MESH08 reader collects the bone names of the bone groups once
    each: no name is repeated in [unique_bone_names], a name is in it
    exactly when it is in some group, and reading further groups only
    appends, so that the position of a name already collected, which is
    what the bone indices of the vertices refer to, does not change. *)
Theorem unique_bone_names_once_each (groups more : list (list string)) :
  NoDup (unique_bone_names_of groups)
  /\ (forall x, x ∈ unique_bone_names_of groups
                <-> exists g, g ∈ groups /\ x ∈ g)
  /\ unique_bone_names_of groups
       `prefix_of` unique_bone_names_of (groups ++ more).
Proof.
  destruct (unique_bone_names_of_spec groups) as [Hnd Hin].
  split; [done |]. split; [done |].
  unfold unique_bone_names_of at 2. rewrite fold_left_app.
  by apply fold_add_unique_prefix.
Qed.

(** X4.  The MESH08 export cuts the list of the bones an object uses in
    groups of one to four names, each written with its own length, and the
    names of the groups in order are the list; when the list has no repeated
    name, the list of unique names that the reader collects from the groups
    is the same list. *)
Theorem bone_groups_round_trip (l : list string) (Hnd : NoDup l) :
  let groups := bone_groups (length l) l in
  Forall (fun w => exists names,
            w = mesh08_bone_group (length names) names
            /\ (1 <= length names <= 4)%nat) groups
  /\ concat (map bone_group_names groups) = l
  /\ unique_bone_names_of (map bone_group_names groups) = l.
Proof.
  cbv zeta. split; [apply bone_groups_shape |].
  split; [by apply bone_groups_concat |].
  unfold unique_bone_names_of.
  by rewrite (bone_groups_recovered (length l) l []).
Qed.

Lemma bone_groups_round_trip_witness :
  NoDup ["Bip01"; "Bip01 Spine"; "Bip01 Head"; "Bip01 L Hand"; "Bip01 R Hand"]
  /\ unique_bone_names_of
       (map bone_group_names
          (bone_groups 5
             ["Bip01"; "Bip01 Spine"; "Bip01 Head"; "Bip01 L Hand";
              "Bip01 R Hand"]))
     = ["Bip01"; "Bip01 Spine"; "Bip01 Head"; "Bip01 L Hand"; "Bip01 R Hand"].
Proof.
  assert (Hnd : NoDup ["Bip01"; "Bip01 Spine"; "Bip01 Head"; "Bip01 L Hand";
                       "Bip01 R Hand"]).
  { apply (bool_decide_unpack _). vm_compute. exact I. }
  split; [exact Hnd |].
  exact (proj2 (proj2 (bone_groups_round_trip _ Hnd))).
Defined.

(** X5.  MESH08 import of one object whose vertices carry three stored
    weights and four bone indices each.  Without weight data
    ([weight_amount <= 0]) the geometry is returned with no weights,
    whatever the bone indices are.  With weight data the reader returns
    exactly when every one of the four bone indices of every vertex is a
    position of [unique_bone_names] (otherwise line 615 raises an
    IndexError), and then every vertex has four weights and four bone
    names, the k-th name being the unique name at its k-th bone index. *)
Theorem read_mesh08_returns (weight_amount : Z) (b : Mesh08Block)
    (Hw : Forall (fun v => length (v_read_weights v) = 3%nat) (m8_vertices b))
    (Hi : Forall (fun v => length (v_bone_indices v) = 4%nat) (m8_vertices b)) :
  let names := unique_bone_names_of (m8_bone_groups b) in
  (weight_amount <= 0 ->
   exists g, read_mesh08 weight_amount b = Some g
             /\ weights g = [] /\ weight_bones g = [])
  /\ (0 < weight_amount ->
      (is_Some (read_mesh08 weight_amount b)
       <-> Forall (fun v => Forall (fun i => (i < length names)%nat)
                                   (v_bone_indices v))
                  (m8_vertices b))
      /\ forall g, read_mesh08 weight_amount b = Some g ->
           length (weights g) = length (m8_vertices b)
           /\ length (weight_bones g) = length (m8_vertices b)
           /\ forall i v, m8_vertices b !! i = Some v ->
                weights g !! i
                = Some (MshWeights.final_weights (v_read_weights v))
                /\ exists bones,
                     weight_bones g !! i = Some bones
                     /\ length bones = 4%nat
                     /\ forall k j, v_bone_indices v !! k = Some j ->
                                    bones !! k = names !! j).
Proof.
  cbv zeta. split.
  - intros Hle. unfold read_mesh08. cbv zeta.
    destruct (0 <? weight_amount) eqn:E; [apply Z.ltb_lt in E; lia |].
    cbn. eexists. split; [reflexivity |]. done.
  - intros Hlt. unfold read_mesh08. cbv zeta.
    destruct (0 <? weight_amount) eqn:E; [| apply Z.ltb_ge in E; lia].
    set (names := unique_bone_names_of (m8_bone_groups b)).
    set (vs := m8_vertices b) in *.
    set (f := fun '(vertex_index, weight_data) =>
                vs !! vertex_index ≫= fun v : Mesh08Vertex =>
                bone_names_of names (v_bone_indices v) weight_data).
    set (l := imap (fun i w => (i, w))
                (map (fun v => MshWeights.final_weights (v_read_weights v)) vs)).
    assert (Hl : forall i, l !! i
                 = (fun v => (i, MshWeights.final_weights (v_read_weights v)))
                     <$> vs !! i).
    { intros i. subst l. rewrite list_lookup_imap, list_lookup_fmap.
      by destruct (vs !! i). }
    assert (Hlen : length l = length vs).
    { subst l. by rewrite length_imap, length_map. }
    assert (H3 : forall i v, vs !! i = Some v ->
                 length (v_read_weights v) = 3%nat).
    { intros i v Hv. exact (Forall_lookup_1 _ _ _ _ Hw Hv). }
    assert (H4 : forall i v, vs !! i = Some v ->
                 length (v_bone_indices v) = 4%nat).
    { intros i v Hv. exact (Forall_lookup_1 _ _ _ _ Hi Hv). }
    split.
    + transitivity (is_Some (mapM f l)).
      { destruct (mapM f l); cbn; split; intros [? ?]; by eauto. }
      rewrite mapM_is_Some, !Forall_lookup. split.
      * intros H i v Hv. specialize (H i _ ltac:(rewrite Hl, Hv; reflexivity)).
        cbn in H. rewrite Hv in H. cbn in H.
        apply bone_names_of_is_Some in H; [done |].
        rewrite length_final_weights; eauto.
      * intros H i [i' w] Hiw. rewrite Hl in Hiw.
        destruct (vs !! i) as [v |] eqn:Hv; [| done]. cbn in Hiw.
        injection Hiw as <- <-. cbn. rewrite Hv. cbn.
        apply bone_names_of_is_Some; [| by eapply H].
        rewrite length_final_weights; eauto.
    + intros g Hg. destruct (mapM f l) as [wb |] eqn:Hm; [| done].
      cbn in Hg. injection Hg as <-. cbn.
      apply mapM_Some in Hm.
      pose proof (Forall2_length _ _ _ Hm) as Hwb.
      split; [by rewrite length_map |]. split; [congruence |].
      intros i v Hv. split.
      { by rewrite list_lookup_fmap, Hv. }
      destruct (lookup_lt_is_Some_2 wb i) as [bones Hb].
      { rewrite <- Hwb, Hlen. by eapply lookup_lt_Some. }
      exists bones. split; [done |].
      pose proof (Forall2_lookup_lr _ _ _ i _ bones Hm
                    ltac:(rewrite Hl, Hv; reflexivity) Hb) as Hf.
      cbn in Hf. rewrite Hv in Hf. cbn in Hf.
      apply bone_names_of_lookup in Hf as [Hlb Hk].
      rewrite length_final_weights in Hlb, Hk by eauto.
      split; [done |]. intros k j Hj. apply Hk; [| done].
      rewrite <- (H4 i v Hv). by eapply lookup_lt_Some.
Qed.

Lemma read_mesh08_returns_witness :
  is_Some (read_mesh08 1 Cases.two_bone_vertex).
Proof.
  assert (Hw : Forall (fun v => length (v_read_weights v) = 3%nat)
                      (m8_vertices Cases.two_bone_vertex))
    by (repeat constructor).
  assert (Hi : Forall (fun v => length (v_bone_indices v) = 4%nat)
                      (m8_vertices Cases.two_bone_vertex))
    by (repeat constructor).
  apply (proj1 (proj2 (read_mesh08_returns 1 Cases.two_bone_vertex Hw Hi)
                  ltac:(lia))).
  cbn. repeat constructor.
Defined.

End Mesh08Theorems.

(** ** The weights of a legacy object *)

Section LegacyWeightFacts.

Import MshImport MshLegacy.

Variable INVALID_NAME : string.
Variable base_vertices : list Vector3.
Variable base_vertices_weights : gmap nat (list string * list Q).

Lemma unweld_corner_inv vertex_index normal uv g g' :
  unweld_corner INVALID_NAME base_vertices base_vertices_weights
    vertex_index normal uv g = Some g' ->
  corner_ok base_vertices base_vertices_weights vertex_index
  /\ ((base_vertices_weights = ∅
       /\ weights g' = weights g /\ weight_bones g' = weight_bones g)
      \/ (base_vertices_weights ≠ ∅
          /\ exists e,
               base_vertices_weights !! vertex_index = Some e
               /\ weights g'
                  = weights g ++ [map snd (kept_slots INVALID_NAME e)]
               /\ weight_bones g'
                  = weight_bones g ++ [map fst (kept_slots INVALID_NAME e)])).
Proof.
  unfold unweld_corner, corner_ok. intros H.
  destruct (base_vertices !! vertex_index) as [v |] eqn:Hv; [| done].
  cbn in H. apply lookup_lt_Some in Hv.
  case_bool_decide as He.
  - injection H as <-. cbn. split; [split; [done | by left] |]. by left.
  - destruct (base_vertices_weights !! vertex_index) as [e |] eqn:Hd;
      [| done].
    cbn in H. injection H as <-. cbn.
    split; [split; [done | right; by eexists] |].
    right. split; [done |]. by exists e.
Qed.

Lemma unweld_inv base_triangle_normals base_triangle_uvs tris :
  forall i g g',
    unweld INVALID_NAME base_vertices base_triangle_normals
      base_triangle_uvs base_vertices_weights i tris g = Some g' ->
    Forall (triangle_ok base_vertices base_vertices_weights) tris
    /\ ((base_vertices_weights = ∅
         /\ weights g' = weights g /\ weight_bones g' = weight_bones g)
        \/ (base_vertices_weights ≠ ∅
            /\ exists W,
                 Forall2 (fun a w =>
                            exists e, base_vertices_weights !! a = Some e
                                      /\ w = kept_slots INVALID_NAME e)
                         (flat_map (fun '(a, b, c) => [a; b; c]) tris) W
                 /\ weights g' = weights g ++ map (map snd) W
                 /\ weight_bones g' = weight_bones g ++ map (map fst) W)).
Proof.
  induction tris as [| [[a b] c] tris IH]; intros i g g' H.
  - cbn in H. injection H as <-. split; [constructor |].
    destruct (decide (base_vertices_weights = ∅)) as [He | He].
    + by left.
    + right. split; [done |]. exists []. cbn.
      rewrite !app_nil_r. by repeat split.
  - cbn [unweld] in H.
    destruct (base_triangle_normals !! i) as [[[na nb] nc] |]; [| done].
    destruct (base_triangle_uvs !! i) as [[[ua ub] uc] |]; [| done].
    cbn in H.
    destruct (unweld_corner _ _ _ a na ua g) as [g1 |] eqn:E1; [| done].
    cbn in H.
    destruct (unweld_corner _ _ _ b nb ub g1) as [g2 |] eqn:E2; [| done].
    cbn in H.
    destruct (unweld_corner _ _ _ c nc uc g2) as [g3 |] eqn:E3; [| done].
    cbn in H.
    apply unweld_corner_inv in E1 as [Oa Wa].
    apply unweld_corner_inv in E2 as [Ob Wb].
    apply unweld_corner_inv in E3 as [Oc Wc].
    apply IH in H as [Hok Hw]. cbn [weights weight_bones] in Hw.
    split; [constructor; [unfold triangle_ok; cbn; tauto | done] |].
    destruct Wa as [(He & Wa1 & Wa2) | (He & ea & Hea & Wa1 & Wa2)].
    + left. split; [done |].
      destruct Wb as [(_ & Wb1 & Wb2) | (? & _)]; [| done].
      destruct Wc as [(_ & Wc1 & Wc2) | (? & _)]; [| done].
      destruct Hw as [(_ & W1 & W2) | (? & _)]; [| done].
      split; congruence.
    + right. split; [done |].
      destruct Wb as [(? & _) | (_ & eb & Heb & Wb1 & Wb2)]; [done |].
      destruct Wc as [(? & _) | (_ & ec & Hec & Wc1 & Wc2)]; [done |].
      destruct Hw as [(? & _) | (_ & W & HW & W1 & W2)]; [done |].
      exists (kept_slots INVALID_NAME ea :: kept_slots INVALID_NAME eb
              :: kept_slots INVALID_NAME ec :: W).
      split.
      { cbn. repeat (constructor; [by eexists |]). exact HW. }
      rewrite W1, W2, Wc1, Wc2, Wb1, Wb2, Wa1, Wa2. cbn.
      by rewrite <- !app_assoc.
Qed.

Lemma kept_slots_no_sentinel (e : list string * list Q) :
  Forall (fun n => n ≠ INVALID_NAME) (map fst (kept_slots INVALID_NAME e)).
Proof.
  unfold kept_slots. apply Forall_fmap, Forall_forall.
  intros p Hp. by apply list_elem_of_filter in Hp as [? _].
Qed.

End LegacyWeightFacts.

Section LegacyWeightTable.

Import MshImport MshLegacy.

Variable INVALID_NAME : string.

Lemma read_base_vertices_weights_lookup (weight_model_type : Z)
    (names : list string) (ws : list WeightRecord) :
  forall d0 d,
    read_base_vertices_weights INVALID_NAME weight_model_type names ws d0
    = Some d ->
    forall k,
      d !! k
      = match last_record k ws with
        | Some w => weight_entry INVALID_NAME weight_model_type names w
        | None => d0 !! k
        end.
Proof.
  unfold last_record.
  induction ws as [| w ws IH]; intros d0 d H k.
  - cbn in H. by injection H as <-.
  - cbn [read_base_vertices_weights] in H.
    destruct (weight_entry _ _ _ w) as [e |] eqn:He; [| done]. cbn in H.
    rewrite (IH _ _ H k). rewrite filter_cons.
    destruct (decide (wr_vertex_index w = k)) as [Hk | Hk].
    + destruct (filter _ ws) as [| w' l'] eqn:Hf.
      * cbn. rewrite Hk, lookup_insert_eq. by rewrite He.
      * rewrite last_cons_cons, last_cons. by destruct (last l').
    + destruct (last (filter _ ws)); [done |].
      by rewrite lookup_insert_ne.
Qed.

Lemma read_base_vertices_weights_entries (weight_model_type : Z)
    (names : list string) (ws : list WeightRecord) :
  forall d0 d,
    read_base_vertices_weights INVALID_NAME weight_model_type names ws d0
    = Some d ->
    Forall (fun w => is_Some (weight_entry INVALID_NAME weight_model_type
                                names w)) ws.
Proof.
  induction ws as [| w ws IH]; intros d0 d H; [constructor |].
  cbn [read_base_vertices_weights] in H.
  destruct (weight_entry _ _ _ w) as [e |] eqn:He; [| done]. cbn in H.
  constructor; [by rewrite He | by eapply IH].
Qed.

End LegacyWeightTable.

Section LegacyWeightTheorems.

Import MshImport MshLegacy.

(** X6.  Legacy import of a mesh whose weight records were read into the
    table [base_vertices_weights].  When the import returns, every corner
    of every triangle refers to an existing base vertex and, if the table
    is not empty, to a base vertex that has a weight record (otherwise
    lines 676 and 681 raise).  With an empty table the object gets no
    weights; otherwise every unwelded vertex gets, in the order of the
    corners, the (bone name, weight) slots of the record of its base vertex
    whose name is not the sentinel, so that no vertex is weighted on the
    sentinel name. *)
Theorem legacy_weights_follow_corners (INVALID_NAME : string)
    (weight_model_type : Z) (b : LegacyBlock)
    (base_vertices_weights : gmap nat (list string * list Q)) (g : Geometry) :
  read_base_vertices_weights INVALID_NAME weight_model_type
    (lg_bone_names_for_assignment b) (lg_weights b) ∅
  = Some base_vertices_weights ->
  read_legacy INVALID_NAME weight_model_type b = Some g ->
  Forall (fun r => triangle_ok (map fst (lg_base_vertices b))
                     base_vertices_weights (tri_indices r))
         (lg_triangles b)
  /\ (base_vertices_weights = ∅ -> weights g = [] /\ weight_bones g = [])
  /\ (base_vertices_weights ≠ ∅ ->
      exists W,
        Forall2 (fun a w =>
                   exists e, base_vertices_weights !! a = Some e
                             /\ w = kept_slots INVALID_NAME e)
                (corner_indices (lg_triangles b)) W
        /\ weights g = map (map snd) W
        /\ weight_bones g = map (map fst) W)
  /\ Forall (Forall (fun n => n ≠ INVALID_NAME)) (weight_bones g).
Proof.
  intros Hd Hg. unfold read_legacy in Hg.
  rewrite read_base_triangles_maps, Hd in Hg. cbn in Hg.
  apply unweld_inv in Hg as [Hok Hw]. cbn [weights weight_bones empty_geometry] in Hw.
  split; [rewrite Forall_fmap in Hok; exact Hok |].
  destruct Hw as [(He & W1 & W2) | (He & W & HW & W1 & W2)].
  - split; [done |]. split; [done |]. rewrite W2. constructor.
  - split; [done |]. split; [intros _; by exists W |].
    rewrite W2. cbn. apply Forall_fmap, Forall_forall. intros w Hw.
    apply list_elem_of_lookup in Hw as [i Hi].
    destruct (Forall2_lookup_r _ _ _ _ _ HW Hi) as (a & _ & e & _ & ->).
    apply kept_slots_no_sentinel.
Qed.

Lemma legacy_weights_follow_corners_witness :
  exists g,
    read_legacy Samples.no_name 1 Cases.weighted_triangle = Some g
    /\ weight_bones g = [["Bip01"]; ["Bip01"; "Bip01 Spine"]; ["Bip01"]]
    /\ Forall (Forall (fun n => n ≠ Samples.no_name)) (weight_bones g).
Proof.
  eexists. split; [vm_compute; reflexivity |]. split; [reflexivity |].
  refine (proj2 (proj2 (proj2
    (legacy_weights_follow_corners Samples.no_name 1 Cases.weighted_triangle
       _ _ _ _)))).
  - vm_compute. reflexivity.
  - vm_compute. reflexivity.
Defined.

(** X7.  The table of the legacy weight records: it is empty exactly when
    the mesh has no weight record, and when several records name the same
    base vertex the last one in file order is the one kept (lines 663 and
    669 assign to the dictionary). *)
Theorem legacy_weight_table_last_wins (INVALID_NAME : string)
    (weight_model_type : Z) (names : list string) (ws : list WeightRecord)
    (d : gmap nat (list string * list Q)) :
  read_base_vertices_weights INVALID_NAME weight_model_type names ws ∅
  = Some d ->
  (d = ∅ <-> ws = [])
  /\ forall k,
       d !! k
       = last_record k ws
           ≫= weight_entry INVALID_NAME weight_model_type names.
Proof.
  intros H.
  assert (Hk : forall k,
            d !! k
            = last_record k ws
                ≫= weight_entry INVALID_NAME weight_model_type names).
  { intros k. rewrite (read_base_vertices_weights_lookup _ _ _ _ _ _ H k).
    by destruct (last_record k ws). }
  split; [| exact Hk]. split.
  - intros Hd. destruct ws as [| w ws _] using rev_ind; [done |]. exfalso.
    pose proof (read_base_vertices_weights_entries _ _ _ _ _ _ H) as Hall.
    apply Forall_app in Hall as [_ Hw]. apply Forall_inv in Hw.
    specialize (Hk (wr_vertex_index w)). rewrite Hd, lookup_empty in Hk.
    unfold last_record in Hk. rewrite filter_app, filter_cons in Hk.
    rewrite decide_True in Hk by done. cbn in Hk. rewrite last_snoc in Hk.
    cbn in Hk. rewrite <- Hk in Hw. by destruct Hw.
  - intros ->. cbn in H. by injection H as <-.
Qed.

Lemma legacy_weight_table_last_wins_witness :
  exists d,
    read_base_vertices_weights Samples.no_name 1
      (lg_bone_names_for_assignment Cases.weighted_triangle)
      (lg_weights Cases.weighted_triangle) ∅ = Some d
    /\ d !! 1%nat = Some (["Bip01"; "Bip01 Spine"; Samples.no_name;
                           Samples.no_name], [1 # 2; 1 # 2; 0; 0]%Q).
Proof.
  assert (E : is_Some (read_base_vertices_weights Samples.no_name 1
                         (lg_bone_names_for_assignment Cases.weighted_triangle)
                         (lg_weights Cases.weighted_triangle) ∅))
    by (vm_compute; eauto).
  destruct E as [d E]. exists d. split; [exact E |].
  rewrite (proj2 (legacy_weight_table_last_wins _ _ _ _ _ E) 1%nat).
  reflexivity.
Defined.

End LegacyWeightTheorems.

Section LegacyIndexFacts.

Import MshImport.

Lemma py_index_is_Some {A} (l : list A) (i : Z) :
  is_Some (py_index l i)
  <-> - Z.of_nat (length l) <= i < Z.of_nat (length l).
Proof.
  unfold py_index.
  destruct (0 <=? i) eqn:E0.
  - apply Z.leb_le in E0. rewrite lookup_lt_is_Some. lia.
  - apply Z.leb_gt in E0.
    destruct (- Z.of_nat (length l) <=? i) eqn:E1.
    + apply Z.leb_le in E1. rewrite lookup_lt_is_Some. lia.
    + apply Z.leb_gt in E1. split; [by intros [? ?] | lia].
Qed.

(** X8.  A legacy weight record of weight model 1 with its four bone
    indices.  The record is read exactly when every index is -1 or a valid
    Python index of the name table, negative ones included (otherwise line
    660 raises an IndexError); index -1 gives the sentinel name, an index
    from 0 the name at that position, and any other negative index the name
    counted from the end of the table. *)
Theorem legacy_bone_index_resolution (INVALID_NAME : string)
    (names : list string) (w : WeightRecord)
    (H4 : length (wr_bone_indices w) = 4%nat) :
  (is_Some (weight_entry INVALID_NAME 1 names w)
   <-> Forall (fun i => i = -1
                        \/ - Z.of_nat (length names) <= i
                           < Z.of_nat (length names))
              (wr_bone_indices w))
  /\ forall e,
       weight_entry INVALID_NAME 1 names w = Some e ->
       snd e = wr_read_weights w
       /\ length (fst e) = 4%nat
       /\ forall k i,
            wr_bone_indices w !! k = Some i ->
            fst e !! k
            = if decide (i = -1) then Some INVALID_NAME
              else if decide (0 <= i) then names !! Z.to_nat i
              else names !! Z.to_nat (Z.of_nat (length names) + i).
Proof.
  unfold weight_entry. cbn [Z.eqb Pos.eqb].
  set (f := fun i : nat =>
              wr_bone_indices w !! i ≫= fun bone_index : Z =>
              if bone_index =? -1 then Some INVALID_NAME
              else py_index names bone_index).
  split.
  - transitivity (is_Some (mapM f (seq 0 4))).
    { destruct (mapM f (seq 0 4)); cbn; split; intros [? ?]; by eauto. }
    rewrite mapM_is_Some, Forall_seq, Forall_lookup. split.
    + intros H k i Hk.
      assert (Hlt : (k < 4)%nat) by (rewrite <- H4; by eapply lookup_lt_Some).
      specialize (H k ltac:(lia)). unfold f in H. cbn in H.
      rewrite Hk in H. cbn in H.
      destruct (i =? -1) eqn:E; [left; by apply Z.eqb_eq |].
      right. by apply py_index_is_Some.
    + intros H k Hk. unfold f. cbn.
      destruct (lookup_lt_is_Some_2 (wr_bone_indices w) k ltac:(lia))
        as [i Hi].
      rewrite Hi. cbn. destruct (i =? -1) eqn:E; [done |].
      apply Z.eqb_neq in E. apply py_index_is_Some.
      destruct (H k i Hi); [done | lia].
  - intros e He. destruct (mapM f (seq 0 4)) as [ns |] eqn:Hm; [| done].
    cbn in He. injection He as <-. cbn.
    apply mapM_Some in Hm.
    pose proof (Forall2_length _ _ _ Hm) as Hl. rewrite length_seq in Hl.
    split; [done |]. split; [done |]. intros k i Hk.
    assert (Hlt : (k < 4)%nat) by (rewrite <- H4; by eapply lookup_lt_Some).
    destruct (lookup_lt_is_Some_2 ns k ltac:(lia)) as [y Hy].
    pose proof (Forall2_lookup_lr _ _ _ k k y Hm) as Hf.
    rewrite lookup_seq in Hf. specialize (Hf ltac:(split; [done | lia]) Hy).
    unfold f in Hf. cbn in Hf. rewrite Hk in Hf. cbn in Hf.
    rewrite Hy, <- Hf.
    destruct (decide (i = -1)) as [-> | Hn]; [done |].
    apply Z.eqb_neq in Hn. rewrite Hn in Hf |- *.
    assert (Hb : is_Some (py_index names i)) by (by rewrite Hf).
    apply py_index_is_Some in Hb. unfold py_index.
    destruct (decide (0 <= i)) as [H0 | H0].
    + apply Z.leb_le in H0. by rewrite H0.
    + apply Z.nle_gt in H0. pose proof H0 as H0'. apply Z.leb_gt in H0'.
      rewrite H0'.
      destruct (- Z.of_nat (length names) <=? i) eqn:E1; [done |].
      apply Z.leb_gt in E1. lia.
Qed.

Lemma legacy_bone_index_resolution_witness :
  is_Some (weight_entry Samples.no_name 1 ["Bip01"; "Bip01 Spine"]
             {| wr_vertex_index := 0; wr_bone_indices := [0; -2; -1; -1];
                wr_bone_names := []; wr_read_weights := [1; 0; 0; 0]%Q |}).
Proof.
  apply (proj1 (legacy_bone_index_resolution Samples.no_name
                  ["Bip01"; "Bip01 Spine"]
                  {| wr_vertex_index := 0; wr_bone_indices := [0; -2; -1; -1];
                     wr_bone_names := []; wr_read_weights := [1; 0; 0; 0]%Q |}
                  eq_refl)).
  cbn.
  constructor; [right; lia |]. constructor; [right; lia |].
  constructor; [by left |]. constructor; [by left |]. constructor.
Defined.

End LegacyIndexFacts.

(** ** The keyframe counts of an exported animation *)

Section AniCountFacts.

Import Ani.




End AniCountFacts.

(** ** A MESH08 object written and read again *)

Section RereadFacts.

Import MshImport MshExport MshReread.

Lemma reread_ushort_padding : reread_ushort (-1) = Z.to_nat 65535.
Proof. reflexivity. Qed.

Lemma read_mesh08_Some_index_bound (weight_amount : Z) (b : Mesh08Block)
    (g : Geometry) (i k : nat) (v : Mesh08Vertex) (j : nat) :
  0 < weight_amount ->
  read_mesh08 weight_amount b = Some g ->
  m8_vertices b !! i = Some v ->
  length (v_read_weights v) = 3%nat ->
  (k < 4)%nat ->
  v_bone_indices v !! k = Some j ->
  (j < length (unique_bone_names_of (m8_bone_groups b)))%nat.
Proof.
  intros Hlt Hg Hv H3 Hk Hj. unfold read_mesh08 in Hg. cbv zeta in Hg.
  destruct (0 <? weight_amount) eqn:E; [| apply Z.ltb_ge in E; lia].
  match type of Hg with
  | context [mapM ?f ?l] => destruct (mapM f l) as [wb |] eqn:Hm; [| done]
  end.
  apply mapM_Some in Hm.
  pose proof (Forall2_length _ _ _ Hm) as Hl.
  rewrite length_imap, length_map in Hl.
  destruct (lookup_lt_is_Some_2 wb i) as [bones Hb].
  { rewrite <- Hl. by eapply lookup_lt_Some. }
  assert (Hp : imap (fun i w => (i, w))
                 (map (fun v => MshWeights.final_weights (v_read_weights v))
                      (m8_vertices b)) !! i
               = Some (i, MshWeights.final_weights (v_read_weights v))).
  { rewrite list_lookup_imap, list_lookup_fmap, Hv. reflexivity. }
  pose proof (Forall2_lookup_lr _ _ _ i _ bones Hm Hp Hb) as Hf.
  cbn in Hf. rewrite Hv in Hf. cbn in Hf.
  apply bone_names_of_lookup in Hf as [Hlb Hnames].
  rewrite length_final_weights in Hlb, Hnames by done.
  specialize (Hnames k j Hk Hj).
  destruct (lookup_lt_is_Some_2 bones k ltac:(lia)) as [name Hname].
  rewrite Hname in Hnames. symmetry in Hnames.
  by eapply lookup_lt_Some.
Qed.

(** X9.  A MESH08 object that the exporter writes without parent and with
    weight data, one of whose vertices has an unused bone slot.  The
    exporter marks unused slots with -1 (line 1260) and writes the four
    indices as signed 16-bit values; the reader takes them as unsigned, gets
    65535 for such a slot, and looks up the name of every one of the four
    slots of every vertex: unless the object has more than 65535 bone
    names the lookup of line 615 raises, and the object is not imported. *)
Theorem mesh08_unused_slot_ends_import (INVALID_NAME : string)
    (e : ObjectEntry) (b : Mesh08Block) (i : nat)
    (vertex_position : Vector3) (weight_values : Q * Q * Q)
    (unique_bone_indices : list Z) (vertex_normal : Vector3)
    (vertex_uv : Vector2) (vertex_binormal : Vector3) (v : Mesh08Vertex) :
  object_parent_name e = INVALID_NAME ->
  (0 < object_weight_amount e)%nat ->
  object_vertice_data e !! i
  = Some (mesh08_vertex vertex_position weight_values unique_bone_indices
            vertex_normal vertex_uv vertex_binormal) ->
  length unique_bone_indices = 4%nat ->
  -1 ∈ unique_bone_indices ->
  m8_vertices b !! i = Some v ->
  v_bone_indices v
  = map reread_ushort
      (written_bone_indices INVALID_NAME e
         (mesh08_vertex vertex_position weight_values unique_bone_indices
            vertex_normal vertex_uv vertex_binormal)) ->
  length (v_read_weights v) = 3%nat ->
  (length (unique_bone_names_of (m8_bone_groups b)) <= Z.to_nat 65535)%nat ->
  read_mesh08 (written_weight_amount INVALID_NAME e) b = None.
Proof.
  intros Hp Hw He H4 Hin Hv Hidx H3 Hn.
  unfold written_weight_amount, written_bone_indices in *.
  rewrite bool_decide_eq_true_2 in * by done.
  destruct (read_mesh08 _ b) as [g |] eqn:Hg; [exfalso | done].
  apply list_elem_of_lookup in Hin as [k Hk].
  assert (Hk4 : (k < 4)%nat) by (rewrite <- H4; by eapply lookup_lt_Some).
  assert (Hj : v_bone_indices v !! k = Some (Z.to_nat 65535)).
  { rewrite Hidx, list_lookup_fmap, Hk. reflexivity. }
  assert (Hpos : 0 < Z.of_nat (object_weight_amount e)) by lia.
  pose proof (read_mesh08_Some_index_bound _ b g i k v _ Hpos Hg Hv H3 Hk4
                Hj).
  lia.
Qed.

Lemma mesh08_unused_slot_ends_import_witness :
  read_mesh08
    (written_weight_amount Samples.no_name RereadCases.one_bone_entry)
    RereadCases.one_bone_block
  = None.
Proof.
  apply (mesh08_unused_slot_ends_import Samples.no_name
           RereadCases.one_bone_entry RereadCases.one_bone_block 0%nat
           Samples.origin (1, 0, 0)%Q [0; -1; -1; -1] (0, 0, 1)%Q (0, 0)%Q
           Samples.origin
           {| v_position := Samples.origin;
              v_read_weights := [1; 0; 0]%Q;
              v_bone_indices :=
                [0; Z.to_nat 65535; Z.to_nat 65535; Z.to_nat 65535]%nat;
              v_normal := (0, 0, 1)%Q;
              v_uv := (0, 0)%Q |}).
  - reflexivity.
  - cbn. lia.
  - reflexivity.
  - reflexivity.
  - apply list_elem_of_In. cbn. tauto.
  - reflexivity.
  - reflexivity.
  - reflexivity.
  - change (1 <= Z.to_nat 65535)%nat. lia.
Defined.

End RereadFacts.

(** ** The frame range of an imported animation *)

Section AniRangeFacts.

Import Ani AniViews.

Variable get_local_rotation : Quaternion -> Quaternion -> Quaternion.
Variable get_local_position : Vector3 -> Quaternion -> Vector3 -> Vector3.

Lemma covers_raise_insert object bone path value frame st :
  covers st -> covers (insert object bone path value frame (raise_highest frame st)).
Proof.
  intros (H0 & Hall & Hmax). unfold covers, insert, raise_highest. cbn.
  destruct (Qlt_le_dec (fst st) frame) as [Hlt | Hle]; cbn.
  - split; [lra |]. split.
    + apply Forall_app. split.
      * eapply Forall_impl; [exact Hall |]. cbn. intros k Hk. lra.
      * repeat constructor. cbn. lra.
    + right. rewrite map_app. apply elem_of_app. right. cbn. by left.
  - split; [done |]. split.
    + apply Forall_app. split; [done |]. repeat constructor. done.
    + destruct Hmax as [Hz | Hin]; [by left | right].
      rewrite map_app. apply elem_of_app. by left.
Qed.

Lemma covers_insert_rest object bone path value st :
  covers st -> covers (insert object bone path value 0 st).
Proof.
  intros (H0 & Hall & Hmax). unfold covers, insert. cbn.
  split; [done |]. split.
  - apply Forall_app. split; [done |]. repeat constructor. done.
  - destruct Hmax as [Hz | Hin]; [by left | right].
    rewrite map_app. apply elem_of_app. by left.
Qed.

Lemma covers_fold {A} (f : Q * list Keyframe -> A -> Q * list Keyframe)
    (l : list A) :
  (forall st x, covers st -> covers (f st x)) ->
  forall st, covers st -> covers (fold_left f l st).
Proof.
  intros Hf. induction l as [| x l IH]; intros st Hst; [done |].
  cbn. apply IH, Hf, Hst.
Qed.

Lemma covers_import_object_tracks object t st :
  covers st -> covers (import_object_tracks object t st).
Proof.
  intros Hst. unfold import_object_tracks.
  repeat (apply covers_fold;
          [intros st' [v tick] Hst'; by apply covers_raise_insert |]).
  done.
Qed.

Lemma covers_import_bone_tracks armature b t st :
  covers st ->
  covers (import_bone_tracks get_local_rotation get_local_position armature
            b t st).
Proof.
  intros Hst. unfold import_bone_tracks. cbv zeta.
  apply covers_fold;
    [intros st' [v tick] Hst'; by apply covers_raise_insert |].
  destruct (length (scale_frames t) =? 0)%nat;
    [apply covers_insert_rest |];
    (apply covers_fold;
     [intros st' [v tick] Hst'; by apply covers_raise_insert |]);
    (destruct (length (position_frames t) =? 0)%nat;
     [apply covers_insert_rest |]);
    (apply covers_fold;
     [intros st' [v tick] Hst'; by apply covers_raise_insert |]);
    (destruct (length (rotation_frames t) =? 0)%nat;
     [by apply covers_insert_rest | done]).
Qed.

Lemma covers_import_bones armature bones found_bones :
  forall st st',
    covers st ->
    import_bones get_local_rotation get_local_position armature bones
      found_bones st = Some st' ->
    covers st'.
Proof.
  induction found_bones as [| [name t] rest IH]; intros st st' Hst H.
  - cbn in H. by injection H as <-.
  - cbn [import_bones] in H.
    destruct (find _ bones) as [b |]; [| done]. cbn in H.
    eapply IH; [| exact H]. by apply covers_import_bone_tracks.
Qed.

Lemma import_animation_Imported ignore_not_found animation_name
    objects_collection file a :
  import_animation get_local_rotation get_local_position ignore_not_found
    animation_name objects_collection file = Imported a ->
  exists st,
    covers st
    /\ action_frame_range a = (0%Q, fst st)
    /\ action_keyframes a = snd st.
Proof.
  unfold import_animation.
  destruct objects_collection as [objects |]; [| done].
  destruct (1 <? length _)%nat; [done |].
  set (armature := head _).
  destruct (match armature with
            | Some a0 => _
            | None => Some None
            end) as [skeleton_data |]; [| done].
  destruct (negb ignore_not_found && _); [done |].
  destruct file as [| t0 file']; [done |].
  set (st0 := fold_left _ _ (0%Q, [])).
  assert (Hst0 : covers st0).
  { subst st0. apply covers_fold.
    - intros st [obj t] Hst. by apply covers_import_object_tracks.
    - split; [done |]. split; [constructor | by left]. }
  destruct (match armature with
            | Some a0 => _
            | None => Some st0
            end) as [st |] eqn:Hb; [| done].
  intros [= <-]. exists st. split; [| done].
  destruct armature as [arm |]; [| by injection Hb as <-].
  destruct skeleton_data as [bones |]; [| by injection Hb as <-].
  destruct (found_bones_of _ _ _) as [| fb rest] eqn:Hfb;
    [by injection Hb as <- |].
  by eapply covers_import_bones.
Qed.

(** X10.  The action that an ANI import creates has the frame range
    (0, highest_frame): its end is not negative, no keyframe that the import
    inserted is later than it, and it is 0 or the frame of one of these
    keyframes, so that it is the latest keyframe of the file among the
    targets that were found, or 0 when they have none after frame 0. *)
Theorem imported_frame_range_covers_keyframes (ignore_not_found : bool)
    (animation_name : string) (objects_collection : option (list SceneObject))
    (file : list AniTarget) (a : Action) :
  import_animation get_local_rotation get_local_position ignore_not_found
    animation_name objects_collection file = Imported a ->
  fst (action_frame_range a) = 0%Q
  /\ (0 <= snd (action_frame_range a))%Q
  /\ Forall (fun k => (kf_frame k <= snd (action_frame_range a))%Q)
            (action_keyframes a)
  /\ (snd (action_frame_range a) = 0%Q
      \/ snd (action_frame_range a) ∈ map kf_frame (action_keyframes a)).
Proof.
  intros H. apply import_animation_Imported in H
    as (st & (H0 & Hall & Hmax) & Hr & Hk).
  rewrite Hr, Hk. cbn. done.
Qed.

End AniRangeFacts.

Lemma imported_frame_range_covers_keyframes_witness :
  exists a,
    Ani.import_animation Samples.keep_rotation Samples.keep_position false
      "Walk" (Some [Samples.cube]) [Samples.cube_target] = Ani.Imported a
    /\ (0 <= snd (Ani.action_frame_range a))%Q.
Proof.
  destruct (Ani.import_animation Samples.keep_rotation Samples.keep_position
              false "Walk" (Some [Samples.cube]) [Samples.cube_target])
    as [a | | |] eqn:E; try (vm_compute in E; discriminate).
  exists a. split; [reflexivity |].
  exact (proj1 (proj2 (imported_frame_range_covers_keyframes
                         Samples.keep_rotation Samples.keep_position false
                         "Walk" (Some [Samples.cube]) [Samples.cube_target]
                         a E))).
Defined.


(** ** The outcomes of an animation import *)

Section AniOutcomeFacts.

Import Ani AniViews.

Variable get_local_rotation : Quaternion -> Quaternion -> Quaternion.
Variable get_local_position : Vector3 -> Quaternion -> Vector3 -> Vector3.

Lemma found_objects_of_skip objects bones l1 t l2 :
  resolve objects bones (animated_object_name t) = not_found ->
  found_objects_of objects bones (l1 ++ t :: l2)
  = found_objects_of objects bones (l1 ++ l2).
Proof.
  intros Hr. unfold found_objects_of. rewrite !omap_app. cbn.
  by rewrite Hr.
Qed.

Lemma found_bones_of_skip objects bones l1 t l2 :
  resolve objects bones (animated_object_name t) = not_found ->
  found_bones_of objects bones (l1 ++ t :: l2)
  = found_bones_of objects bones (l1 ++ l2).
Proof.
  intros Hr. unfold found_bones_of. rewrite !omap_app. cbn.
  by rewrite Hr.
Qed.

(** X11.  With "ignore not found" set, a target of the file whose name is
    neither an object of the collection nor a bone of its armature is
    skipped: as long as the file has another target, the import does what it
    does for the file without that target. *)
Theorem unresolved_target_is_skipped (animation_name : string)
    (objects_collection : list SceneObject) (l1 l2 : list AniTarget)
    (t : AniTarget) :
  resolve objects_collection (target_bones_of objects_collection)
    (animated_object_name t) = not_found ->
  l1 ++ l2 ≠ [] ->
  import_animation get_local_rotation get_local_position true animation_name
    (Some objects_collection) (l1 ++ t :: l2)
  = import_animation get_local_rotation get_local_position true
      animation_name (Some objects_collection) (l1 ++ l2).
Proof.
  intros Hr Hne. unfold import_animation, target_bones_of,
    armature_objects_of in *.
  destruct (1 <? length _)%nat; [done |].
  destruct (head (filter _ objects_collection)) as [arm |]; cbn in Hr.
  - destruct (so_skeleton arm) as [bones |]; [| done]. cbn in Hr.
    rewrite (found_objects_of_skip _ _ _ _ _ Hr),
      (found_bones_of_skip _ _ _ _ _ Hr).
    cbn [negb andb].
    destruct (l1 ++ l2) as [| x l] eqn:E12; [done |].
    destruct (l1 ++ t :: l2) as [| y l'] eqn:E; [by destruct l1 |].
    reflexivity.
  - rewrite (found_objects_of_skip _ _ _ _ _ Hr),
      ?(found_bones_of_skip _ _ _ _ _ Hr).
    cbn [negb andb].
    destruct (l1 ++ l2) as [| x l] eqn:E12; [done |].
    destruct (l1 ++ t :: l2) as [| y l'] eqn:E; [by destruct l1 |].
    reflexivity.
Qed.

(** X12.  The outcomes of an animation import at the edges of its input.
    With more than one armature in the collection the operator is cancelled
    whatever the file holds.  Otherwise, when the skeleton of the armature,
    if there is one, can be built: a file without any target makes line 193
    raise an IndexError that nothing catches; and without "ignore not found"
    a single target whose name is neither an object nor a bone cancels the
    operator, so that no target of the file is imported. *)
Theorem import_edge_outcomes (ignore_not_found : bool)
    (animation_name : string) (objects_collection : list SceneObject)
    (file : list AniTarget) :
  ((1 < length (armature_objects_of objects_collection))%nat ->
   import_animation get_local_rotation get_local_position ignore_not_found
     animation_name (Some objects_collection) file = Cancelled)
  /\ ((length (armature_objects_of objects_collection) <= 1)%nat ->
      (forall arm, head (armature_objects_of objects_collection) = Some arm ->
                   is_Some (so_skeleton arm)) ->
      (file = [] ->
       import_animation get_local_rotation get_local_position
         ignore_not_found animation_name (Some objects_collection) file
       = Raised)
      /\ (ignore_not_found = false ->
          (exists t, t ∈ file
                     /\ resolve objects_collection
                          (target_bones_of objects_collection)
                          (animated_object_name t) = not_found) ->
          import_animation get_local_rotation get_local_position
            ignore_not_found animation_name (Some objects_collection) file
          = Cancelled)).
Proof.
  unfold target_bones_of, armature_objects_of, import_animation. split.
  - intros Hlt. apply Nat.ltb_lt in Hlt. by rewrite Hlt.
  - intros Hle Hsk.
    destruct (1 <? length _)%nat eqn:E; [apply Nat.ltb_lt in E; lia |].
    destruct (head (filter _ objects_collection)) as [arm |] eqn:Harm.
    + destruct (Hsk arm eq_refl) as [bones Hb]. rewrite Hb. cbn.
      split.
      * intros ->. cbn. by destruct ignore_not_found.
      * intros -> (t & Ht & Hr). cbn [negb andb].
        rewrite bool_decide_eq_true_2; [done |].
        apply list_elem_of_fmap. exists t. split; [| done].
        cbn in Hr. rewrite ?Hb in Hr. by rewrite Hr.
    + cbn. split.
      * intros ->. cbn. by destruct ignore_not_found.
      * intros -> (t & Ht & Hr). cbn [negb andb].
        rewrite bool_decide_eq_true_2; [done |].
        apply list_elem_of_fmap. exists t. split; [| done].
        cbn in Hr. rewrite ?Hb in Hr. by rewrite Hr.
Qed.

End AniOutcomeFacts.

Lemma unresolved_target_is_skipped_witness :
  Ani.import_animation Samples.keep_rotation Samples.keep_position true
    "Walk" (Some [Samples.cube]) [Samples.cube_target; AniCases.ghost_target]
  = Ani.import_animation Samples.keep_rotation Samples.keep_position true
      "Walk" (Some [Samples.cube]) [Samples.cube_target].
Proof.
  apply (unresolved_target_is_skipped Samples.keep_rotation
           Samples.keep_position "Walk" [Samples.cube] [Samples.cube_target]
           [] AniCases.ghost_target).
  - vm_compute. reflexivity.
  - discriminate.
Defined.

Lemma import_edge_outcomes_witness :
  Ani.import_animation Samples.keep_rotation Samples.keep_position false
    "Walk" (Some [Samples.cube]) [] = Ani.Raised.
Proof.
  apply (proj2 (import_edge_outcomes Samples.keep_rotation
                  Samples.keep_position false "Walk" [Samples.cube] [])).
  - vm_compute. lia.
  - intros arm Harm. vm_compute in Harm. discriminate Harm.
  - reflexivity.
Defined.

Section AniCountTheorem.

Import Ani.

Variable get_world_rotation : Quaternion -> Quaternion -> Quaternion.
Variable get_world_position : Vector3 -> Quaternion -> Vector3 -> Vector3.
Variable matrix_basis : Action -> string -> Z -> Quaternion * Vector3 * Vector3.
Variable pose_bone :
  Action -> string -> string -> Z -> Quaternion * Vector3 * Vector3.



End AniCountTheorem.


(** ** The entries of the export state *)

Section ExportEntryFacts.

Import MshExport MshViews.

Variable INVALID_NAME : string.
Variable relative_to : Matrix -> Matrix -> Matrix.

Lemma add_object_data_inv mesh_export_format name parent_name world_matrix
    local_matrix exporting exporting_polygons exporting_unique_bones_list
    texture_path effect_path entries entries' :
  add_object_data mesh_export_format name parent_name world_matrix
    local_matrix exporting exporting_polygons exporting_unique_bones_list
    texture_path effect_path entries = Some entries' ->
  exists e,
    entries' = entries ++ [e]
    /\ object_name e = name
    /\ made_for parent_name world_matrix local_matrix e
    /\ object_effect_path e = effect_path
    /\ object_vertex_amount e = length exporting
    /\ object_face_amount e = length exporting_polygons.
Proof.
  unfold add_object_data.
  destruct (match mesh_export_format with
            | STANDARD => _
            | MESH08 => _
            end) as [[[vertex_data face_data] weight_data] |] eqn:E;
    [| done].
  cbn. intros [= <-]. eexists. split; [reflexivity |]. cbn.
  split; [done |]. split; [| done].
  unfold made_for. cbn. repeat split; try done.
  destruct mesh_export_format.
  - cbn in E. destruct (mapM _ _); [| done]. cbn in E.
    injection E as <- _ _. by rewrite length_map.
  - injection E as <- _ _. by rewrite length_map.
Qed.

Lemma split_loop_inv mesh_export_format base parent_name world_matrix
    local_matrix g split_numbers :
  forall entries entries',
    split_loop mesh_export_format base parent_name world_matrix local_matrix
      g split_numbers entries = Some entries' ->
    exists new,
      entries' = entries ++ new
      /\ length new = length split_numbers
      /\ Forall (fun e => made_for parent_name world_matrix local_matrix e
                          /\ object_effect_path e = "") new.
Proof.
  induction split_numbers as [| k rest IH]; intros entries entries' H.
  - cbn in H. injection H as <-. exists []. by rewrite app_nil_r.
  - cbn [split_loop] in H.
    destruct (split_range _ _ _ _ _) as [s |]; [| done]. cbn in H.
    destruct (add_object_data _ _ _ _ _ _ _ _ _ _ entries) as [entries1 |]
      eqn:Ha; [| done].
    cbn in H. apply add_object_data_inv in Ha
      as (e & -> & _ & Hm & He & _).
    apply IH in H as (new & -> & Hl & Hall).
    exists (e :: new). rewrite <- app_assoc. cbn.
    split; [done |]. split; [by rewrite Hl |]. by constructor.
Qed.

Lemma export_group_inv mesh_export_format name parent_name world_matrix
    local_matrix g entries entries' :
  export_group mesh_export_format name parent_name world_matrix local_matrix
    g entries = Some entries' ->
  exists new,
    entries' = entries ++ new
    /\ new ≠ []
    /\ Forall (fun e => made_for parent_name world_matrix local_matrix e
                        /\ object_effect_path e = "") new.
Proof.
  unfold export_group. cbv zeta.
  destruct (_ <=? 65535) eqn:E.
  - intros H. apply add_object_data_inv in H as (e & -> & _ & Hm & He & _).
    exists [e]. split; [done |]. split; [done |].
    constructor; [by split | constructor].
  - intros H. apply split_loop_inv in H as (new & -> & Hl & Hall).
    exists new. split; [done |]. split; [| done].
    rewrite length_seq in Hl. intros ->. cbn in Hl.
    apply Z.leb_gt in E. unfold maximum_split_amount_of in Hl.
    assert (1 <= (Z.of_nat (length (group_exporter_polygons g)) * 3 + 65534)
                 / 65535).
    { apply Z.div_le_lower_bound; lia. }
    lia.
Qed.

Lemma export_groups_inv mesh_export_format name parent_name world_matrix
    local_matrix groups :
  forall entries entries',
    export_groups mesh_export_format name parent_name world_matrix
      local_matrix groups entries = Some entries' ->
    exists new,
      entries' = entries ++ new
      /\ (length groups <= length new)%nat
      /\ Forall (fun e => made_for parent_name world_matrix local_matrix e
                          /\ object_effect_path e = "") new.
Proof.
  induction groups as [| g rest IH]; intros entries entries' H.
  - cbn in H. injection H as <-. exists []. by rewrite app_nil_r.
  - cbn [export_groups] in H.
    destruct (export_group _ _ _ _ _ g entries) as [entries1 |] eqn:Hg;
      [| done].
    cbn in H. apply export_group_inv in Hg as (new1 & -> & Hne & Hall1).
    apply IH in H as (new2 & -> & Hl & Hall2).
    exists (new1 ++ new2). rewrite <- app_assoc.
    split; [done |]. split.
    + rewrite length_app. destruct new1; [done |]. cbn. lia.
    + by apply Forall_app.
Qed.

Lemma export_object_inv mesh_export_format object entries entries' :
  export_object INVALID_NAME relative_to mesh_export_format object entries
  = Some entries' ->
  exists new,
    entries' = entries ++ new
    /\ Forall (fun e =>
                 made_for (parent_name_of INVALID_NAME object)
                   (world_matrix_of object)
                   (local_matrix_of relative_to object) e
                 /\ object_effect_path e = "") new
    /\ (ob_type object = EMPTY ->
        exists e, new = [e] /\ object_name e = ob_name object
                  /\ object_vertex_amount e = 0%nat
                  /\ object_face_amount e = 0%nat)
    /\ (ob_type object = MESH ->
        (length (ob_material_groups object) <= length new)%nat).
Proof.
  unfold export_object, parent_name_of, world_matrix_of, local_matrix_of.
  cbv zeta.
  destruct (ob_parent object) as [[b m | p m] |];
    destruct (ob_type object) eqn:Ety; intros H.
  all: try (apply export_groups_inv in H as (new & -> & Hl & Hall);
            exists new; split; [done |]; split; [done |];
            split; [done | by intros _]).
  all: apply add_object_data_inv in H as (e & -> & Hname & Hm & He & Hv & Hf);
    exists [e]; split; [done |];
    split; [constructor; [by split | constructor] |];
    split; [intros _; by exists e | done].
Qed.

End ExportEntryFacts.

Section ExportEntryTheorems.

Import MshExport MshViews.

Variable INVALID_NAME : string.
Variable relative_to : Matrix -> Matrix -> Matrix.

Lemma export_objects_inv mesh_export_format objects :
  forall entries entries',
    export_objects INVALID_NAME relative_to mesh_export_format objects entries
    = Some entries' ->
    exists per_object,
      entries' = entries ++ concat per_object
      /\ Forall2
           (fun object new =>
              Forall (fun e =>
                        made_for (parent_name_of INVALID_NAME object)
                          (world_matrix_of object)
                          (local_matrix_of relative_to object) e
                        /\ object_effect_path e = "") new
              /\ (ob_type object = EMPTY ->
                  exists e, new = [e] /\ object_name e = ob_name object
                            /\ object_vertex_amount e = 0%nat
                            /\ object_face_amount e = 0%nat)
              /\ (ob_type object = MESH ->
                  (length (ob_material_groups object) <= length new)%nat))
           objects per_object.
Proof.
  induction objects as [| object rest IH]; intros entries entries' H.
  - cbn in H. injection H as <-. exists []. cbn.
    rewrite app_nil_r. split; [done | constructor].
  - cbn [export_objects] in H.
    destruct (export_object _ _ _ object entries) as [entries1 |] eqn:Ho;
      [| done].
    cbn in H. apply export_object_inv in Ho as (new & -> & Hall & He & Hm).
    apply IH in H as (per_object & -> & Hrest).
    exists (new :: per_object). cbn. rewrite <- app_assoc.
    split; [done |]. by constructor.
Qed.

(** X14.  The entries that the MSH export collects for the objects of a
    file come in the order of the objects, and every entry made for an
    object carries the parent name of the object ([INVALID_NAME] without
    parent), its bind matrix when it has one and its rest matrix otherwise,
    that matrix relative to the parent, the identity as inverse parent
    matrix, a weight amount equal to its vertex amount whether or not the
    object has bones, and an empty effect path.  An empty object gives one
    entry under its own name without vertices or faces, a mesh at least one
    entry per material group. *)
Theorem exported_entries_follow_objects (mesh_export_format : MeshFormat)
    (objects : list BlenderObject) (entries : list ObjectEntry) :
  export_objects INVALID_NAME relative_to mesh_export_format objects []
  = Some entries ->
  exists per_object,
    entries = concat per_object
    /\ Forall2
         (fun object new =>
            Forall (fun e =>
                      made_for (parent_name_of INVALID_NAME object)
                        (world_matrix_of object)
                        (local_matrix_of relative_to object) e
                      /\ object_effect_path e = "") new
            /\ (ob_type object = EMPTY ->
                exists e, new = [e] /\ object_name e = ob_name object
                          /\ object_vertex_amount e = 0%nat
                          /\ object_face_amount e = 0%nat)
            /\ (ob_type object = MESH ->
                (length (ob_material_groups object) <= length new)%nat))
         objects per_object.
Proof.
  intros H. apply export_objects_inv in H as (per_object & -> & Hall).
  by exists per_object.
Qed.

End ExportEntryTheorems.

Lemma exported_entries_follow_objects_witness :
  exists entries,
    MshExport.export_objects Samples.no_name Samples.same_matrix
      MshExport.MESH08 [Samples.empty_named "Ok"] [] = Some entries
    /\ length entries = 1%nat.
Proof.
  destruct (MshExport.export_objects Samples.no_name Samples.same_matrix
              MshExport.MESH08 [Samples.empty_named "Ok"] [])
    as [entries |] eqn:E; [| vm_compute in E; discriminate].
  exists entries. split; [reflexivity |].
  destruct (exported_entries_follow_objects Samples.no_name
              Samples.same_matrix MshExport.MESH08
              [Samples.empty_named "Ok"] entries E)
    as (per_object & -> & Hall).
  apply Forall2_cons_inv_l in Hall as (new & rest & (_ & He & _) & Hrest & ->).
  apply Forall2_nil_inv_l in Hrest as ->.
  destruct (He eq_refl) as (e & -> & _). reflexivity.
Defined.

Section ParentRoundTrip.

Import MshImport MshExport MshViews.

Variable INVALID_NAME : string.
Variable relative_to : Matrix -> Matrix -> Matrix.
Variable material_groups_of : CreatedObject -> list MaterialGroup.
Variable matrix_world_of : string -> Matrix.
Variable bone_matrix_of : string -> string -> Matrix.

Lemma import_msh_links existing target_armature preserve records created o
    link :
  import_msh INVALID_NAME existing target_armature preserve records
  = Some created ->
  (o, link) ∈ created ->
  exists parent_name scene_objects,
    link = link_parent INVALID_NAME scene_objects target_armature parent_name
    /\ existing `prefix_of` scene_objects.
Proof.
  unfold import_msh.
  destruct (mapM _ records) as [created0 |]; [| done]. cbn.
  intros [= <-] Hin. apply list_elem_of_fmap in Hin as ([o' pn] & Heq & _).
  injection Heq as -> ->. eexists pn, _. split; [reflexivity |].
  by apply prefix_app_r.
Qed.

(** X15.  An object whose record names a parent that the import finds
    neither among the objects of the scene nor among the bones of the
    armature keeps the name only as the custom property
    [intended_parent_name], which the export does not read: when the
    imported object is exported, every entry made for it has the parent name
    [INVALID_NAME], its local matrix is its world matrix, and its weight
    amount is its vertex amount. *)
Theorem unresolved_parent_is_not_exported (mesh_export_format : MeshFormat)
    (existing : list string) (target_armature : option Armature)
    (preserve_parenting_relationships : bool) (records : list ObjectRecord)
    (created : list (CreatedObject * ParentLink)) (o : CreatedObject)
    (p : string) (entries entries' : list ObjectEntry) :
  import_msh INVALID_NAME existing target_armature
    preserve_parenting_relationships records = Some created ->
  (o, IntendedParent p) ∈ created ->
  export_object INVALID_NAME relative_to mesh_export_format
    (MshRoundTrip.scene_object material_groups_of matrix_world_of
       bone_matrix_of (o, IntendedParent p))
    entries = Some entries' ->
  (p ≠ INVALID_NAME)
  /\ (p ∉ existing)
  /\ exists new,
       entries' = entries ++ new
       /\ Forall (fun e => object_parent_name e = INVALID_NAME
                           /\ object_world_matrix e = co_msh_bind_matrix o
                           /\ object_local_matrix e = object_world_matrix e
                           /\ object_weight_amount e = object_vertex_amount e)
                 new.
Proof.
  intros Hi Hin He.
  destruct (import_msh_links _ _ _ _ _ _ _ Hi Hin)
    as (pn & scene_objects & Hl & Hpre).
  unfold link_parent in Hl.
  case_bool_decide as Hpn; [| done].
  case_bool_decide as Hsc; [done |].
  assert (Hp : pn = p).
  { destruct target_armature as [arm |]; [| by injection Hl].
    case_bool_decide; [done | by injection Hl]. }
  subst pn. split; [done |]. split.
  { intros Hex. apply Hsc. destruct Hpre as [k ->]. apply elem_of_app.
    by left. }
  apply export_object_inv in He as (new & -> & Hall & _).
  exists new. split; [done |].
  eapply Forall_impl; [exact Hall |]. cbn.
  intros e [(H1 & H2 & H3 & _ & H5 & _) _].
  unfold parent_name_of, world_matrix_of, local_matrix_of in *. cbn in *.
  repeat split; congruence.
Qed.

End ParentRoundTrip.

Lemma unresolved_parent_is_not_exported_witness :
  exists created o entries,
    MshImport.import_msh Samples.no_name [] None false
      [MshCases.orphan_record] = Some created
    /\ created = [(o, MshImport.IntendedParent "Hilt")]
    /\ MshExport.export_object Samples.no_name Samples.same_matrix
         MshExport.MESH08
         (MshRoundTrip.scene_object Samples.no_groups Samples.identity_of
            Samples.bone_identity_of (o, MshImport.IntendedParent "Hilt"))
         [] = Some entries
    /\ Forall (fun e => MshExport.object_parent_name e = Samples.no_name)
              entries.
Proof.
  destruct (MshImport.import_msh Samples.no_name [] None false
              [MshCases.orphan_record]) as [created |] eqn:Hi;
    [| vm_compute in Hi; discriminate].
  assert (Hc : exists o, created = [(o, MshImport.IntendedParent "Hilt")]).
  { vm_compute in Hi. injection Hi as <-. by eexists. }
  destruct Hc as [o ->].
  destruct (MshExport.export_object Samples.no_name Samples.same_matrix
              MshExport.MESH08
              (MshRoundTrip.scene_object Samples.no_groups
                 Samples.identity_of Samples.bone_identity_of
                 (o, MshImport.IntendedParent "Hilt")) [])
    as [entries |] eqn:He.
  - exists [(o, MshImport.IntendedParent "Hilt")], o, entries.
    split; [reflexivity |]. split; [reflexivity |]. split; [exact He |].
    destruct (unresolved_parent_is_not_exported Samples.no_name
                Samples.same_matrix Samples.no_groups Samples.identity_of
                Samples.bone_identity_of MshExport.MESH08 [] None false
                [MshCases.orphan_record] _ o "Hilt" [] entries Hi
                ltac:(by left) He)
      as (_ & _ & new & Hnew & Hall).
    cbn in Hnew. subst new.
    eapply Forall_impl; [exact Hall |]. cbn. by intros e [? _].
  - exfalso. unfold MshExport.export_object, MshRoundTrip.scene_object in He.
    cbn in He. destruct (MshImport.co_has_mesh o); cbn in He; discriminate.
Defined.

(** ** The material groups of a mesh *)

Section MeshGroupFacts.

Import MshExport MshMeshData MshMeshViews.

Variable group_index_to_bone_name : gmap nat string.
Variable mesh : Mesh.

Lemma add_bone_ok acc group :
  let '(pairs, l, idx) := acc in
  let '(pairs', l', idx') := add_bone group_index_to_bone_name acc group in
  bones_ok l idx ->
  Forall (fun p => 0 <= fst p < Z.of_nat (length l)) pairs ->
  bones_ok l' idx'
  /\ Forall (fun p => 0 <= fst p < Z.of_nat (length l')) pairs'
  /\ (length l <= length l')%nat.
Proof.
  destruct acc as [[pairs l] idx]. unfold add_bone.
  destruct (group_index_to_bone_name !! fst group) as [name |]; [| done].
  case_bool_decide as Hempty; [done |].
  destruct (idx !! name) as [i |] eqn:Hi.
  - intros Hb Hp. split; [done |]. split; [| done].
    apply Forall_app. split; [done |]. constructor; [| constructor]. cbn.
    apply Hb in Hi. apply lookup_lt_Some in Hi. lia.
  - intros [Hnd Hb] Hp.
    assert (Hfresh : name ∉ l).
    { intros Hin. apply list_elem_of_lookup in Hin as [i Hl].
      apply Hb in Hl. congruence. }
    split; [split |].
    + apply NoDup_app. split; [done |]. split; [| apply NoDup_singleton].
      intros x Hx Hx'. apply list_elem_of_singleton in Hx'. by subst.
    + intros n' i. split.
      * intros Hl. destruct (decide (name = n')) as [<- | Hne].
        -- rewrite lookup_insert_eq in Hl. injection Hl as <-.
           by rewrite list_lookup_middle.
        -- rewrite lookup_insert_ne in Hl by done. apply Hb in Hl.
           by apply lookup_app_l_Some.
      * intros Hl. apply lookup_app_Some in Hl as [Hl | [Hge Hl]].
        -- assert (name ≠ n').
           { intros <-. apply Hfresh. by eapply list_elem_of_lookup_2. }
           rewrite lookup_insert_ne by done. by apply Hb.
        -- destruct (i - length l)%nat eqn:E; [| done].
           cbn in Hl. injection Hl as <-.
           replace i with (length l) by lia. apply lookup_insert_eq.
    + rewrite length_app. cbn. split; [| lia].
      apply Forall_app. split.
      * eapply Forall_impl; [exact Hp |]. cbn. intros p ?. lia.
      * constructor; [| constructor]. cbn. lia.
Qed.

Lemma fold_add_bone_ok groups :
  forall pairs l idx pairs' l' idx',
    fold_left (add_bone group_index_to_bone_name) groups (pairs, l, idx)
    = (pairs', l', idx') ->
    bones_ok l idx ->
    Forall (fun p => 0 <= fst p < Z.of_nat (length l)) pairs ->
    bones_ok l' idx'
    /\ Forall (fun p => 0 <= fst p < Z.of_nat (length l')) pairs'
    /\ (length l <= length l')%nat.
Proof.
  induction groups as [| g groups IH]; intros pairs l idx pairs' l' idx' H Hb Hp.
  - cbn in H. injection H as <- <- <-. done.
  - cbn [fold_left] in H.
    pose proof (add_bone_ok (pairs, l, idx) g) as Hstep. cbn beta iota in Hstep.
    destruct (add_bone group_index_to_bone_name (pairs, l, idx) g)
      as [[pairs1 l1] idx1].
    destruct (Hstep Hb Hp) as (Hb1 & Hp1 & Hl1).
    destruct (IH _ _ _ _ _ _ H Hb1 Hp1) as (Hb' & Hp' & Hl').
    split; [done |]. split; [done | lia].
Qed.

Lemma insert_by_weight_Forall (P : Z * Q -> Prop) p l :
  P p -> Forall P l -> Forall P (insert_by_weight p l).
Proof.
  intros Hp. induction l as [| q l IH]; intros Hl; cbn.
  - by constructor.
  - destruct (Qle_bool (snd q) (snd p)).
    + by constructor.
    + apply Forall_cons in Hl as [Hq Hl]. constructor; [done | by apply IH].
Qed.

Lemma sort_by_weight_Forall (P : Z * Q -> Prop) l :
  Forall P l -> Forall P (sort_by_weight l).
Proof.
  induction 1 as [| p l Hp Hl IH]; cbn; [constructor |].
  by apply insert_by_weight_Forall.
Qed.

Lemma vertex_weights_slots (bones : nat) pairs :
  Forall (fun p => 0 <= fst p < Z.of_nat bones) pairs ->
  length (snd (vertex_weights pairs)) = 4%nat
  /\ Forall (fun i => i = -1 \/ 0 <= i < Z.of_nat bones)
            (snd (vertex_weights pairs)).
Proof.
  intros Hp. unfold vertex_weights. cbv zeta. cbn [snd].
  set (top := take 4 (sort_by_weight pairs)).
  assert (Hlen : (length top <= 4)%nat).
  { subst top. rewrite length_take. lia. }
  assert (Htop : Forall (fun p => 0 <= fst p < Z.of_nat bones) top).
  { subst top. apply Forall_take. by apply sort_by_weight_Forall. }
  split.
  - rewrite length_app, length_replicate, !length_map. lia.
  - apply Forall_app. split.
    + apply Forall_fmap. eapply Forall_impl; [exact Htop |]. cbn. tauto.
    + apply Forall_replicate. by left.
Qed.

Lemma slots_ok_mono (b b' : nat) v :
  (b <= b')%nat -> slots_ok b v -> slots_ok b' v.
Proof.
  intros Hle [H4 Hall]. split; [done |].
  eapply Forall_impl; [exact Hall |]. cbn. intros i [-> | Hi]; [by left |].
  right. lia.
Qed.

Lemma triangle_in_mono (n n' : nat) tri :
  (n <= n')%nat -> triangle_in n tri -> triangle_in n' tri.
Proof. unfold triangle_in. lia. Qed.

Lemma lookup_key_Some vertex_key m i :
  lookup_key vertex_key m = Some i -> i ∈ map snd m.
Proof.
  unfold lookup_key. destruct (find _ m) as [e |] eqn:E; [| done].
  cbn. intros [= <-]. apply find_some in E as [Hin _].
  apply list_elem_of_In in Hin. by apply list_elem_of_fmap_2.
Qed.

Lemma add_corner_ok loop_index st st' i :
  group_ok st ->
  add_corner group_index_to_bone_name mesh loop_index st = Some (st', i) ->
  group_ok st'
  /\ (i < length (gs_exporter st'))%nat
  /\ (length (gs_exporter st) <= length (gs_exporter st'))%nat
  /\ gs_polygons st' = gs_polygons st.
Proof.
  intros (Hmap & Hpoly & Hbones & Hslots). unfold add_corner.
  destruct (corner_key mesh loop_index) as [[[vi uv] nrm] |]; [| done]. cbn.
  destruct (lookup_key _ (gs_vertex_map st)) as [j |] eqn:Hk.
  - intros [= <- <-]. split; [done |]. split; [| done].
    apply lookup_key_Some, list_elem_of_fmap in Hk as (e & -> & He).
    by eapply Forall_forall in Hmap.
  - destruct (mesh_vertices mesh !! vi) as [mv |]; [| done].
    cbn.
    destruct (fold_left _ (groups mv) _) as [[pairs l] idx] eqn:Hf.
    destruct (fold_add_bone_ok _ _ _ _ _ _ _ Hf Hbones ltac:(constructor))
      as (Hb' & Hp' & Hl').
    intros [= <- <-]. cbn. rewrite length_app. cbn.
    split; [| split; [lia | split; [lia | done]]].
    split; [| split; [| split]]; cbn.
    + rewrite length_app. cbn. apply Forall_app. split.
      * eapply Forall_impl; [exact Hmap |]. cbn. intros e ?. lia.
      * constructor; [cbn; lia | constructor].
    + rewrite length_app. cbn.
      eapply Forall_impl; [exact Hpoly |]. intros tri.
      apply triangle_in_mono. lia.
    + done.
    + apply Forall_app. split.
      * eapply Forall_impl; [exact Hslots |]. intros v.
        by apply slots_ok_mono.
      * constructor; [| constructor]. unfold slots_ok. cbn [ev_weights].
        by apply vertex_weights_slots.
Qed.

Lemma add_corners_ok loop_indices :
  forall st st' poly_indices,
    group_ok st ->
    add_corners group_index_to_bone_name mesh loop_indices st
    = Some (st', poly_indices) ->
    group_ok st'
    /\ Forall (fun i => (i < length (gs_exporter st'))%nat) poly_indices
    /\ (length (gs_exporter st) <= length (gs_exporter st'))%nat
    /\ gs_polygons st' = gs_polygons st
    /\ length poly_indices = length loop_indices.
Proof.
  induction loop_indices as [| k rest IH]; intros st st' poly_indices Hok H.
  - cbn in H. injection H as <- <-. split; [done |].
    split; [constructor |]. split; [lia |]. by split.
  - cbn [add_corners] in H.
    destruct (add_corner _ _ k st) as [[st1 i] |] eqn:Hc; [| done].
    cbn in H.
    destruct (add_corners _ _ rest st1) as [[st2 idxs] |] eqn:Hr; [| done].
    cbn in H. injection H as <- <-.
    apply add_corner_ok in Hc as (Hok1 & Hi & Hl1 & Hp1); [| done].
    apply IH in Hr as (Hok2 & His & Hl2 & Hp2 & Hlen); [| done].
    split; [done |]. split; [constructor; [lia | done] |].
    split; [lia |]. split; [congruence | cbn; lia].
Qed.

Lemma fan_in (n v0 : nat) l :
  (v0 < n)%nat -> Forall (fun i => (i < n)%nat) l ->
  Forall (triangle_in n) (fan v0 l).
Proof.
  intros H0. induction l as [| a [| b rest] IH]; intros Hl; cbn;
    [constructor | constructor |].
  apply Forall_cons in Hl as [Ha Hl]. pose proof Hl as Hl'.
  apply Forall_cons in Hl' as [Hb _].
  constructor; [by repeat split | by apply IH].
Qed.

Lemma length_fan (v0 : nat) l : length (fan v0 l) = (length l - 1)%nat.
Proof.
  induction l as [| a [| b rest] IH]; [done | done |].
  cbn [fan length] in *. lia.
Qed.

Lemma triangulate_fan poly_indices :
  triangulate poly_indices
  = match poly_indices with
    | [] => None
    | v0 :: rest => Some (fan v0 rest)
    end.
Proof. by destruct poly_indices as [| a [| b [| c [| d [| e l]]]]]. Qed.

Lemma add_polygon_ok poly st st' :
  group_ok st ->
  add_polygon group_index_to_bone_name mesh poly st = Some st' ->
  group_ok st'
  /\ (length (loop_indices poly) ≠ 0)%nat
  /\ length (gs_polygons st')
     = (length (gs_polygons st) + (length (loop_indices poly) - 2))%nat.
Proof.
  intros Hok. unfold add_polygon.
  destruct (add_corners _ _ _ st) as [[st1 poly_indices] |] eqn:Hc; [| done].
  cbn. rewrite triangulate_fan.
  destruct poly_indices as [| v0 rest]; [done |]. cbn. intros [= <-].
  apply add_corners_ok in Hc as ((Hmap & Hpoly & Hb & Hs) & Hin & Hl & Hp & Hlen);
    [| done].
  apply Forall_cons in Hin as [H0 Hrest].
  split; [| split].
  - split; [done |]. split; [| done]. cbn. apply Forall_app. split; [done |].
    by apply fan_in.
  - rewrite <- Hlen. done.
  - cbn. rewrite length_app, length_fan, Hp, <- Hlen. cbn. lia.
Qed.

Lemma add_polygons_ok group_polys :
  forall st st',
    group_ok st ->
    add_polygons group_index_to_bone_name mesh group_polys st = Some st' ->
    group_ok st'
    /\ Forall (fun poly => (length (loop_indices poly) ≠ 0)%nat) group_polys
    /\ length (gs_polygons st')
       = (length (gs_polygons st)
          + sum_list (map (fun poly => length (loop_indices poly) - 2)%nat
                          group_polys))%nat.
Proof.
  induction group_polys as [| poly rest IH]; intros st st' Hok H.
  - cbn in H. injection H as <-. cbn. split; [done |].
    split; [constructor | lia].
  - cbn [add_polygons] in H.
    destruct (add_polygon _ _ poly st) as [st1 |] eqn:Hp; [| done].
    cbn in H. apply add_polygon_ok in Hp as (Hok1 & Hne & Hl1); [| done].
    apply IH in H as (Hok' & Hall & Hl'); [| done].
    split; [done |]. split; [by constructor |]. cbn. lia.
Qed.

Lemma empty_group_ok : group_ok empty_group.
Proof.
  split; [constructor |]. split; [constructor |]. split; [| constructor].
  split; [constructor |]. intros name i. cbn. rewrite lookup_empty.
  split; [done |]. by destruct i.
Qed.

End MeshGroupFacts.

Section MeshGroupTheorems.

Import MshExport MshMeshData MshMeshViews.

Lemma export_group_returns mesh_export_format name parent_name world_matrix
    local_matrix g entries :
  well_formed g ->
  is_Some (export_group mesh_export_format name parent_name world_matrix
             local_matrix g entries).
Proof.
  intros Hwf. unfold export_group. cbv zeta.
  destruct (_ <=? 65535).
  - destruct (add_object_data_Some mesh_export_format
                (sub_object_base_name_of name (mat_idx g)) parent_name
                world_matrix local_matrix (group_exporter g)
                (group_exporter_polygons g) (group_unique_bones_list g)
                (current_texture_path g) "" entries
                (well_formed_corners g Hwf)) as (e & -> & _).
    by eexists.
  - destruct (split_loop_ok mesh_export_format
                (sub_object_base_name_of name (mat_idx g)) parent_name
                world_matrix local_matrix g Hwf
                (seq 0 (Z.to_nat
                          (maximum_split_amount_of
                             (Z.of_nat (length (group_exporter_polygons g))
                              * 3))))
                entries) as (new & -> & _).
    by eexists.
Qed.

Lemma export_groups_return mesh_export_format name parent_name world_matrix
    local_matrix groups :
  Forall well_formed groups ->
  forall entries,
    is_Some (export_groups mesh_export_format name parent_name world_matrix
               local_matrix groups entries).
Proof.
  induction 1 as [| g groups Hg Hall IH]; intros entries; cbn; [by eexists |].
  destruct (export_group_returns mesh_export_format name parent_name
              world_matrix local_matrix g entries Hg) as [entries1 ->].
  cbn. apply IH.
Qed.

Variable texture_path_of : nat -> string.
Variable group_index_to_bone_name : gmap nat string.

Lemma material_group_of_ok mesh group g :
  material_group_of texture_path_of group_index_to_bone_name mesh group
  = Some g ->
  mat_idx g = fst group
  /\ well_formed g
  /\ NoDup (group_unique_bones_list g)
  /\ Forall (slots_ok (length (group_unique_bones_list g))) (group_exporter g)
  /\ Forall (fun poly => (length (loop_indices poly) ≠ 0)%nat) (snd group)
  /\ length (group_exporter_polygons g)
     = sum_list (map (fun poly => length (loop_indices poly) - 2)%nat
                     (snd group)).
Proof.
  unfold material_group_of.
  destruct (add_polygons _ _ _ empty_group) as [st |] eqn:H; [| done].
  cbn. intros [= <-]. cbn.
  apply add_polygons_ok in H
    as ((Hmap & Hpoly & [Hnd Hb] & Hslots) & Hne & Hlen);
    [| apply empty_group_ok].
  split; [done |]. split; [exact Hpoly |]. split; [done |].
  split; [done |]. split; [done |]. exact Hlen.
Qed.

Lemma built_groups_ok (material_slots : nat)
    (mesh : Mesh) (groups : list MaterialGroup) :
  material_groups_of texture_path_of group_index_to_bone_name material_slots
    mesh = Some groups ->
  Forall2
    (fun group g =>
       mat_idx g = fst group
       /\ well_formed g
       /\ NoDup (group_unique_bones_list g)
       /\ Forall (slots_ok (length (group_unique_bones_list g)))
                 (group_exporter g)
       /\ Forall (fun poly => (length (loop_indices poly) ≠ 0)%nat)
                 (snd group)
       /\ length (group_exporter_polygons g)
          = sum_list (map (fun poly => length (loop_indices poly) - 2)%nat
                          (snd group)))
    (material_polygon_groups_of material_slots mesh) groups
  /\ Forall well_formed groups.
Proof.
  unfold material_groups_of. intros H. apply mapM_Some in H.
  assert (Hall : Forall2
            (fun group g =>
               mat_idx g = fst group
               /\ well_formed g
               /\ NoDup (group_unique_bones_list g)
               /\ Forall (slots_ok (length (group_unique_bones_list g)))
                         (group_exporter g)
               /\ Forall (fun poly => (length (loop_indices poly) ≠ 0)%nat)
                         (snd group)
               /\ length (group_exporter_polygons g)
                  = sum_list
                      (map (fun poly => length (loop_indices poly) - 2)%nat
                           (snd group)))
            (material_polygon_groups_of material_slots mesh) groups).
  { eapply Forall2_impl; [exact H |]. intros group g.
    apply material_group_of_ok. }
  split; [exact Hall |].
  clear H. induction Hall as [| group g l k (_ & Hwf & _) _ IH];
    by constructor.
Qed.

(** X16.  The material groups that the export builds from a mesh, when the
    loops over its polygons raise no exception.  There is one group per
    material index met, in the order in which the indices are met.  In
    every group the triangles refer to vertices of the group, so that the
    splitting and [__add_object_data] never raise an IndexError for it; a
    polygon of n loops has given n - 2 triangles (none for n below 3, and a
    polygon without loops raises); no bone is listed twice in the bones of
    the group; and every vertex has four bone slots, each holding -1 or a
    position of that list. *)
Theorem material_groups_are_well_formed (material_slots : nat) (mesh : Mesh)
    (groups : list MaterialGroup) :
  material_groups_of texture_path_of group_index_to_bone_name material_slots
    mesh = Some groups ->
  Forall2
    (fun group g =>
       mat_idx g = fst group
       /\ well_formed g
       /\ NoDup (group_unique_bones_list g)
       /\ Forall (slots_ok (length (group_unique_bones_list g)))
                 (group_exporter g)
       /\ Forall (fun poly => (length (loop_indices poly) ≠ 0)%nat)
                 (snd group)
       /\ length (group_exporter_polygons g)
          = sum_list (map (fun poly => length (loop_indices poly) - 2)%nat
                          (snd group)))
    (material_polygon_groups_of material_slots mesh) groups
  /\ forall mesh_export_format name parent_name world_matrix local_matrix
            entries,
       is_Some (export_groups mesh_export_format name parent_name
                  world_matrix local_matrix groups entries).
Proof.
  intros H.
  destruct (built_groups_ok _ _ _ H) as [Hall Hwf].
  split; [exact Hall |]. intros. by apply export_groups_return.
Qed.

End MeshGroupTheorems.

Lemma material_groups_are_well_formed_witness :
  exists g,
    MshMeshData.material_groups_of MeshCases.no_texture MeshCases.two_bones 1
      MeshCases.square = Some [g]
    /\ MshExport.well_formed g
    /\ length (MshExport.group_exporter_polygons g) = 2%nat.
Proof.
  destruct (MshMeshData.material_groups_of MeshCases.no_texture
              MeshCases.two_bones 1 MeshCases.square)
    as [[| g [| ? ?]] |] eqn:E; try (vm_compute in E; discriminate).
  exists g. split; [reflexivity |].
  destruct (material_groups_are_well_formed MeshCases.no_texture
              MeshCases.two_bones 1 MeshCases.square [g] E) as [Hall _].
  apply Forall2_cons_inv_r in Hall
    as (group & rest & (_ & Hwf & _ & _ & _ & Hlen) & _ & Hgroups).
  split; [exact Hwf |]. rewrite Hlen.
  vm_compute in Hgroups. injection Hgroups as <- _. reflexivity.
Defined.

(** ** The vertices of a material group *)

Section MeshKeyFacts.

Import MshExport MshMeshData MshMeshViews.

Variable group_index_to_bone_name : gmap nat string.
Variable mesh : Mesh.

















End MeshKeyFacts.

Section MeshKeyTheorem.

Import MshExport MshMeshData MshMeshViews.

Variable texture_path_of : nat -> string.
Variable group_index_to_bone_name : gmap nat string.


End MeshKeyTheorem.


(** ** The names of the animation targets of a mesh *)

Section SplitNameFacts.

Import MshExport MshMeshData MshMeshViews.

Lemma export_group_names mesh_export_format name parent_name world_matrix
    local_matrix g entries :
  well_formed g ->
  exists new,
    export_group mesh_export_format name parent_name world_matrix
      local_matrix g entries = Some (entries ++ new)
    /\ map object_name new
       = Ani.split_names name (mat_idx g)
           (Z.of_nat (length (group_exporter_polygons g)) * 3).
Proof.
  intros Hwf. unfold export_group, Ani.split_names. cbv zeta.
  destruct (_ <=? 65535).
  - destruct (add_object_data_Some mesh_export_format
                (sub_object_base_name_of name (mat_idx g)) parent_name
                world_matrix local_matrix (group_exporter g)
                (group_exporter_polygons g) (group_unique_bones_list g)
                (current_texture_path g) "" entries
                (well_formed_corners g Hwf)) as (e & -> & _ & Hn & _).
    exists [e]. split; [done |]. cbn. by rewrite Hn.
  - set (ks := seq 0 _).
    destruct (split_loop_ok mesh_export_format
                (sub_object_base_name_of name (mat_idx g)) parent_name
                world_matrix local_matrix g Hwf ks entries)
      as (new & -> & Hlen & Hall).
    exists new. split; [done |].
    apply list_eq. intros i. rewrite !list_lookup_fmap.
    destruct (ks !! i) as [k |] eqn:Hk; cbn.
    + destruct (Hall i k Hk) as (e & s & He & _ & _ & _ & Hn & _).
      rewrite He. cbn. by rewrite Hn.
    + apply lookup_ge_None in Hk. rewrite <- Hlen in Hk.
      apply lookup_ge_None in Hk. by rewrite Hk.
Qed.

Lemma export_groups_names mesh_export_format name parent_name world_matrix
    local_matrix groups :
  Forall well_formed groups ->
  forall entries,
    exists new,
      export_groups mesh_export_format name parent_name world_matrix
        local_matrix groups entries = Some (entries ++ new)
      /\ map object_name new
         = flat_map (fun g =>
                       Ani.split_names name (mat_idx g)
                         (Z.of_nat (length (group_exporter_polygons g)) * 3))
                    groups.
Proof.
  induction 1 as [| g groups Hg Hall IH]; intros entries.
  - exists []. cbn. by rewrite app_nil_r.
  - cbn [export_groups].
    destruct (export_group_names mesh_export_format name parent_name
                world_matrix local_matrix g entries Hg) as (new1 & -> & Hn1).
    cbn. destruct (IH (entries ++ new1)) as (new2 & -> & Hn2).
    exists (new1 ++ new2). rewrite <- app_assoc. split; [done |].
    cbn. by rewrite map_app, Hn1, Hn2.
Qed.

(** The polygons by material index, as a list and as a map. *)
Lemma add_to_group_keys mat_idx poly G :
  map fst (add_to_group mat_idx poly G)
  = if bool_decide (mat_idx ∈ map fst G) then map fst G
    else map fst G ++ [mat_idx].
Proof.
  induction G as [| [m polys] G IH]; cbn; [done |].
  destruct (m =? mat_idx)%nat eqn:E.
  - apply Nat.eqb_eq in E as ->. cbn.
    rewrite bool_decide_eq_true_2; [done | by left].
  - apply Nat.eqb_neq in E. cbn. rewrite IH.
    case_bool_decide as Hin.
    + rewrite bool_decide_eq_true_2; [done | by right].
    + rewrite bool_decide_eq_false_2; [done |].
      intros [? | ?]%elem_of_cons; [congruence | done].
Qed.

Lemma add_to_group_NoDup mat_idx poly G :
  NoDup (map fst G) -> NoDup (map fst (add_to_group mat_idx poly G)).
Proof.
  intros Hnd. rewrite add_to_group_keys. case_bool_decide as Hin; [done |].
  apply NoDup_app. split; [done |]. split; [| apply NoDup_singleton].
  intros x Hx Hx'. apply list_elem_of_singleton in Hx'. by subst.
Qed.

Lemma add_to_group_map mat_idx poly (G : list (nat * list MeshPolygon)) :
  NoDup (map fst G) ->
  (list_to_map (add_to_group mat_idx poly G) : gmap nat (list MeshPolygon))
  = <[mat_idx := default [] ((list_to_map G : gmap nat (list MeshPolygon))
                               !! mat_idx) ++ [poly]]>
      (list_to_map G).
Proof.
  induction G as [| [m polys] G IH]; intros Hnd; cbn.
  - done.
  - apply NoDup_cons in Hnd as [Hm Hnd].
    destruct (m =? mat_idx)%nat eqn:E.
    + apply Nat.eqb_eq in E as ->. cbn.
      rewrite lookup_insert_eq. cbn. by rewrite insert_insert_eq.
    + apply Nat.eqb_neq in E. cbn. rewrite IH by done.
      rewrite lookup_insert_ne by done. by rewrite insert_insert_ne.
Qed.

End SplitNameFacts.

Section SplitNameTheorem.

Import MshExport MshMeshData MshMeshViews.

Lemma indices_count_of_snoc polys poly :
  indices_count_of (polys ++ [poly])
  = indices_count_of polys + poly_indices_count poly.
Proof.
  unfold indices_count_of. induction polys as [| p polys IH]; cbn; [lia |].
  rewrite IH. lia.
Qed.

Lemma indices_count_of_triangles polys :
  Forall (fun poly => (2 <= length (loop_indices poly))%nat) polys ->
  indices_count_of polys
  = Z.of_nat (sum_list (map (fun poly => length (loop_indices poly) - 2)%nat
                            polys)) * 3.
Proof.
  unfold indices_count_of, poly_indices_count.
  induction 1 as [| p polys Hp Hall IH]; cbn; [done |].
  rewrite IH. lia.
Qed.

Lemma add_to_group_Forall (P : MeshPolygon -> Prop) mat_idx poly G :
  P poly ->
  Forall (fun group => Forall P (snd group)) G ->
  Forall (fun group => Forall P (snd group)) (add_to_group mat_idx poly G).
Proof.
  intros Hp. induction 1 as [| [m polys] G Hg Hall IH]; cbn.
  - repeat constructor. done.
  - destruct (m =? mat_idx)%nat.
    + constructor; [| done]. cbn. apply Forall_app. split; [done |].
      by constructor.
    + by constructor.
Qed.

Lemma groups_and_counts (P : MeshPolygon -> Prop) (object : Ani.SceneObject)
    polys :
  Forall P polys ->
  forall (G : list (nat * list MeshPolygon)) (C : gmap nat Z),
    NoDup (map fst G) ->
    Forall (fun group => Forall P (snd group)) G ->
    C = indices_count_of <$> (list_to_map G : gmap nat (list MeshPolygon)) ->
    let G' :=
      fold_left (fun acc poly =>
                   add_to_group (mat_idx_of (Ani.so_material_slots object) poly)
                     poly acc)
                polys G in
    let C' :=
      fold_left
        (fun counts poly =>
           let mat_idx :=
             if (Ani.material_index poly <? Ani.so_material_slots object)%nat
             then Ani.material_index poly else 0%nat in
           let poly_indices_count := (Z.of_nat (Ani.loop_total poly) - 2) * 3 in
           <[mat_idx := default 0 (counts !! mat_idx) + poly_indices_count]>
             counts)
        (map (fun poly =>
                {| Ani.material_index := material_index poly;
                   Ani.loop_total := length (loop_indices poly) |})
             polys)
        C in
    NoDup (map fst G')
    /\ Forall (fun group => Forall P (snd group)) G'
    /\ C' = indices_count_of <$> (list_to_map G' : gmap nat (list MeshPolygon)).
Proof.
  induction 1 as [| poly polys Hp Hall IH]; intros G C Hnd HP HC; cbn.
  - done.
  - apply IH.
    + by apply add_to_group_NoDup.
    + by apply add_to_group_Forall.
    + rewrite add_to_group_map by done. rewrite fmap_insert. subst C.
      unfold mat_idx_of. f_equal. rewrite lookup_fmap.
      destruct (list_to_map G !! _) as [l |]; cbn.
      * by rewrite indices_count_of_snoc.
      * unfold indices_count_of, poly_indices_count. cbn. lia.
Qed.

Lemma flat_map_ext_elem {A B} (f g : A -> list B) (l : list A) :
  (forall x, x ∈ l -> f x = g x) -> flat_map f l = flat_map g l.
Proof.
  induction l as [| x l IH]; intros H; cbn; [done |].
  rewrite (H x) by (by left). rewrite IH; [done |].
  intros y Hy. apply H. by right.
Qed.

Lemma map_flat_map_names {A} (f : A -> list string)
    (add : string -> Ani.ExportTarget) (l : list A) :
  (forall n, Ani.export_object_name (add n) = n) ->
  map Ani.export_object_name (flat_map (fun m => map add (f m)) l)
  = flat_map f l.
Proof.
  intros Hadd. induction l as [| m l IH]; cbn; [done |].
  rewrite map_app, IH. f_equal. rewrite map_map.
  rewrite <- (map_id (f m)) at 2. apply map_ext. intros n. apply Hadd.
Qed.

Variable texture_path_of : nat -> string.
Variable group_index_to_bone_name : gmap nat string.
Variable matrix_basis :
  Ani.Action -> string -> Z -> Quaternion * Vector3 * Vector3.

(** X18.  The animation targets of a mesh object and the objects of its
    MSH file.  For a mesh whose polygons have at least two loops each, the
    names under which the ANI export writes the targets of the object are,
    up to their order, the names of the objects that the MSH export makes
    for it: one name per material group, or one per split of 21845
    triangles when the group has more than 65535 triangle indices.  The
    MSH export takes the material indices in the order in which the
    polygons meet them, the ANI export in increasing order. *)
Theorem ani_targets_match_msh_objects (mesh : Mesh)
    (groups : list MaterialGroup) (mesh_export_format : MeshFormat)
    (parent_name : string) (world_matrix local_matrix : Matrix)
    (entries : list ObjectEntry) (action : Ani.Action)
    (object : Ani.SceneObject) :
  material_groups_of texture_path_of group_index_to_bone_name
    (Ani.so_material_slots object) mesh = Some groups ->
  export_groups mesh_export_format (Ani.so_name object) parent_name
    world_matrix local_matrix groups [] = Some entries ->
  Ani.so_type object = Ani.MESH ->
  Ani.so_polygons object = ani_polygons mesh ->
  Forall (fun poly => (2 <= length (loop_indices poly))%nat)
         (mesh_polygons mesh) ->
  map Ani.export_object_name (Ani.object_targets matrix_basis action object)
  ≡ₚ map object_name entries.
Proof.
  intros Hgroups Hexp Htype Hpolys Hloops.
  set (name := Ani.so_name object) in *.
  set (G := material_polygon_groups_of (Ani.so_material_slots object) mesh).
  destruct (built_groups_ok texture_path_of
              group_index_to_bone_name _ mesh groups Hgroups) as [Hall Hwf].
  (* the MSH names *)
  destruct (export_groups_names mesh_export_format name parent_name
              world_matrix local_matrix groups Hwf []) as (new & Hnew & Hn).
  rewrite Hexp in Hnew. cbn in Hnew. injection Hnew as ->. rewrite Hn.
  (* the groups and the counts *)
  destruct (groups_and_counts
              (fun poly => (2 <= length (loop_indices poly))%nat) object
              (mesh_polygons mesh) Hloops [] ∅ ltac:(constructor)
              ltac:(constructor) (eq_sym (fmap_empty _)))
    as (Hnd & HP & HC).
  fold (material_polygon_groups_of (Ani.so_material_slots object) mesh) in *.
  fold G in Hnd, HP, HC, Hall.
  assert (Hcounts : Ani.material_polygon_counts object
                    = indices_count_of
                        <$> (list_to_map G : gmap nat (list MeshPolygon))).
  { unfold Ani.material_polygon_counts. rewrite Hpolys. exact HC. }
  (* the ANI names *)
  unfold Ani.object_targets. rewrite Htype. cbv zeta.
  rewrite Hcounts.
  set (C := indices_count_of <$> (list_to_map G : gmap nat (list MeshPolygon))).
  transitivity (flat_map (fun mat_idx =>
                            Ani.split_names name mat_idx
                              (default 0 (C !! mat_idx)))
                         (map fst G)).
  - erewrite map_flat_map_names; [| intros; reflexivity].
    apply Permutation_flat_map.
    rewrite merge_sort_Permutation. subst C.
    rewrite map_to_list_fmap, map_map. cbn.
    change (map (fun x : nat * list MeshPolygon => fst x)
                (map_to_list (list_to_map G)))
      with (map fst (map_to_list (list_to_map G
                                   : gmap nat (list MeshPolygon)))).
    by rewrite map_to_list_to_map.
  - apply (reflexive_eq (R := Permutation)).
    clear Hcounts HC Hn Hexp Hgroups Hwf.
    induction Hall as [| [m polys] g G' groups' (Hm & _ & _ & _ & _ & Hlen)
                         Hrest IH]; [done |].
    cbn [map fst flat_map]. cbn in Hm, Hlen.
    apply NoDup_cons in Hnd as [Hm' Hnd'].
    apply Forall_cons in HP as [Hp HP'].
    f_equal.
    + rewrite Hm, Hlen. f_equal. subst C. rewrite lookup_fmap.
      cbn. rewrite lookup_insert_eq. cbn.
      by apply indices_count_of_triangles.
    + rewrite <- (IH Hnd' HP'). clear IH.
      apply flat_map_ext_elem. intros m0 Hm0.
      f_equal. subst C. rewrite !lookup_fmap. cbn.
      rewrite lookup_insert_ne; [done |]. by intros <-.
Qed.

End SplitNameTheorem.

Lemma ani_targets_match_msh_objects_witness :
  exists groups entries,
    MshMeshData.material_groups_of MeshCases.no_texture MeshCases.two_bones
      1 MeshCases.square = Some groups
    /\ MshExport.export_groups MshExport.MESH08 "Plane" Samples.no_name
         MshExport.Identity4 MshExport.Identity4 groups [] = Some entries
    /\ map Ani.export_object_name
           (Ani.object_targets Samples.still Samples.idle MeshCases.plane)
       ≡ₚ map MshExport.object_name entries.
Proof.
  destruct (MshMeshData.material_groups_of MeshCases.no_texture
              MeshCases.two_bones 1 MeshCases.square)
    as [groups |] eqn:Hg; [| vm_compute in Hg; discriminate].
  destruct (MshExport.export_groups MshExport.MESH08 "Plane" Samples.no_name
              MshExport.Identity4 MshExport.Identity4 groups [])
    as [entries |] eqn:He;
    [| vm_compute in Hg; injection Hg as <-; vm_compute in He; discriminate].
  exists groups, entries. split; [reflexivity |]. split; [exact He |].
  apply (ani_targets_match_msh_objects MeshCases.no_texture
           MeshCases.two_bones Samples.still MeshCases.square groups
           MshExport.MESH08 Samples.no_name MshExport.Identity4
           MshExport.Identity4 entries Samples.idle MeshCases.plane Hg He
           eq_refl eq_refl).
  repeat constructor.
Defined.
